(** * TravelBuddy AI: the heuristic core, embedded and verified

    A shallow embedding of the straight-line heuristics of the travel
    planner:

    - [PersonalizedTripPlanner.validate_budget], [validate_duration],
      [_create_fallback_itinerary] and the control flow of
      [generate_personalized_itinerary]
      (travel_planner_agent/travel_planning_agent.py);
    - [TravelPlanningTool._parse_distance] and [_parse_duration]
      (travel_planner_agent/travel_planning_tool.py);
    - [calculate_minimum_duration], [get_feasible_durations],
      [transform_backend_response_to_frontend_format] and the three
      saved-trip endpoints (travel_planner_ui/server/main.py);
    - the processing of the model's response ([_process_ai_response],
      [_create_structured_response], [_enhance_self_mode],
      [_enhance_booking_mode], [_calculate_fuel_costs]) and
      [search_and_respond] (travel_planning_agent.py);
    - [get_approximate_distance] and the estimate that
      [get_transportation_details] gives without the language model
      (main.py).

    Modelling conventions.

    - A Python [str] is a [string] holding its UTF-8 bytes.  The character
      classes and case mappings ([\d], [\s], [str.lower], [str.title],
      [repr]) are modelled on the ASCII range; bytes above 127 are kept
      as they are and belong to no class.  The rupee sign of the budget
      pattern is its three-byte encoding.  Python reads the decimal
      digits, the white space and the letters of every script, so on a
      text with other characters than ASCII the model and the code can
      differ; a statement about what is read from a text says so by a
      hypothesis ([is_ascii], [ascii_or_rupee]) where that matters.
    - A Python [int] is a [Z].  CPython refuses to convert more than 4300
      digits between [str] and [int] ([sys.get_int_max_str_digits()], which
      the program leaves at its default); [int_of_string] and
      [py_str_checked] raise the ValueError of these conversions, and the
      validators, which convert what they are given whatever its length,
      go through them.  Where the other functions format a value
      ([py_str]), an int inside it is taken to have at most 4300 digits,
      as every int that arrives in a JSON document has.
    - A Python [float] is an IEEE-754 binary64 value, [spec_float] with
      precision 53 and maximal exponent 1024, rounded to nearest even.
    - A dynamically typed value ([Any]) is a [pyval]: None, booleans,
      integers, strings, lists and string-keyed dictionaries.  A
      dictionary is an association list in insertion order; a later
      binding of a key shadows an earlier one, as in a dict display.
    - A Python exception is a value of [exn], an instance of [Exception]
      (an interrupt or the cancellation of a task is outside the model);
      code that can raise returns a [result].  Printing is not modelled.
    - The language model, its tools and the clock are the outside world:
      a call reads and changes a state of type [world], and what the
      clock shows is an input of the function that reads it. *)

From Stdlib Require Import ZArith List String Ascii Bool Lia DecimalString.
From Stdlib Require Import Floats.SpecFloat.
From stdpp Require Import base option list gmap strings.
Import ListNotations.

Set Warnings "-register-all".
Local Open Scope string_scope.
Local Open Scope Z_scope.

(* ===================================================================== *)
(** * Exceptions *)
(* ===================================================================== *)

Inductive exn_class :=
  | AttributeError
  | TypeError
  | ValueError
  | OverflowError
  | KeyError
  | ExternalError.

Record exn := Exn { exn_cls : exn_class; exn_msg : string }.

Inductive result (A : Type) :=
  | Ok (a : A)
  | Raise (e : exn).
Arguments Ok {A} a.
Arguments Raise {A} e.

Definition rbind {A B} (m : result A) (k : A -> result B) : result B :=
  match m with
  | Ok a => k a
  | Raise e => Raise e
  end.

Notation "'do' x <- m ; k" := (rbind m (fun x => k))
  (at level 10, x name, m at level 100, k at level 200).

(** [try: body except Exception as e: handler e] *)
Definition try_except {A} (body : result A) (handler : exn -> A) : A :=
  match body with
  | Ok a => a
  | Raise e => handler e
  end.

(** [try: body except (C1, C2, ...): handler]; other classes propagate. *)
Definition try_except_only {A} (classes : list exn_class)
    (cls_eqb : exn_class -> exn_class -> bool)
    (body : result A) (handler : A) : result A :=
  match body with
  | Ok a => Ok a
  | Raise e => if existsb (cls_eqb (exn_cls e)) classes then Ok handler else Raise e
  end.

Definition exn_class_eqb (a b : exn_class) : bool :=
  match a, b with
  | AttributeError, AttributeError
  | TypeError, TypeError
  | ValueError, ValueError
  | OverflowError, OverflowError
  | KeyError, KeyError
  | ExternalError, ExternalError => true
  | _, _ => false
  end.

(* ===================================================================== *)
(** * Strings *)
(* ===================================================================== *)

Definition char_code (c : ascii) : N := N_of_ascii c.

Definition in_range (lo hi : N) (c : ascii) : bool :=
  ((lo <=? char_code c) && (char_code c <=? hi))%N.

(** [\d] *)
Definition is_digit (c : ascii) : bool := in_range 48 57 c.

(** [\s]: tab, newline, vertical tab, form feed, carriage return, the
    four separators 28..31 and the space. *)
Definition is_space (c : ascii) : bool :=
  in_range 9 13 c || in_range 28 31 c || (char_code c =? 32)%N.

Definition is_upper (c : ascii) : bool := in_range 65 90 c.
Definition is_lower (c : ascii) : bool := in_range 97 122 c.
Definition is_alpha (c : ascii) : bool := is_upper c || is_lower c.

Definition to_lower (c : ascii) : ascii :=
  if is_upper c then ascii_of_N (char_code c + 32) else c.

Definition to_upper (c : ascii) : ascii :=
  if is_lower c then ascii_of_N (char_code c - 32) else c.

Fixpoint map_string (f : ascii -> ascii) (s : string) : string :=
  match s with
  | EmptyString => EmptyString
  | String c s' => String (f c) (map_string f s')
  end.

(** [s.lower()] *)
Definition str_lower (s : string) : string := map_string to_lower s.

(** [s.title()]: a letter that follows a letter is lowercased, any other
    letter is uppercased. *)
Fixpoint str_title_from (prev_cased : bool) (s : string) : string :=
  match s with
  | EmptyString => EmptyString
  | String c s' =>
      String (if prev_cased then to_lower c else to_upper c)
             (str_title_from (is_alpha c) s')
  end.

Definition str_title (s : string) : string := str_title_from false s.

(** [sep.join(parts)] *)
Fixpoint str_join (sep : string) (parts : list string) : string :=
  match parts with
  | [] => ""
  | [p] => p
  | p :: rest => p ++ sep ++ str_join sep rest
  end.

(** The characters of [s] that satisfy [keep]. *)
Fixpoint str_filter (keep : ascii -> bool) (s : string) : string :=
  match s with
  | EmptyString => EmptyString
  | String c s' => if keep c then String c (str_filter keep s') else str_filter keep s'
  end.

Fixpoint str_forall (p : ascii -> bool) (s : string) : bool :=
  match s with
  | EmptyString => true
  | String c s' => p c && str_forall p s'
  end.

(** [s.replace(',', '')] *)
Definition remove_commas (s : string) : string :=
  str_filter (fun c => negb (Ascii.eqb c ",")) s.

Definition digit_value (c : ascii) : Z := Z.of_N (char_code c) - 48.

(** The number a string of decimal digits spells. *)
Definition int_of_digits (s : string) : Z :=
  fold_left (fun acc c => 10 * acc + digit_value c) (list_ascii_of_string s) 0.

(** [str(n)] *)
Definition str_of_int (n : Z) : string := NilZero.string_of_int (Z.to_int n).

(** [re.findall(r'\d+', s)]: the maximal runs of digits, left to right.
    [cur] is the run being read. *)
Fixpoint digit_runs (cur : option string) (s : string) : list string :=
  match s with
  | EmptyString => match cur with Some r => [r] | None => [] end
  | String c s' =>
      if is_digit c then
        digit_runs (Some (match cur with Some r => r ++ String c "" | None => String c "" end)) s'
      else
        match cur with Some r => r :: digit_runs None s' | None => digit_runs None s' end
  end.

Definition findall_digits (s : string) : list string := digit_runs None s.

(** [re.sub(r'[₹Rs,\s]', '', s)]: the rupee sign is the byte sequence
    226 130 185. *)
Definition starts_with_rupee (s : string) : bool :=
  match s with
  | String c0 (String c1 (String c2 _)) =>
      ((char_code c0 =? 226) && (char_code c1 =? 130) && (char_code c2 =? 185))%N
  | _ => false
  end.

Definition is_currency_noise (c : ascii) : bool :=
  Ascii.eqb c "R" || Ascii.eqb c "s" || Ascii.eqb c "," || is_space c.

Fixpoint strip_currency (s : string) : string :=
  match s with
  | EmptyString => EmptyString
  | String c s' =>
      if starts_with_rupee s then
        match s' with
        | String _ (String _ s'') => strip_currency s''
        | _ => EmptyString
        end
      else if is_currency_noise c then strip_currency s'
      else String c (strip_currency s')
  end.

(** [format(n, ',')]: decimal digits in groups of three. *)
Fixpoint group_thousands (digits_rev : list ascii) : list ascii :=
  match digits_rev with
  | a :: b :: c :: ((_ :: _) as rest) => a :: b :: c :: ","%char :: group_thousands rest
  | _ => digits_rev
  end.

Definition format_commas (n : Z) : string :=
  let body := string_of_list_ascii
                (rev (group_thousands (rev (list_ascii_of_string (str_of_int (Z.abs n)))))) in
  if n <? 0 then "-" ++ body else body.

(* ===================================================================== *)
(** * Values and dictionaries *)
(* ===================================================================== *)

Inductive pyval :=
  | VNone
  | VBool (b : bool)
  | VInt (n : Z)
  | VStr (s : string)
  | VList (items : list pyval)
  | VDict (entries : list (string * pyval)).

Abbreviation pydict := (list (string * pyval)).

(** [d.get(k)]: the last binding of [k]. *)
Fixpoint dict_get {A} (k : string) (d : list (string * A)) : option A :=
  match d with
  | [] => None
  | (k', v) :: rest =>
      match dict_get k rest with
      | Some v' => Some v'
      | None => if String.eqb k k' then Some v else None
      end
  end.

(** [d.get(k, default)] *)
Definition dict_get_default {A} (d : list (string * A)) (k : string) (default : A) : A :=
  match dict_get k d with
  | Some v => v
  | None => default
  end.

Definition dict_mem {A} (k : string) (d : list (string * A)) : bool :=
  match dict_get k d with Some _ => true | None => false end.

(** [d[k] = v]: an existing key keeps its place, a new key goes last. *)
Definition dict_set {A} (k : string) (v : A) (d : list (string * A)) : list (string * A) :=
  if dict_mem k d
  then map (fun kv => if String.eqb k (fst kv) then (fst kv, v) else kv) d
  else (d ++ [(k, v)])%list.

(** [del d[k]] *)
Definition dict_del {A} (k : string) (d : list (string * A)) : list (string * A) :=
  List.filter (fun kv => negb (String.eqb k (fst kv))) d.

(** The items of the dictionary an association list stands for: every key
    once, at the place of its first binding, with its last value. *)
Definition dict_items {A} (d : list (string * A)) : list (string * A) :=
  fold_left (fun acc kv => dict_set (fst kv) (snd kv) acc) d [].

Definition dict_values {A} (d : list (string * A)) : list A := map snd (dict_items d).
Definition dict_keys {A} (d : list (string * A)) : list string := map fst (dict_items d).

Definition type_name (v : pyval) : string :=
  match v with
  | VNone => "NoneType"
  | VBool _ => "bool"
  | VInt _ => "int"
  | VStr _ => "str"
  | VList _ => "list"
  | VDict _ => "dict"
  end.

Definition no_attribute (v : pyval) (attr : string) : exn :=
  Exn AttributeError ("'" ++ type_name v ++ "' object has no attribute '" ++ attr ++ "'").

(** [v.lower()] *)
Definition py_lower (v : pyval) : result string :=
  match v with
  | VStr s => Ok (str_lower s)
  | _ => Raise (no_attribute v "lower")
  end.

(** [v.title()] *)
Definition py_title (v : pyval) : result string :=
  match v with
  | VStr s => Ok (str_title s)
  | _ => Raise (no_attribute v "title")
  end.

(** [v.get(k, default)] *)
Definition py_get (v : pyval) (k : string) (default : pyval) : result pyval :=
  match v with
  | VDict d => Ok (dict_get_default d k default)
  | _ => Raise (no_attribute v "get")
  end.

(** [v == s] for a string constant [s]. *)
Definition py_eq_str (v : pyval) (s : string) : bool :=
  match v with
  | VStr t => String.eqb t s
  | _ => false
  end.

Definition double_quote : ascii := ascii_of_N 34.

Definition hex_digit (n : N) : ascii :=
  if (n <? 10)%N then ascii_of_N (48 + n) else ascii_of_N (87 + n).

(** One character of [repr(s)] between quotes [q]. *)
Definition repr_char (q : ascii) (c : ascii) : string :=
  if Ascii.eqb c q then String "\" (String c "")
  else if Ascii.eqb c "\" then "\\"
  else if (char_code c =? 9)%N then "\t"
  else if (char_code c =? 10)%N then "\n"
  else if (char_code c =? 13)%N then "\r"
  else if (char_code c <? 32)%N || (char_code c =? 127)%N then
    "\x" ++ String (hex_digit (char_code c / 16)) (String (hex_digit (char_code c mod 16)) "")
  else String c "".

Fixpoint str_exists (p : ascii -> bool) (s : string) : bool :=
  match s with
  | EmptyString => false
  | String c s' => p c || str_exists p s'
  end.

(** [repr(s)]: single quotes unless the string has a single quote and no
    double quote. *)
Definition repr_str (s : string) : string :=
  let q : ascii :=
    if str_exists (Ascii.eqb "'") s && negb (str_exists (Ascii.eqb double_quote) s)
    then double_quote else "'"%char in
  String q (String.concat "" (map (repr_char q) (list_ascii_of_string s))) ++ String q "".

Definition bool_name (b : bool) : string := if b then "True" else "False".

(** [repr(v)] *)
Fixpoint py_repr (v : pyval) : string :=
  match v with
  | VNone => "None"
  | VBool b => bool_name b
  | VInt n => str_of_int n
  | VStr s => repr_str s
  | VList items => "[" ++ str_join ", " (map py_repr items) ++ "]"
  | VDict entries =>
      "{" ++ str_join ", "
               (map (fun kv => repr_str (fst kv) ++ ": " ++ snd kv)
                    (dict_items (map (fun kv => (fst kv, py_repr (snd kv))) entries)))
          ++ "}"
  end.

(** The text of [str(v)], also the text an f-string puts for [{v}]. *)
Definition py_str (v : pyval) : string :=
  match v with
  | VStr s => s
  | _ => py_repr v
  end.

(** [sys.get_int_max_str_digits()]: the most digits that [int(s)] reads
    and that [str(n)] writes. *)
Definition max_str_digits : Z := 4300.

Definition limit_text : string :=
  "Exceeds the limit (4300 digits) for integer string conversion".

Definition limit_advice : string :=
  "; use sys.set_int_max_str_digits() to increase the limit".

(** The ValueError of [int(s)] on a string of [digits] digits, more than
    the limit. *)
Definition int_limit_exceeded (digits : nat) : exn :=
  Exn ValueError (limit_text ++ ": value has " ++ str_of_int (Z.of_nat digits)
                  ++ " digits" ++ limit_advice).

(** The ValueError of [str(n)] and [repr(n)] on an int of more digits than
    the limit. *)
Definition str_limit_exceeded : exn := Exn ValueError (limit_text ++ limit_advice).

(** An int of more digits than the limit, [v] itself or one that the text
    of [v] shows. *)
Fixpoint has_long_int (v : pyval) : bool :=
  match v with
  | VInt n => 10 ^ max_str_digits <=? Z.abs n
  | VList items => existsb has_long_int items
  | VDict entries =>
      existsb snd (dict_items (map (fun kv => (fst kv, has_long_int (snd kv))) entries))
  | _ => false
  end.

(** [str(v)] *)
Definition py_str_checked (v : pyval) : result string :=
  if has_long_int v then Raise str_limit_exceeded else Ok (py_str v).

Definition num_value (v : pyval) : option Z :=
  match v with
  | VInt n => Some n
  | VBool b => Some (if b then 1 else 0)
  | _ => None
  end.

(** [s1 <= s2] on strings: code points in order, which is byte order. *)
Fixpoint str_leb (s1 s2 : string) : bool :=
  match s1, s2 with
  | EmptyString, _ => true
  | String _ _, EmptyString => false
  | String c1 r1, String c2 r2 =>
      if (char_code c1 <? char_code c2)%N then true
      else if (char_code c2 <? char_code c1)%N then false
      else str_leb r1 r2
  end.

(** [a == b] *)
Fixpoint py_eq (a b : pyval) : bool :=
  match a with
  | VNone => match b with VNone => true | _ => false end
  | VBool _ | VInt _ =>
      match num_value a, num_value b with
      | Some x, Some y => x =? y
      | _, _ => false
      end
  | VStr s => py_eq_str b s
  | VList items =>
      match b with
      | VList items' =>
          (fix all_eq (l : list pyval) (l' : list pyval) : bool :=
             match l, l' with
             | [], [] => true
             | x :: r, y :: r' => py_eq x y && all_eq r r'
             | _, _ => false
             end) items items'
      | _ => false
      end
  | VDict entries =>
      match b with
      | VDict entries' =>
          (length (dict_keys entries) =? length (dict_keys entries'))%nat &&
          (fix sub (l : list (string * pyval)) : bool :=
             match l with
             | [] => true
             | (k, x) :: r =>
                 (if dict_mem k r then true
                  else match dict_get k entries' with
                       | Some y => py_eq x y
                       | None => false
                       end) && sub r
             end) entries
      | _ => false
      end
  end.

Definition not_supported (op : string) (a b : pyval) : exn :=
  Exn TypeError ("'" ++ op ++ "' not supported between instances of '"
                 ++ type_name a ++ "' and '" ++ type_name b ++ "'").

(** [a >= b] *)
Fixpoint py_ge (a b : pyval) : result bool :=
  match a with
  | VBool _ | VInt _ =>
      match num_value a, num_value b with
      | Some x, Some y => Ok (y <=? x)
      | _, _ => Raise (not_supported ">=" a b)
      end
  | VStr s =>
      match b with
      | VStr t => Ok (str_leb t s)
      | _ => Raise (not_supported ">=" a b)
      end
  | VList items =>
      match b with
      | VList items' =>
          (fix walk (l : list pyval) (l' : list pyval) : result bool :=
             match l, l' with
             | _, [] => Ok true
             | [], _ :: _ => Ok false
             | x :: r, y :: r' => if py_eq x y then walk r r' else py_ge x y
             end) items items'
      | _ => Raise (not_supported ">=" a b)
      end
  | _ => Raise (not_supported ">=" a b)
  end.

(* ===================================================================== *)
(** * Floats *)
(* ===================================================================== *)

Abbreviation float := spec_float.

Definition prec : Z := 53.
Definition emax : Z := 1024.

Definition fmul : float -> float -> float := SFmul prec emax.
Definition fadd : float -> float -> float := SFadd prec emax.
Definition fdiv : float -> float -> float := SFdiv prec emax.

Definition fzero : float := S754_zero false.

(** [float(n)] for an int: the nearest double, or OverflowError. *)
Definition float_of_int (n : Z) : result float :=
  match binary_normalize prec emax n 0 false with
  | S754_infinity _ => Raise (Exn OverflowError "int too large to convert to float")
  | f => Ok f
  end.

(** The double a decimal literal [n/d] denotes, for [n] and [d] that are
    doubles themselves: the division rounds correctly. *)
Definition float_lit (n d : Z) : float :=
  fdiv (binary_normalize prec emax n 0 false) (binary_normalize prec emax d 0 false).

(** [int(x)] for a float: truncation towards zero. *)
Definition int_of_float (x : float) : result Z :=
  match x with
  | S754_zero _ => Ok 0
  | S754_finite s m e => Ok (cond_Zopp s (Z.shiftl (Zpos m) e))
  | S754_infinity _ => Raise (Exn OverflowError "cannot convert float infinity to integer")
  | S754_nan => Raise (Exn ValueError "cannot convert float NaN to integer")
  end.

(** [n * x] and [n + x] for an int [n] and a float [x]. *)
Definition int_mul_float (n : Z) (x : float) : result float :=
  do nf <- float_of_int n; Ok (fmul nf x).

Definition int_add_float (n : Z) (x : float) : result float :=
  do nf <- float_of_int n; Ok (fadd nf x).

(** [0.0 <= x] *)
Definition float_nonneg (x : float) : bool := SFleb fzero x.

(** [float(s)] on a string of digits with at most one point: the nearest
    double of the decimal.  Any other string is a ValueError here; the
    parsers below pass digits and points only. *)
Fixpoint split_point (s : string) : string * option string :=
  match s with
  | EmptyString => (EmptyString, None)
  | String c s' =>
      if Ascii.eqb c "." then (EmptyString, Some s')
      else let '(a, b) := split_point s' in (String c a, b)
  end.

Definition could_not_convert (s : string) : exn :=
  Exn ValueError ("could not convert string to float: " ++ repr_str s).

Definition round_ratio (n d : Z) : float :=
  match n with
  | Z0 => fzero
  | _ =>
      let '(q, e, l) := SFdiv_core_binary prec emax n 0 d 0 in
      binary_round_aux prec emax false q e l
  end.

Definition float_of_string (s : string) : result float :=
  let '(ip, fp) := split_point s in
  let fp' := match fp with Some f => f | None => EmptyString end in
  if str_forall is_digit ip && str_forall is_digit fp'
     && negb ((String.length ip + String.length fp' =? 0)%nat)
  then Ok (round_ratio (int_of_digits (ip ++ fp')) (10 ^ Z.of_nat (String.length fp')))
  else Raise (could_not_convert s).

(** [int(s)] on a string: digits only here, any other string is a
    ValueError; the callers below pass digits only.  More digits than the
    limit are a ValueError too. *)
Definition int_of_string (s : string) : result Z :=
  if str_forall is_digit s && negb (String.length s =? 0)%nat
  then
    if max_str_digits <? Z.of_nat (String.length s)
    then Raise (int_limit_exceeded (String.length s))
    else Ok (int_of_digits s)
  else Raise (Exn ValueError ("invalid literal for int() with base 10: " ++ repr_str s)).


(* ===================================================================== *)
(** * PersonalizedTripPlanner.validate_budget and validate_duration *)
(* ===================================================================== *)

Definition base_daily_cost : Z := 2500.

(** [theme_multipliers.get(theme, 1.2)] *)
Definition theme_multipliers : list (string * float) :=
  [ ("devotional", float_lit 10 10);
    ("cultural", float_lit 12 10);
    ("adventurous", float_lit 15 10);
    ("nightlife", float_lit 20 10);
    ("luxury", float_lit 30 10) ].

Definition theme_multiplier_of (theme : string) : float :=
  dict_get_default theme_multipliers theme (float_lit 12 10).

(** The currency sign of the messages, as the source file spells it. *)
Definition currency_mark : string := "¹".

(** The first three characters of the alert message in the source file:
    code points 160 and 15 and a space. *)
Definition alert_mark : string :=
  String (ascii_of_N 194) (String (ascii_of_N 160) (String (ascii_of_N 15) " ")).

Definition budget_sufficient (budget minimum_budget : Z) : pyval :=
  VDict [ ("status", VStr "sufficient");
          ("provided_budget", VInt budget);
          ("minimum_required", VInt minimum_budget);
          ("buffer_amount", VInt (budget - minimum_budget));
          ("message", VStr ("Budget is sufficient! You have " ++ currency_mark
                            ++ format_commas (budget - minimum_budget) ++ " buffer amount.")) ].

Definition budget_insufficient (budget minimum_budget : Z) : pyval :=
  VDict [ ("status", VStr "insufficient");
          ("provided_budget", VInt budget);
          ("minimum_required", VInt minimum_budget);
          ("shortfall", VInt (minimum_budget - budget));
          ("alert_message",
           VStr (alert_mark ++ "Budget Alert: Minimum required budget is " ++ currency_mark
                 ++ format_commas minimum_budget ++ ". You provided " ++ currency_mark
                 ++ format_commas budget ++ ". Please increase budget by " ++ currency_mark
                 ++ format_commas (minimum_budget - budget) ++ ".")) ].

Definition budget_error (e : exn) : pyval :=
  VDict [ ("status", VStr "error");
          ("message", VStr ("Budget validation failed: " ++ exn_msg e));
          ("minimum_required", VInt 10000) ].

(** The body of the [try] block. *)
Definition validate_budget_body (travel_input : pydict) : result pyval :=
  do budget_str <- py_str_checked (dict_get_default travel_input "budget" (VStr "0"));
  let cleaned_budget := strip_currency budget_str in
  let budget_numbers := findall_digits cleaned_budget in
  do budget <- match budget_numbers with
               | [] => Ok 0
               | _ => int_of_string (String.concat "" budget_numbers)
               end;
  let travel_mode := dict_get_default travel_input "travel_mode" (VStr "Self") in
  do theme <- py_lower (dict_get_default travel_input "theme" (VStr "cultural"));
  do duration_str <- py_str_checked (dict_get_default travel_input "duration" (VStr "1"));
  let duration_numbers := findall_digits duration_str in
  do duration <- match duration_numbers with
                 | first :: _ => int_of_string first
                 | [] => Ok 1
                 end;
  let theme_multiplier := theme_multiplier_of theme in
  do mode <- py_lower travel_mode;
  let transport_cost :=
    if String.eqb mode "self" then duration * 1500 else duration * 3500 in
  do acc0 <- int_mul_float (duration * base_daily_cost) (float_lit 4 10);
  let accommodation_cost := fmul acc0 theme_multiplier in
  do food_cost <- int_mul_float (duration * base_daily_cost) (float_lit 3 10);
  do act0 <- int_mul_float (duration * base_daily_cost) (float_lit 3 10);
  let activities_cost := fmul act0 theme_multiplier in
  do sum0 <- int_add_float transport_cost accommodation_cost;
  do minimum_budget <- int_of_float (fadd (fadd sum0 food_cost) activities_cost);
  if minimum_budget <=? budget
  then Ok (budget_sufficient budget minimum_budget)
  else Ok (budget_insufficient budget minimum_budget).

Definition validate_budget (travel_input : pydict) : pyval :=
  try_except (validate_budget_body travel_input) budget_error.

Definition duration_error (e : exn) : pyval :=
  VDict [ ("status", VStr "error");
          ("message", VStr ("Duration validation failed: " ++ exn_msg e));
          ("recommended_duration", VInt 3) ].

(** The body of the [try] block of [validate_duration]. *)
Definition validate_duration_body (duration : pyval) : result pyval :=
  do duration_str <- py_str_checked duration;
  let duration_numbers := findall_digits duration_str in
  do days <- match duration_numbers with
             | first :: _ => int_of_string first
             | [] => Ok 1
             end;
  if days <? 1 then
    Ok (VDict [ ("status", VStr "invalid");
                ("message", VStr "Duration must be at least 1 day");
                ("recommended_duration", VInt 2) ])
  else if 30 <? days then
    Ok (VDict [ ("status", VStr "warning");
                ("message", VStr "Long trip detected. Consider breaking into multiple shorter trips.");
                ("validated_duration", VInt days) ])
  else
    Ok (VDict [ ("status", VStr "valid");
                ("validated_duration", VInt days);
                ("message", VStr ("Duration of " ++ str_of_int days
                                  ++ " days is optimal for trip planning.")) ]).

(** [validate_duration(duration)] *)
Definition validate_duration (duration : pyval) : pyval :=
  try_except (validate_duration_body duration) duration_error.

(* ===================================================================== *)
(** * PersonalizedTripPlanner: fallback template and itinerary generation *)
(* ===================================================================== *)

(** [d[k]] *)
Definition py_index (v : pyval) (k : string) : result pyval :=
  match v with
  | VDict d =>
      match dict_get k d with
      | Some x => Ok x
      | None => Raise (Exn KeyError (repr_str k))
      end
  | _ => Raise (Exn TypeError ("'" ++ type_name v ++ "' object is not subscriptable"))
  end.

Definition str_list (l : list string) : pyval := VList (map VStr l).

(** [_get_cost_saving_tips(travel_mode, theme)] *)
Definition _get_cost_saving_tips (travel_mode theme : pyval) : result pyval :=
  let tips :=
    [ "Book accommodations in advance for better rates";
      "Travel during off-peak seasons for lower costs";
      "Use local public transport within cities";
      "Eat at local restaurants instead of hotel dining" ] in
  do mode <- py_lower travel_mode;
  let tips :=
    if String.eqb mode "self" then
      (tips ++ [ "Plan fuel-efficient routes to save on fuel costs";
                "Share fuel costs if traveling with others";
                "Choose accommodation with free parking" ])%list
    else
      (tips ++ [ "Book transport tickets in advance for discounts";
                "Compare prices across different booking platforms";
                "Consider train travel for longer distances to save costs" ])%list in
  do th <- py_lower theme;
  let tips :=
    if String.eqb th "devotional" then
      (tips ++ [ "Many temples provide free accommodation";
                "Look for community kitchens for free meals";
                "Choose simple, modest accommodations" ])%list
    else if String.eqb th "adventurous" then
      (tips ++ [ "Book activity packages for group discounts";
                "Rent equipment locally instead of buying";
                "Choose adventure hostels for budget accommodation" ])%list
    else tips in
  Ok (str_list tips).

(** [_create_fallback_itinerary(travel_input, budget_validation,
    duration_validation)]; [now] is the text of
    [datetime.now().isoformat()] at the call. *)
Definition _create_fallback_itinerary (now : string) (travel_input : pydict)
    (budget_validation duration_validation : pyval) : result pyval :=
  let destination := dict_get_default travel_input "destination" (VStr "Destination") in
  let theme := dict_get_default travel_input "theme" (VStr "cultural") in
  let duration := dict_get_default travel_input "duration" (VStr "3 days") in
  do theme_title <- py_title theme;
  Ok (VDict
    [ ("status", VStr "fallback");
      ("message", VStr "AI-generated itinerary not available. Using fallback plan.");
      ("trip_overview", VDict
         [ ("source", dict_get_default travel_input "source" (VStr ""));
           ("destination", destination);
           ("travel_mode", dict_get_default travel_input "travel_mode" (VStr ""));
           ("theme", theme);
           ("duration", duration);
           ("budget", dict_get_default travel_input "budget" (VStr "")) ]);
      ("budget_validation", budget_validation);
      ("duration_validation", duration_validation);
      ("itinerary", VList
         [ VDict
             [ ("day", VInt 1);
               ("title", VStr ("Arrival and " ++ py_str destination ++ " Exploration"));
               ("activities", str_list
                  [ "Arrive at " ++ py_str destination;
                    "Check into hotel";
                    "Local " ++ py_str theme ++ " site visit";
                    "Dinner at local restaurant" ]) ];
           VDict
             [ ("day", VInt 2);
               ("title", VStr ("Full Day " ++ theme_title ++ " Experience"));
               ("activities", str_list
                  [ "Morning " ++ py_str theme ++ " activity";
                    "Local market visit";
                    "Afternoon sightseeing";
                    "Evening leisure time" ]) ] ]);
      ("recommendations", VDict
         [ ("hotels", str_list [ "Recommended hotels in " ++ py_str destination ]);
           ("restaurants", str_list [ "Local " ++ py_str theme ++ "-themed restaurants" ]);
           ("activities", str_list [ theme_title ++ " activities and attractions" ]);
           ("local_markets", str_list [ "Popular markets in " ++ py_str destination ]) ]);
      ("generated_at", VStr now) ]).

(** The services the planner calls: the chat session of the language
    model, the tool behind its function calls, the rest of the response
    processing, and the clock.  A call reads and changes the state of the
    outside world and may raise. *)
Section Planner.

Variables world response part function_call : Type.

Definition io (A : Type) : Type := world -> result A * world.

Definition io_ret {A} (a : A) : io A := fun w => (Ok a, w).

Definition io_bind {A B} (m : io A) (k : A -> io B) : io B :=
  fun w => match m w with
           | (Ok a, w') => k a w'
           | (Raise e, w') => (Raise e, w')
           end.

Definition io_lift {A} (r : result A) : io A := fun w => (r, w).

(** [try: body except Exception as e: handler e] *)
Definition io_try {A} (body : io A) (handler : exn -> io A) : io A :=
  fun w => match body w with
           | (Ok a, w') => (Ok a, w')
           | (Raise e, w') => handler e w'
           end.

Inductive message :=
  | Prompt (text : string)
  | FunctionResponse (call : function_call) (function_result : pyval).

Record services := {
  (** [self.model.start_chat()] *)
  start_chat : io unit;
  (** [chat.send_message(m)] *)
  send_message : message -> io response;
  (** [response.parts] *)
  response_parts : response -> list part;
  (** [part.function_call], when the part has one *)
  part_function_call : part -> option function_call;
  (** [self._execute_function_call(call)] *)
  _execute_function_call : function_call -> io pyval;
  (** [self._create_personalized_prompt(...)] *)
  _create_personalized_prompt :
    pyval -> pyval -> pyval -> pyval -> pyval -> pyval -> pyval -> pyval -> pyval ->
    result string;
  (** [response.text] *)
  response_text : response -> result (option string);
  (** the rest of the [try] block of [_process_ai_response]: parsing,
      the validation entries and the mode-specific enhancement *)
  build_itinerary : string -> pydict -> pyval -> pyval -> io pyval;
  (** [datetime.now().isoformat()] *)
  now_iso : world -> string
}.

Variable sv : services.

Definition fallback_io (travel_input : pydict) (bv dv : pyval) : io pyval :=
  fun w => (_create_fallback_itinerary (now_iso sv w) travel_input bv dv, w).

(** The loop of [_send_message_with_functions] over the parts of the
    first response. *)
Fixpoint answer_function_calls (parts : list part) (response0 : response) : io response :=
  match parts with
  | [] => io_ret response0
  | p :: rest =>
      match part_function_call sv p with
      | Some call =>
          io_bind (_execute_function_call sv call) (fun function_result =>
          io_bind (send_message sv (FunctionResponse call function_result)) (fun response1 =>
          answer_function_calls rest response1))
      | None => answer_function_calls rest response0
      end
  end.

Definition _send_message_with_functions (prompt : string) : io response :=
  io_bind (send_message sv (Prompt prompt)) (fun response0 =>
  answer_function_calls (response_parts sv response0) response0).

(** The [try] block of [_process_ai_response]. *)
Definition process_body (response0 : response) (travel_input : pydict)
    (bv dv : pyval) : io pyval :=
  match response_text sv response0 with
  | Raise _ => fallback_io travel_input bv dv
  | Ok text =>
      let response_text0 :=
        match text with
        | Some t => if (String.length t =? 0)%nat then "No response generated" else t
        | None => "No response generated"
        end in
      build_itinerary sv response_text0 travel_input bv dv
  end.

Definition _process_ai_response (response0 : response) (travel_input : pydict)
    (bv dv : pyval) : io pyval :=
  io_try (process_body response0 travel_input bv dv)
         (fun _ => fallback_io travel_input bv dv).

(** The calls of the [try] block of [generate_personalized_itinerary]
    up to the response of the model. *)
Definition ask_model (travel_input : pydict) (bv dv : pyval) : io response :=
  let get k default := dict_get_default travel_input k (VStr default) in
  io_bind (start_chat sv) (fun _ =>
  io_bind (io_lift (_create_personalized_prompt sv
             (get "source" "") (get "destination" "") (get "travel_mode" "Self")
             (get "budget" "") (get "theme" "cultural") (get "duration" "3 days")
             (get "vehicle_type" "car") bv dv)) (fun prompt =>
  _send_message_with_functions prompt)).

Definition budget_insufficient_reply (travel_input : pydict) (bv dv : pyval) : result pyval :=
  do alert <- py_index bv "alert_message";
  do minimum <- py_index bv "minimum_required";
  do tips <- _get_cost_saving_tips
               (dict_get_default travel_input "travel_mode" (VStr "Self"))
               (dict_get_default travel_input "theme" (VStr "cultural"));
  Ok (VDict
    [ ("status", VStr "budget_insufficient");
      ("budget_validation", bv);
      ("duration_validation", dv);
      ("alert", alert);
      ("recommendations", VDict
         [ ("minimum_budget", minimum);
           ("cost_saving_tips", tips) ]) ]).

Definition generate_personalized_itinerary (travel_input : pydict) : io pyval :=
  let budget_validation := validate_budget travel_input in
  let duration_validation :=
    validate_duration (dict_get_default travel_input "duration" (VStr "3 days")) in
  io_bind (io_lift (py_index budget_validation "status")) (fun status =>
  if py_eq_str status "insufficient" then
    io_lift (budget_insufficient_reply travel_input budget_validation duration_validation)
  else
    io_try
      (io_bind (ask_model travel_input budget_validation duration_validation)
         (fun response0 =>
          _process_ai_response response0 travel_input
            budget_validation duration_validation))
      (fun _ => fallback_io travel_input budget_validation duration_validation)).

End Planner.

(* ===================================================================== *)
(** * calculate_minimum_duration and get_feasible_durations *)
(* ===================================================================== *)

(** The distance matrix of [calculate_minimum_duration], every entry of
    the source in its order (kilometres). *)
Definition distances : list (string * list (string * Z)) :=
  [
    ("kerala",
     [ ("tamil nadu", 650); ("karnataka", 350); ("andhra pradesh", 700); ("telangana", 800);
       ("goa", 600); ("mumbai", 1200); ("maharashtra", 1200); ("gujarat", 1500);
       ("rajasthan", 1800); ("delhi", 2200); ("haryana", 2200); ("punjab", 2300);
       ("uttarakhand", 2000); ("himachal pradesh", 2100); ("kashmir", 2500); ("uttar pradesh", 2000);
       ("madhya pradesh", 1400); ("chhattisgarh", 1300); ("jharkhand", 1800); ("bihar", 1900);
       ("west bengal", 1900); ("odisha", 1200); ("assam", 2400); ("meghalaya", 2400);
       ("sikkim", 2200); ("arunachal pradesh", 2600); ("nagaland", 2500); ("manipur", 2500);
       ("mizoram", 2400); ("tripura", 2300) ]);
    ("tamil nadu",
     [ ("kerala", 650); ("karnataka", 350); ("andhra pradesh", 450); ("telangana", 600);
       ("goa", 900); ("mumbai", 1100); ("maharashtra", 1000); ("gujarat", 1300);
       ("rajasthan", 1800); ("delhi", 2200); ("haryana", 2200); ("punjab", 2300);
       ("uttarakhand", 2400); ("himachal pradesh", 2500); ("kashmir", 2700); ("uttar pradesh", 2100);
       ("madhya pradesh", 1300); ("chhattisgarh", 1100); ("jharkhand", 1600); ("bihar", 1700);
       ("west bengal", 1600); ("odisha", 900); ("assam", 2200); ("meghalaya", 2200);
       ("sikkim", 2000); ("arunachal pradesh", 2400); ("nagaland", 2300); ("manipur", 2300);
       ("mizoram", 2200); ("tripura", 2100); ("chennai", 100); ("bangalore", 350) ]);
    ("karnataka",
     [ ("kerala", 350); ("tamil nadu", 350); ("andhra pradesh", 500); ("telangana", 600);
       ("goa", 560); ("mumbai", 980); ("maharashtra", 800); ("gujarat", 1100);
       ("rajasthan", 1600); ("delhi", 2100); ("haryana", 2100); ("punjab", 2200);
       ("uttarakhand", 2300); ("himachal pradesh", 2400); ("kashmir", 2600); ("uttar pradesh", 1900);
       ("madhya pradesh", 1100); ("chhattisgarh", 900); ("jharkhand", 1400); ("bihar", 1500);
       ("west bengal", 1400); ("odisha", 700); ("assam", 2000); ("meghalaya", 2000);
       ("sikkim", 1800); ("arunachal pradesh", 2200); ("nagaland", 2100); ("manipur", 2100);
       ("mizoram", 2000); ("tripura", 1900); ("bangalore", 50); ("chennai", 350) ]);
    ("andhra pradesh",
     [ ("kerala", 700); ("tamil nadu", 450); ("karnataka", 500); ("telangana", 200);
       ("goa", 800); ("mumbai", 900); ("maharashtra", 700); ("gujarat", 1000);
       ("rajasthan", 1500); ("delhi", 2000); ("haryana", 2000); ("punjab", 2100);
       ("uttarakhand", 2200); ("himachal pradesh", 2300); ("kashmir", 2500); ("uttar pradesh", 1800);
       ("madhya pradesh", 1000); ("chhattisgarh", 600); ("jharkhand", 1200); ("bihar", 1300);
       ("west bengal", 1200); ("odisha", 500); ("assam", 1800); ("meghalaya", 1800);
       ("sikkim", 1600); ("arunachal pradesh", 2000); ("nagaland", 1900); ("manipur", 1900);
       ("mizoram", 1800); ("tripura", 1700) ]);
    ("telangana",
     [ ("kerala", 800); ("tamil nadu", 600); ("karnataka", 600); ("andhra pradesh", 200);
       ("goa", 900); ("mumbai", 800); ("maharashtra", 600); ("gujarat", 900);
       ("rajasthan", 1300); ("delhi", 1800); ("haryana", 1800); ("punjab", 1900);
       ("uttarakhand", 2000); ("himachal pradesh", 2100); ("kashmir", 2300); ("uttar pradesh", 1600);
       ("madhya pradesh", 800); ("chhattisgarh", 400); ("jharkhand", 1000); ("bihar", 1100);
       ("west bengal", 1000); ("odisha", 300); ("assam", 1600); ("meghalaya", 1600);
       ("sikkim", 1400); ("arunachal pradesh", 1800); ("nagaland", 1700); ("manipur", 1700);
       ("mizoram", 1600); ("tripura", 1500) ]);
    ("goa",
     [ ("kerala", 600); ("tamil nadu", 900); ("karnataka", 560); ("andhra pradesh", 800);
       ("telangana", 900); ("mumbai", 450); ("maharashtra", 400); ("gujarat", 700);
       ("rajasthan", 1200); ("delhi", 1800); ("haryana", 1800); ("punjab", 1900);
       ("uttarakhand", 2000); ("himachal pradesh", 2100); ("kashmir", 2200); ("uttar pradesh", 1700);
       ("madhya pradesh", 1000); ("chhattisgarh", 900); ("jharkhand", 1400); ("bihar", 1500);
       ("west bengal", 1400); ("odisha", 700); ("assam", 2000); ("meghalaya", 2000);
       ("sikkim", 1800); ("arunachal pradesh", 2200); ("nagaland", 2100); ("manipur", 2100);
       ("mizoram", 2000); ("tripura", 1900) ]);
    ("mumbai",
     [ ("kerala", 1200); ("tamil nadu", 1100); ("karnataka", 980); ("andhra pradesh", 900);
       ("telangana", 800); ("goa", 450); ("maharashtra", 200); ("gujarat", 500);
       ("rajasthan", 800); ("delhi", 1400); ("haryana", 1400); ("punjab", 1500);
       ("uttarakhand", 1600); ("himachal pradesh", 1700); ("kashmir", 1800); ("uttar pradesh", 1300);
       ("madhya pradesh", 600); ("chhattisgarh", 700); ("jharkhand", 1200); ("bihar", 1300);
       ("west bengal", 1300); ("odisha", 800); ("assam", 1800); ("meghalaya", 1800);
       ("sikkim", 1600); ("arunachal pradesh", 2000); ("nagaland", 1900); ("manipur", 1900);
       ("mizoram", 1800); ("tripura", 1700) ]);
    ("maharashtra",
     [ ("kerala", 1200); ("tamil nadu", 1000); ("karnataka", 800); ("andhra pradesh", 700);
       ("telangana", 600); ("goa", 400); ("mumbai", 200); ("gujarat", 400);
       ("rajasthan", 700); ("delhi", 1200); ("haryana", 1200); ("punjab", 1300);
       ("uttarakhand", 1400); ("himachal pradesh", 1500); ("kashmir", 1600); ("uttar pradesh", 1100);
       ("madhya pradesh", 400); ("chhattisgarh", 500); ("jharkhand", 1000); ("bihar", 1100);
       ("west bengal", 1100); ("odisha", 600); ("assam", 1600); ("meghalaya", 1600);
       ("sikkim", 1400); ("arunachal pradesh", 1800); ("nagaland", 1700); ("manipur", 1700);
       ("mizoram", 1600); ("tripura", 1500) ]);
    ("gujarat",
     [ ("kerala", 1500); ("tamil nadu", 1300); ("karnataka", 1100); ("andhra pradesh", 1000);
       ("telangana", 900); ("goa", 700); ("mumbai", 500); ("maharashtra", 400);
       ("rajasthan", 400); ("delhi", 900); ("haryana", 900); ("punjab", 1000);
       ("uttarakhand", 1100); ("himachal pradesh", 1200); ("kashmir", 1300); ("uttar pradesh", 800);
       ("madhya pradesh", 600); ("chhattisgarh", 800); ("jharkhand", 1200); ("bihar", 1300);
       ("west bengal", 1400); ("odisha", 900); ("assam", 1800); ("meghalaya", 1800);
       ("sikkim", 1600); ("arunachal pradesh", 2000); ("nagaland", 1900); ("manipur", 1900);
       ("mizoram", 1800); ("tripura", 1700) ]);
    ("rajasthan",
     [ ("kerala", 1800); ("tamil nadu", 1800); ("karnataka", 1600); ("andhra pradesh", 1500);
       ("telangana", 1300); ("goa", 1200); ("mumbai", 800); ("maharashtra", 700);
       ("gujarat", 400); ("delhi", 600); ("haryana", 500); ("punjab", 600);
       ("uttarakhand", 800); ("himachal pradesh", 900); ("kashmir", 1000); ("uttar pradesh", 700);
       ("madhya pradesh", 700); ("chhattisgarh", 900); ("jharkhand", 1200); ("bihar", 1300);
       ("west bengal", 1400); ("odisha", 1100); ("assam", 1800); ("meghalaya", 1800);
       ("sikkim", 1600); ("arunachal pradesh", 2000); ("nagaland", 1900); ("manipur", 1900);
       ("mizoram", 1800); ("tripura", 1700) ]);
    ("delhi",
     [ ("kerala", 2200); ("tamil nadu", 2200); ("karnataka", 2100); ("andhra pradesh", 2000);
       ("telangana", 1800); ("goa", 1800); ("mumbai", 1400); ("maharashtra", 1200);
       ("gujarat", 900); ("rajasthan", 600); ("haryana", 50); ("punjab", 300);
       ("uttarakhand", 300); ("himachal pradesh", 350); ("kashmir", 800); ("uttar pradesh", 400);
       ("madhya pradesh", 800); ("chhattisgarh", 1000); ("jharkhand", 1200); ("bihar", 1100);
       ("west bengal", 1300); ("odisha", 1300); ("assam", 1700); ("meghalaya", 1700);
       ("sikkim", 1500); ("arunachal pradesh", 1900); ("nagaland", 1800); ("manipur", 1800);
       ("mizoram", 1700); ("tripura", 1600) ]);
    ("haryana",
     [ ("kerala", 2200); ("tamil nadu", 2200); ("karnataka", 2100); ("andhra pradesh", 2000);
       ("telangana", 1800); ("goa", 1800); ("mumbai", 1400); ("maharashtra", 1200);
       ("gujarat", 900); ("rajasthan", 500); ("delhi", 50); ("punjab", 250);
       ("uttarakhand", 250); ("himachal pradesh", 300); ("kashmir", 750); ("uttar pradesh", 350);
       ("madhya pradesh", 750); ("chhattisgarh", 950); ("jharkhand", 1150); ("bihar", 1050);
       ("west bengal", 1250); ("odisha", 1250); ("assam", 1650); ("meghalaya", 1650);
       ("sikkim", 1450); ("arunachal pradesh", 1850); ("nagaland", 1750); ("manipur", 1750);
       ("mizoram", 1650); ("tripura", 1550) ]);
    ("punjab",
     [ ("kerala", 2300); ("tamil nadu", 2300); ("karnataka", 2200); ("andhra pradesh", 2100);
       ("telangana", 1900); ("goa", 1900); ("mumbai", 1500); ("maharashtra", 1300);
       ("gujarat", 1000); ("rajasthan", 600); ("delhi", 300); ("haryana", 250);
       ("uttarakhand", 400); ("himachal pradesh", 200); ("kashmir", 500); ("uttar pradesh", 500);
       ("madhya pradesh", 900); ("chhattisgarh", 1100); ("jharkhand", 1300); ("bihar", 1200);
       ("west bengal", 1400); ("odisha", 1400); ("assam", 1800); ("meghalaya", 1800);
       ("sikkim", 1600); ("arunachal pradesh", 2000); ("nagaland", 1900); ("manipur", 1900);
       ("mizoram", 1800); ("tripura", 1700) ]);
    ("uttarakhand",
     [ ("kerala", 2000); ("tamil nadu", 2400); ("karnataka", 2300); ("andhra pradesh", 2200);
       ("telangana", 2000); ("goa", 2000); ("mumbai", 1600); ("maharashtra", 1400);
       ("gujarat", 1100); ("rajasthan", 800); ("delhi", 300); ("haryana", 250);
       ("punjab", 400); ("himachal pradesh", 200); ("kashmir", 600); ("uttar pradesh", 200);
       ("madhya pradesh", 700); ("chhattisgarh", 900); ("jharkhand", 1100); ("bihar", 1000);
       ("west bengal", 1200); ("odisha", 1200); ("assam", 1600); ("meghalaya", 1600);
       ("sikkim", 1400); ("arunachal pradesh", 1800); ("nagaland", 1700); ("manipur", 1700);
       ("mizoram", 1600); ("tripura", 1500) ]);
    ("himachal pradesh",
     [ ("kerala", 2100); ("tamil nadu", 2500); ("karnataka", 2400); ("andhra pradesh", 2300);
       ("telangana", 2100); ("goa", 2100); ("mumbai", 1700); ("maharashtra", 1500);
       ("gujarat", 1200); ("rajasthan", 900); ("delhi", 350); ("haryana", 300);
       ("punjab", 200); ("uttarakhand", 200); ("kashmir", 400); ("uttar pradesh", 400);
       ("madhya pradesh", 800); ("chhattisgarh", 1000); ("jharkhand", 1200); ("bihar", 1100);
       ("west bengal", 1300); ("odisha", 1300); ("assam", 1700); ("meghalaya", 1700);
       ("sikkim", 1500); ("arunachal pradesh", 1900); ("nagaland", 1800); ("manipur", 1800);
       ("mizoram", 1700); ("tripura", 1600) ]);
    ("kashmir",
     [ ("kerala", 2500); ("tamil nadu", 2700); ("karnataka", 2600); ("andhra pradesh", 2500);
       ("telangana", 2300); ("goa", 2200); ("mumbai", 1800); ("maharashtra", 1600);
       ("gujarat", 1300); ("rajasthan", 1000); ("delhi", 800); ("haryana", 750);
       ("punjab", 500); ("uttarakhand", 600); ("himachal pradesh", 400); ("uttar pradesh", 900);
       ("madhya pradesh", 1200); ("chhattisgarh", 1400); ("jharkhand", 1600); ("bihar", 1500);
       ("west bengal", 1700); ("odisha", 1700); ("assam", 2100); ("meghalaya", 2100);
       ("sikkim", 1900); ("arunachal pradesh", 2300); ("nagaland", 2200); ("manipur", 2200);
       ("mizoram", 2100); ("tripura", 2000) ]);
    ("uttar pradesh",
     [ ("kerala", 2000); ("tamil nadu", 2100); ("karnataka", 1900); ("andhra pradesh", 1800);
       ("telangana", 1600); ("goa", 1700); ("mumbai", 1300); ("maharashtra", 1100);
       ("gujarat", 800); ("rajasthan", 700); ("delhi", 400); ("haryana", 350);
       ("punjab", 500); ("uttarakhand", 200); ("himachal pradesh", 400); ("kashmir", 900);
       ("madhya pradesh", 500); ("chhattisgarh", 700); ("jharkhand", 900); ("bihar", 800);
       ("west bengal", 1000); ("odisha", 1000); ("assam", 1400); ("meghalaya", 1400);
       ("sikkim", 1200); ("arunachal pradesh", 1600); ("nagaland", 1500); ("manipur", 1500);
       ("mizoram", 1400); ("tripura", 1300) ]);
    ("madhya pradesh",
     [ ("kerala", 1400); ("tamil nadu", 1300); ("karnataka", 1100); ("andhra pradesh", 1000);
       ("telangana", 800); ("goa", 1000); ("mumbai", 600); ("maharashtra", 400);
       ("gujarat", 600); ("rajasthan", 700); ("delhi", 800); ("haryana", 750);
       ("punjab", 900); ("uttarakhand", 700); ("himachal pradesh", 800); ("kashmir", 1200);
       ("uttar pradesh", 500); ("chhattisgarh", 300); ("jharkhand", 600); ("bihar", 700);
       ("west bengal", 800); ("odisha", 700); ("assam", 1200); ("meghalaya", 1200);
       ("sikkim", 1000); ("arunachal pradesh", 1400); ("nagaland", 1300); ("manipur", 1300);
       ("mizoram", 1200); ("tripura", 1100) ]);
    ("chhattisgarh",
     [ ("kerala", 1300); ("tamil nadu", 1100); ("karnataka", 900); ("andhra pradesh", 600);
       ("telangana", 400); ("goa", 900); ("mumbai", 700); ("maharashtra", 500);
       ("gujarat", 800); ("rajasthan", 900); ("delhi", 1000); ("haryana", 950);
       ("punjab", 1100); ("uttarakhand", 900); ("himachal pradesh", 1000); ("kashmir", 1400);
       ("uttar pradesh", 700); ("madhya pradesh", 300); ("jharkhand", 300); ("bihar", 500);
       ("west bengal", 600); ("odisha", 400); ("assam", 1000); ("meghalaya", 1000);
       ("sikkim", 800); ("arunachal pradesh", 1200); ("nagaland", 1100); ("manipur", 1100);
       ("mizoram", 1000); ("tripura", 900) ]);
    ("jharkhand",
     [ ("kerala", 1800); ("tamil nadu", 1600); ("karnataka", 1400); ("andhra pradesh", 1200);
       ("telangana", 1000); ("goa", 1400); ("mumbai", 1200); ("maharashtra", 1000);
       ("gujarat", 1200); ("rajasthan", 1200); ("delhi", 1200); ("haryana", 1150);
       ("punjab", 1300); ("uttarakhand", 1100); ("himachal pradesh", 1200); ("kashmir", 1600);
       ("uttar pradesh", 900); ("madhya pradesh", 600); ("chhattisgarh", 300); ("bihar", 200);
       ("west bengal", 300); ("odisha", 500); ("assam", 700); ("meghalaya", 700);
       ("sikkim", 500); ("arunachal pradesh", 900); ("nagaland", 800); ("manipur", 800);
       ("mizoram", 700); ("tripura", 600) ]);
    ("bihar",
     [ ("kerala", 1900); ("tamil nadu", 1700); ("karnataka", 1500); ("andhra pradesh", 1300);
       ("telangana", 1100); ("goa", 1500); ("mumbai", 1300); ("maharashtra", 1100);
       ("gujarat", 1300); ("rajasthan", 1300); ("delhi", 1100); ("haryana", 1050);
       ("punjab", 1200); ("uttarakhand", 1000); ("himachal pradesh", 1100); ("kashmir", 1500);
       ("uttar pradesh", 800); ("madhya pradesh", 700); ("chhattisgarh", 500); ("jharkhand", 200);
       ("west bengal", 400); ("odisha", 600); ("assam", 600); ("meghalaya", 600);
       ("sikkim", 400); ("arunachal pradesh", 800); ("nagaland", 700); ("manipur", 700);
       ("mizoram", 600); ("tripura", 500) ]);
    ("west bengal",
     [ ("kerala", 1900); ("tamil nadu", 1600); ("karnataka", 1400); ("andhra pradesh", 1200);
       ("telangana", 1000); ("goa", 1400); ("mumbai", 1300); ("maharashtra", 1100);
       ("gujarat", 1400); ("rajasthan", 1400); ("delhi", 1300); ("haryana", 1250);
       ("punjab", 1400); ("uttarakhand", 1200); ("himachal pradesh", 1300); ("kashmir", 1700);
       ("uttar pradesh", 1000); ("madhya pradesh", 800); ("chhattisgarh", 600); ("jharkhand", 300);
       ("bihar", 400); ("odisha", 400); ("assam", 500); ("meghalaya", 400);
       ("sikkim", 200); ("arunachal pradesh", 600); ("nagaland", 500); ("manipur", 500);
       ("mizoram", 400); ("tripura", 300) ]);
    ("odisha",
     [ ("kerala", 1200); ("tamil nadu", 900); ("karnataka", 700); ("andhra pradesh", 500);
       ("telangana", 300); ("goa", 700); ("mumbai", 800); ("maharashtra", 600);
       ("gujarat", 900); ("rajasthan", 1100); ("delhi", 1300); ("haryana", 1250);
       ("punjab", 1400); ("uttarakhand", 1200); ("himachal pradesh", 1300); ("kashmir", 1700);
       ("uttar pradesh", 1000); ("madhya pradesh", 700); ("chhattisgarh", 400); ("jharkhand", 500);
       ("bihar", 600); ("west bengal", 400); ("assam", 600); ("meghalaya", 600);
       ("sikkim", 600); ("arunachal pradesh", 800); ("nagaland", 700); ("manipur", 700);
       ("mizoram", 600); ("tripura", 500) ]);
    ("assam",
     [ ("kerala", 2400); ("tamil nadu", 2200); ("karnataka", 2000); ("andhra pradesh", 1800);
       ("telangana", 1600); ("goa", 2000); ("mumbai", 1800); ("maharashtra", 1600);
       ("gujarat", 1800); ("rajasthan", 1800); ("delhi", 1700); ("haryana", 1650);
       ("punjab", 1800); ("uttarakhand", 1600); ("himachal pradesh", 1700); ("kashmir", 2100);
       ("uttar pradesh", 1400); ("madhya pradesh", 1200); ("chhattisgarh", 1000); ("jharkhand", 700);
       ("bihar", 600); ("west bengal", 500); ("odisha", 600); ("meghalaya", 100);
       ("sikkim", 300); ("arunachal pradesh", 300); ("nagaland", 200); ("manipur", 300);
       ("mizoram", 400); ("tripura", 400) ]);
    ("meghalaya",
     [ ("kerala", 2400); ("tamil nadu", 2200); ("karnataka", 2000); ("andhra pradesh", 1800);
       ("telangana", 1600); ("goa", 2000); ("mumbai", 1800); ("maharashtra", 1600);
       ("gujarat", 1800); ("rajasthan", 1800); ("delhi", 1700); ("haryana", 1650);
       ("punjab", 1800); ("uttarakhand", 1600); ("himachal pradesh", 1700); ("kashmir", 2100);
       ("uttar pradesh", 1400); ("madhya pradesh", 1200); ("chhattisgarh", 1000); ("jharkhand", 700);
       ("bihar", 600); ("west bengal", 400); ("odisha", 600); ("assam", 100);
       ("sikkim", 400); ("arunachal pradesh", 400); ("nagaland", 300); ("manipur", 400);
       ("mizoram", 300); ("tripura", 300) ]);
    ("sikkim",
     [ ("kerala", 2200); ("tamil nadu", 2000); ("karnataka", 1800); ("andhra pradesh", 1600);
       ("telangana", 1400); ("goa", 1800); ("mumbai", 1600); ("maharashtra", 1400);
       ("gujarat", 1600); ("rajasthan", 1600); ("delhi", 1500); ("haryana", 1450);
       ("punjab", 1600); ("uttarakhand", 1400); ("himachal pradesh", 1500); ("kashmir", 1900);
       ("uttar pradesh", 1200); ("madhya pradesh", 1000); ("chhattisgarh", 800); ("jharkhand", 500);
       ("bihar", 400); ("west bengal", 200); ("odisha", 600); ("assam", 300);
       ("meghalaya", 400); ("arunachal pradesh", 500); ("nagaland", 400); ("manipur", 500);
       ("mizoram", 600); ("tripura", 500) ]);
    ("arunachal pradesh",
     [ ("kerala", 2600); ("tamil nadu", 2400); ("karnataka", 2200); ("andhra pradesh", 2000);
       ("telangana", 1800); ("goa", 2200); ("mumbai", 2000); ("maharashtra", 1800);
       ("gujarat", 2000); ("rajasthan", 2000); ("delhi", 1900); ("haryana", 1850);
       ("punjab", 2000); ("uttarakhand", 1800); ("himachal pradesh", 1900); ("kashmir", 2300);
       ("uttar pradesh", 1600); ("madhya pradesh", 1400); ("chhattisgarh", 1200); ("jharkhand", 900);
       ("bihar", 800); ("west bengal", 600); ("odisha", 800); ("assam", 300);
       ("meghalaya", 400); ("sikkim", 500); ("nagaland", 400); ("manipur", 400);
       ("mizoram", 500); ("tripura", 600) ]);
    ("nagaland",
     [ ("kerala", 2500); ("tamil nadu", 2300); ("karnataka", 2100); ("andhra pradesh", 1900);
       ("telangana", 1700); ("goa", 2100); ("mumbai", 1900); ("maharashtra", 1700);
       ("gujarat", 1900); ("rajasthan", 1900); ("delhi", 1800); ("haryana", 1750);
       ("punjab", 1900); ("uttarakhand", 1700); ("himachal pradesh", 1800); ("kashmir", 2200);
       ("uttar pradesh", 1500); ("madhya pradesh", 1300); ("chhattisgarh", 1100); ("jharkhand", 800);
       ("bihar", 700); ("west bengal", 500); ("odisha", 700); ("assam", 200);
       ("meghalaya", 300); ("sikkim", 400); ("arunachal pradesh", 400); ("manipur", 200);
       ("mizoram", 300); ("tripura", 400) ]);
    ("manipur",
     [ ("kerala", 2500); ("tamil nadu", 2300); ("karnataka", 2100); ("andhra pradesh", 1900);
       ("telangana", 1700); ("goa", 2100); ("mumbai", 1900); ("maharashtra", 1700);
       ("gujarat", 1900); ("rajasthan", 1900); ("delhi", 1800); ("haryana", 1750);
       ("punjab", 1900); ("uttarakhand", 1700); ("himachal pradesh", 1800); ("kashmir", 2200);
       ("uttar pradesh", 1500); ("madhya pradesh", 1300); ("chhattisgarh", 1100); ("jharkhand", 800);
       ("bihar", 700); ("west bengal", 500); ("odisha", 700); ("assam", 300);
       ("meghalaya", 400); ("sikkim", 500); ("arunachal pradesh", 400); ("nagaland", 200);
       ("mizoram", 200); ("tripura", 300) ]);
    ("mizoram",
     [ ("kerala", 2400); ("tamil nadu", 2200); ("karnataka", 2000); ("andhra pradesh", 1800);
       ("telangana", 1600); ("goa", 2000); ("mumbai", 1800); ("maharashtra", 1600);
       ("gujarat", 1800); ("rajasthan", 1800); ("delhi", 1700); ("haryana", 1650);
       ("punjab", 1800); ("uttarakhand", 1600); ("himachal pradesh", 1700); ("kashmir", 2100);
       ("uttar pradesh", 1400); ("madhya pradesh", 1200); ("chhattisgarh", 1000); ("jharkhand", 700);
       ("bihar", 600); ("west bengal", 400); ("odisha", 600); ("assam", 400);
       ("meghalaya", 300); ("sikkim", 600); ("arunachal pradesh", 500); ("nagaland", 300);
       ("manipur", 200); ("tripura", 200) ]);
    ("tripura",
     [ ("kerala", 2300); ("tamil nadu", 2100); ("karnataka", 1900); ("andhra pradesh", 1700);
       ("telangana", 1500); ("goa", 1900); ("mumbai", 1700); ("maharashtra", 1500);
       ("gujarat", 1700); ("rajasthan", 1700); ("delhi", 1600); ("haryana", 1550);
       ("punjab", 1700); ("uttarakhand", 1500); ("himachal pradesh", 1600); ("kashmir", 2000);
       ("uttar pradesh", 1300); ("madhya pradesh", 1100); ("chhattisgarh", 900); ("jharkhand", 600);
       ("bihar", 500); ("west bengal", 300); ("odisha", 500); ("assam", 400);
       ("meghalaya", 300); ("sikkim", 500); ("arunachal pradesh", 600); ("nagaland", 400);
       ("manipur", 300); ("mizoram", 200) ]);
    ("bangalore",
     [ ("kerala", 350); ("tamil nadu", 350); ("chennai", 350); ("mumbai", 980);
       ("delhi", 2100); ("goa", 560); ("hyderabad", 600); ("pune", 800);
       ("kolkata", 1400); ("ahmedabad", 1100); ("surat", 1000); ("jaipur", 1600);
       ("lucknow", 1900); ("kanpur", 1950); ("nagpur", 800); ("indore", 1100);
       ("thane", 1000); ("bhopal", 1100); ("visakhapatnam", 500); ("pimpri", 820);
       ("patna", 1500); ("vadodara", 1050); ("ghaziabad", 2120); ("ludhiana", 2200);
       ("agra", 2000); ("nashik", 900); ("faridabad", 2100); ("meerut", 2150);
       ("rajkot", 1200); ("kalyan", 1010); ("vasai", 1020); ("varanasi", 1800);
       ("srinagar", 2600); ("aurangabad", 800); ("dhanbad", 1400); ("amritsar", 2300);
       ("navi mumbai", 990); ("allahabad", 1850); ("ranchi", 1400); ("howrah", 1410);
       ("coimbatore", 500); ("jabalpur", 1200); ("gwalior", 1600) ]);
    ("chennai",
     [ ("kerala", 650); ("tamil nadu", 100); ("bangalore", 350); ("mumbai", 1100);
       ("delhi", 2200); ("goa", 900); ("hyderabad", 600); ("pune", 1000);
       ("kolkata", 1600); ("ahmedabad", 1300); ("surat", 1200); ("jaipur", 1800);
       ("lucknow", 2100); ("kanpur", 2150); ("nagpur", 1000); ("indore", 1300);
       ("thane", 1120); ("bhopal", 1300); ("visakhapatnam", 450); ("pimpri", 1020);
       ("patna", 1700); ("vadodara", 1250); ("ghaziabad", 2220); ("ludhiana", 2300);
       ("agra", 2200); ("nashik", 1100); ("faridabad", 2200); ("meerut", 2250);
       ("rajkot", 1400); ("kalyan", 1130); ("vasai", 1140); ("varanasi", 2000);
       ("srinagar", 2700); ("aurangabad", 1000); ("dhanbad", 1600); ("amritsar", 2400);
       ("navi mumbai", 1110); ("allahabad", 2050); ("ranchi", 1600); ("howrah", 1610);
       ("coimbatore", 350); ("jabalpur", 1400); ("gwalior", 1800) ]);
    ("hyderabad",
     [ ("kerala", 800); ("tamil nadu", 600); ("bangalore", 600); ("mumbai", 800);
       ("delhi", 1800); ("goa", 900); ("chennai", 600); ("pune", 600);
       ("kolkata", 1000); ("ahmedabad", 900); ("surat", 800); ("jaipur", 1300);
       ("lucknow", 1600); ("kanpur", 1650); ("nagpur", 500); ("indore", 800);
       ("thane", 820); ("bhopal", 800); ("visakhapatnam", 200); ("pimpri", 620);
       ("patna", 1100); ("vadodara", 850); ("ghaziabad", 1820); ("ludhiana", 1900);
       ("agra", 1700); ("nashik", 700); ("faridabad", 1800); ("meerut", 1850);
       ("rajkot", 1000); ("kalyan", 830); ("vasai", 840); ("varanasi", 1500);
       ("srinagar", 2300); ("aurangabad", 600); ("dhanbad", 1000); ("amritsar", 2000);
       ("navi mumbai", 810); ("allahabad", 1450); ("ranchi", 1000); ("howrah", 1010);
       ("coimbatore", 800); ("jabalpur", 900); ("gwalior", 1200) ])
  ].

(** [a or b] on optional distances: zero and None are false. *)
Definition py_or (a b : option Z) : option Z :=
  match a with
  | Some v => if v =? 0 then b else Some v
  | None => b
  end.

(** [distances.get(a, {}).get(b)] *)
Definition lookup_distance (a b : string) : option Z :=
  dict_get b (dict_get_default distances a []).

(** The distance the code settles on for a pair of keys. *)
Definition route_distance (source_key dest_key : string) : Z :=
  match py_or (py_or (lookup_distance source_key dest_key)
                     (lookup_distance dest_key source_key))
              (Some 300) with
  | Some v => v
  | None => 300
  end.

Definition calculate_minimum_duration (source destination travel_mode : string) : Z :=
  let source_key := str_lower source in
  let dest_key := str_lower destination in
  let distance := route_distance source_key dest_key in
  if String.eqb travel_mode "Self" then
    if distance <=? 300 then 2
    else if distance <=? 800 then 3
    else if distance <=? 1500 then 4
    else 5
  else
    if distance <=? 500 then 2
    else if distance <=? 1200 then 3
    else 4.

Record duration_option := {
  label : string;
  value : string;
  days : Z
}.

Definition all_durations : list duration_option :=
  [ {| label := "1-2 days"; value := "2 days"; days := 2 |};
    {| label := "3-4 days"; value := "3 days"; days := 3 |};
    {| label := "5-7 days"; value := "7 days"; days := 7 |};
    {| label := "1 week+"; value := "10 days"; days := 10 |} ].

Definition get_feasible_durations (source destination travel_mode : string)
    : list duration_option :=
  let min_duration := calculate_minimum_duration source destination travel_mode in
  List.filter (fun duration => min_duration <=? days duration) all_durations.

(* ===================================================================== *)
(** * Regular expressions of the text parsers *)
(* ===================================================================== *)

(** The fragment of [re] the parsers use: character classes, sequence,
    greedy option and repetition, capturing groups.  Matching is by
    backtracking: [rmatch r st] lists the ways [r] can match at the head
    of the text of [st], in the order [re] tries them. *)

Inductive cclass :=
  | CDigit                (* \d *)
  | CSpace                (* \s *)
  | CLit (c : ascii).     (* a literal character *)

Definition class_mem (k : cclass) (c : ascii) : bool :=
  match k with
  | CDigit => is_digit c
  | CSpace => is_space c
  | CLit c' => Ascii.eqb c c'
  end.

Inductive regex :=
  | Eps
  | Chr (k : cclass)
  | Seq (a b : regex)
  | Opt (a : regex)              (* a? *)
  | Star (a : regex)             (* a* *)
  | Group (n : nat) (a : regex). (* the n-th capturing group *)

(** [a+] *)
Definition Plus (a : regex) : regex := Seq a (Star a).

Fixpoint seq_all (l : list regex) : regex :=
  match l with
  | [] => Eps
  | [a] => a
  | a :: rest => Seq a (seq_all rest)
  end.

(** A literal word. *)
Definition Lit (s : string) : regex :=
  seq_all (map (fun c => Chr (CLit c)) (list_ascii_of_string s)).

(** [a{0,n}]: as many as possible first. *)
Fixpoint rep_upto (n : nat) (a : regex) : regex :=
  match n with
  | O => Eps
  | S n' => Opt (Seq a (rep_upto n' a))
  end.

(** [a{lo,hi}] *)
Fixpoint rep_range (lo hi : nat) (a : regex) : regex :=
  match lo with
  | O => rep_upto hi a
  | S lo' => Seq a (rep_range lo' (Nat.pred hi) a)
  end.

Record mstate := {
  rest : string;                 (* the text still to read *)
  caps : list (nat * string)     (* the groups captured so far, latest first *)
}.

(** The text read between two states. *)
Fixpoint str_take (n : nat) (s : string) : string :=
  match n, s with
  | S n', String c s' => String c (str_take n' s')
  | _, _ => EmptyString
  end.

Definition consumed (before after : string) : string :=
  str_take (String.length before - String.length after) before.

(** Greedy repetition of a matcher; a round that reads nothing ends the
    repetition.  [fuel] bounds the rounds by the length of the text. *)
Fixpoint star_iter (f : mstate -> list mstate) (fuel : nat) (st : mstate) : list mstate :=
  match fuel with
  | O => [st]
  | S fuel' =>
      (flat_map
         (fun st' =>
            if (String.length (rest st') <? String.length (rest st))%nat
            then star_iter f fuel' st' else [])
         (f st) ++ [st])%list
  end.

Fixpoint rmatch (r : regex) (st : mstate) : list mstate :=
  match r with
  | Eps => [st]
  | Chr k =>
      match rest st with
      | String c s' => if class_mem k c then [ {| rest := s'; caps := caps st |} ] else []
      | EmptyString => []
      end
  | Seq a b => flat_map (rmatch b) (rmatch a st)
  | Opt a => (rmatch a st ++ [st])%list
  | Star a => star_iter (rmatch a) (String.length (rest st)) st
  | Group n a =>
      map (fun st' => {| rest := rest st';
                         caps := (n, consumed (rest st) (rest st')) :: caps st' |})
          (rmatch a st)
  end.

(** [re.search(r, s)]: the first match at the leftmost position that has
    one; the result is its groups. *)
Fixpoint search (r : regex) (s : string) : option (list (nat * string)) :=
  match rmatch r {| rest := s; caps := [] |} with
  | st :: _ => Some (caps st)
  | [] =>
      match s with
      | EmptyString => None
      | String _ s' => search r s'
      end
  end.

(** [match.group(n)] *)
Fixpoint group (n : nat) (cs : list (nat * string)) : option string :=
  match cs with
  | [] => None
  | (m, s) :: rest => if (n =? m)%nat then Some s else group n rest
  end.

Definition group_text (n : nat) (cs : list (nat * string)) : string :=
  match group n cs with Some s => s | None => EmptyString end.

Definition digit : regex := Chr CDigit.
Definition spaces : regex := Star (Chr CSpace).
Definition chr (c : ascii) : regex := Chr (CLit c).

(** [\d{1,4}(?:,\d{3})*(?:\.\d+)?] *)
Definition number_re : regex :=
  seq_all [ rep_range 1 4 digit;
            Star (Seq (chr ",") (rep_range 3 3 digit));
            Opt (Seq (chr ".") (Plus digit)) ].

(** [(\d{1,4}(?:,\d{3})*(?:\.\d+)?)\s*k?m] *)
Definition distance_re1 : regex :=
  seq_all [ Group 1 number_re; spaces; Opt (chr "k"); chr "m" ].

(** [(\d{1,4}(?:,\d{3})*(?:\.\d+)?)\s*kilo?metres?] *)
Definition distance_re2 : regex :=
  seq_all [ Group 1 number_re; spaces; Lit "kil"; Opt (chr "o"); Lit "metre"; Opt (chr "s") ].

(** [(\d{1,4})-(\d{1,4})\s*k?m] *)
Definition distance_re3 : regex :=
  seq_all [ Group 1 (rep_range 1 4 digit); chr "-"; Group 2 (rep_range 1 4 digit);
            spaces; Opt (chr "k"); chr "m" ].

(** [distance\s+(?:of\s+)?(\d{1,4}(?:,\d{3})*(?:\.\d+)?)] *)
Definition distance_re4 : regex :=
  seq_all [ Lit "distance"; Plus (Chr CSpace);
            Opt (Seq (Lit "of") (Plus (Chr CSpace)));
            Group 1 number_re ].

(** [h(?:ours?)?] *)
Definition hours_word : regex :=
  Seq (chr "h") (Opt (seq_all [ Lit "our"; Opt (chr "s") ])).

(** [m(?:in(?:utes?)?)?] *)
Definition minutes_word : regex :=
  Seq (chr "m") (Opt (seq_all [ Lit "in"; Opt (seq_all [ Lit "ute"; Opt (chr "s") ]) ])).

(** [(\d{1,2})\s*h(?:ours?)?\s*(?:(\d{1,2})\s*m(?:in(?:utes?)?)?)?] *)
Definition duration_re1 : regex :=
  seq_all [ Group 1 (rep_range 1 2 digit); spaces; hours_word; spaces;
            Opt (seq_all [ Group 2 (rep_range 1 2 digit); spaces; minutes_word ]) ].

(** [(\d{1,2}(?:\.\d+)?)\s*h(?:ours?)?] *)
Definition duration_re2 : regex :=
  seq_all [ Group 1 (Seq (rep_range 1 2 digit) (Opt (Seq (chr ".") (Plus digit))));
            spaces; hours_word ].

(** [(\d{2,4})\s*m(?:in(?:utes?)?)?] *)
Definition duration_re3 : regex :=
  seq_all [ Group 1 (rep_range 2 4 digit); spaces; minutes_word ].

(* ===================================================================== *)
(** * TravelPlanningTool._parse_distance and _parse_duration *)
(* ===================================================================== *)

Definition caught : list exn_class := [ValueError; AttributeError].

(** The [try] block of [_parse_distance]. *)
Definition parse_distance_body (text : string) : result float :=
  if (String.length text =? 0)%nat then Ok fzero
  else
    let text := str_lower text in
    match search distance_re1 text with
    | Some m => float_of_string (remove_commas (group_text 1 m))
    | None =>
    match search distance_re2 text with
    | Some m => float_of_string (remove_commas (group_text 1 m))
    | None =>
    match search distance_re3 text with
    | Some m =>
        do low <- float_of_string (group_text 1 m);
        do high <- float_of_string (group_text 2 m);
        do two <- float_of_int 2;
        Ok (fdiv (fadd low high) two)
    | None =>
    match search distance_re4 text with
    | Some m => float_of_string (remove_commas (group_text 1 m))
    | None => Ok fzero
    end end end end.

Definition _parse_distance (text : string) : result float :=
  try_except_only caught exn_class_eqb (parse_distance_body text) fzero.

Section ParseDuration.

(** [str(x)] for a float, which the second pattern formats. *)
Variable float_str : float -> string.

(** The [try] block of [_parse_duration]. *)
Definition parse_duration_body (text : string) : result string :=
  if (String.length text =? 0)%nat then Ok "N/A"
  else
    let text := str_lower text in
    match search duration_re1 text with
    | Some m =>
        do hours <- int_of_string (group_text 1 m);
        do minutes <- match group 2 m with
                      | Some g =>
                          if (String.length g =? 0)%nat then Ok 0 else int_of_string g
                      | None => Ok 0
                      end;
        if 0 <? minutes
        then Ok (str_of_int hours ++ "h " ++ str_of_int minutes ++ "m")
        else Ok (str_of_int hours ++ "h")
    | None =>
    match search duration_re2 text with
    | Some m =>
        do hours <- float_of_string (group_text 1 m);
        Ok (float_str hours ++ "h")
    | None =>
    match search duration_re3 text with
    | Some m =>
        do minutes <- int_of_string (group_text 1 m);
        let hours := minutes / 60 in
        let mins := minutes mod 60 in
        if 0 <? hours
        then Ok (str_of_int hours ++ "h " ++ str_of_int mins ++ "m")
        else Ok (str_of_int mins ++ "m")
    | None => Ok "N/A"
    end end end.

Definition _parse_duration (text : string) : result string :=
  try_except_only caught exn_class_eqb (parse_duration_body text) "N/A".

End ParseDuration.

(* ===================================================================== *)
(** * transform_backend_response_to_frontend_format *)
(* ===================================================================== *)

Definition rupee : string := "₹".

(** The remapping of the budget status. *)
Definition frontend_budget_status (budget_validation : pyval) : result pyval :=
  do budget_status <- py_get budget_validation "status" (VStr "sufficient");
  if negb (py_eq_str budget_status "sufficient" || py_eq_str budget_status "insufficient")
  then
    do provided_budget <- py_get budget_validation "provided_budget" (VInt 0);
    do minimum_required <- py_get budget_validation "minimum_required" (VInt 0);
    do enough <- py_ge provided_budget minimum_required;
    Ok (VStr (if enough then "sufficient" else "insufficient"))
  else Ok budget_status.

Definition transform_backend_response_to_frontend_format
    (backend_result : pydict) (user_input : pyval) : result pyval :=
  let field k default :=
    match user_input with
    | VDict d => dict_get_default d k (VStr default)
    | _ => VStr default
    end in
  let source := field "source" "Unknown" in
  let destination := field "destination" "Unknown" in
  let travel_mode := field "travel_mode" "Self" in
  let budget := field "budget" (rupee ++ "15000") in
  let theme := field "theme" "Adventure" in
  let duration := field "duration" "3 days" in
  let budget_validation := dict_get_default backend_result "budget_validation" (VDict []) in
  do budget_status <- frontend_budget_status budget_validation;
  do minimum <- py_get budget_validation "minimum_required" (VInt 15000);
  let estimated_cost := VStr (rupee ++ py_str minimum) in
  let dest := py_str destination in
  let th := py_str theme in
  Ok (VDict
    [ ("trip_overview", VDict
         [ ("source", source);
           ("destination", destination);
           ("travel_mode", travel_mode);
           ("budget", budget);
           ("theme", theme);
           ("duration", duration);
           ("budget_status", budget_status);
           ("estimated_cost", estimated_cost);
           ("minimum_budget_required",
            if py_eq_str budget_status "insufficient" then estimated_cost else VNone) ]);
      ("destinations", VList
         [ VDict
             [ ("name", VStr ("Top Attraction in " ++ dest));
               ("description", VStr ("Must-visit destination in " ++ dest
                                     ++ " perfect for " ++ th ++ " travelers"));
               ("theme_alignment", VStr ("Excellent for " ++ th ++ " theme"));
               ("highlights", str_list ["Popular attraction"; "Great reviews"; "Theme-appropriate"]);
               ("estimated_time", VStr "3-4 hours");
               ("entry_fees", VStr (rupee ++ "200-500"));
               ("best_time_to_visit", VStr "Morning to evening");
               ("booking_options", VDict
                  [ ("available", VBool true);
                    ("booking_url", VStr "#") ]) ] ]);
      ("hotels", VList
         [ VDict
             [ ("name", VStr ("Hotel Paradise " ++ dest));
               ("location", VStr (dest ++ " City Center"));
               ("rating", VStr "4.2/5");
               ("price_range", VStr (rupee ++ "2,500-4,000/night"));
               ("amenities", str_list ["Free WiFi"; "Restaurant"; "Parking"; "AC"]);
               ("theme_suitability", VStr ("Perfect for " ++ th ++ " travelers"));
               ("booking_options", VDict
                  [ ("available", VBool true);
                    ("booking_url", VStr "#");
                    ("one_click_booking", VBool false) ]) ] ]);
      ("restaurants", VList
         [ VDict
             [ ("name", VStr ("Local Delights " ++ dest));
               ("cuisine_type", VStr "Local");
               ("location", VStr (dest ++ " area"));
               ("rating", VStr "4.5/5");
               ("price_range", VStr (rupee ++ "300-600 per person"));
               ("specialties", str_list ["Local cuisine"; "Regional specialties"; "Fresh ingredients"]);
               ("theme_alignment", VStr ("Great for " ++ th ++ " travelers")) ] ]);
      ("transportation", VDict
         (("mode", travel_mode) ::
          (if py_eq_str travel_mode "Self" then
             [ ("self_mode", VDict
                  [ ("route_details", VStr ("Optimized route from " ++ py_str source
                                            ++ " to " ++ dest));
                    ("fuel_estimate", VDict
                       [ ("vehicle_type", VStr "Car");
                         ("total_distance", VStr "350 km");
                         ("fuel_cost", VStr (rupee ++ "2,500"));
                         ("toll_charges", VStr (rupee ++ "500")) ]);
                    ("route_hotels", str_list ["Highway Rest Inn"; "Midway Lodge"]);
                    ("route_restaurants", str_list ["Highway Dhaba"; "Travel Plaza"]) ]) ]
           else
             [ ("booking_mode", VDict
                  [ ("transport_options", VList
                       [ VDict
                           [ ("type", VStr "Flight");
                             ("operator", VStr "Various Airlines");
                             ("price", VStr (rupee ++ "4,000-8,000"));
                             ("duration", VStr "1.5 hours");
                             ("booking_url", VStr "https://booking-site.com");
                             ("one_click_booking", VBool true) ];
                         VDict
                           [ ("type", VStr "Train");
                             ("operator", VStr "Indian Railways");
                             ("price", VStr (rupee ++ "800-2,500"));
                             ("duration", VStr "6-8 hours");
                             ("booking_url", VStr "https://irctc.co.in");
                             ("one_click_booking", VBool true) ] ]) ]) ])));
      ("budget_breakdown", VDict
         [ ("total_budget", budget);
           ("estimated_cost", estimated_cost);
           ("breakdown", VDict
              [ ("transportation", VStr "25%");
                ("accommodation", VStr "40%");
                ("food", VStr "20%");
                ("activities", VStr "15%") ]);
           ("budget_status", budget_status) ]);
      ("weather_info", VDict
         [ ("current_conditions", VStr "Pleasant");
           ("temperature_range", VStr "22-28°C");
           ("seasonal_info", VStr "Good weather for outdoor activities");
           ("weather_recommendations",
            str_list ["Pack light cotton clothes"; "Carry umbrella"; "Sunscreen recommended"]);
           ("climate_considerations", VStr "Suitable for all planned activities") ]);
      ("daily_itinerary", VList
         [ VDict
             [ ("day", VInt 1);
               ("weather_forecast", VStr "Pleasant, 25°C");
               ("theme_focus", theme);
               ("morning", VDict
                  [ ("activity", VStr ("Arrival and " ++ dest ++ " exploration"));
                    ("location", destination);
                    ("duration", VStr "3 hours");
                    ("cost", VStr (rupee ++ "500")) ]);
               ("afternoon", VDict
                  [ ("activity", VStr (th ++ " themed activity"));
                    ("location", VStr (dest ++ " attractions"));
                    ("duration", VStr "4 hours");
                    ("cost", VStr (rupee ++ "1,200")) ]);
               ("evening", VDict
                  [ ("activity", VStr "Local dining and leisure");
                    ("location", VStr (dest ++ " city center"));
                    ("duration", VStr "2 hours");
                    ("cost", VStr (rupee ++ "800")) ]);
               ("accommodation", VStr ("Hotel Paradise " ++ dest));
               ("meals", VDict
                  [ ("breakfast", VStr "Hotel breakfast");
                    ("lunch", VStr "Local restaurant");
                    ("dinner", VStr "Traditional cuisine") ]);
               ("daily_total_cost", VStr (rupee ++ "2,500")) ] ]);
      ("booking_summary", VDict
         [ ("one_click_bookings_available", VBool true);
           ("booking_links", VDict
              [ ("transportation", VStr "https://booking-site.com");
                ("hotels", str_list ["https://hotel-booking.com"]);
                ("activities", str_list ["https://activity-booking.com"]) ]);
           ("booking_instructions",
            VStr "Click on individual booking links to reserve your selections") ]);
      ("sources", dict_get_default backend_result "sources"
                    (str_list ["AI Travel Planning System"])) ]).

(* ===================================================================== *)
(** * The saved-trips store and its endpoints *)
(* ===================================================================== *)

(** [SaveTripRequest] *)
Record SaveTripRequest := {
  request_id : option string;
  request_name : string;
  request_trip_data : pydict
}.

(** What [save_trip] reads from the clock: the text of
    [datetime.now().timestamp()] and of the two [isoformat()] calls. *)
Record save_clock := {
  timestamp_text : string;
  created_text : string;
  updated_text : string
}.

(** The reply of an endpoint: a JSON body, or an [HTTPException]. *)
Inductive http_reply :=
  | Reply (body : pyval)
  | HTTPException (status_code : Z) (detail : string).

(** [saved_trips]: trip id to trip record. *)
Abbreviation trip_store := (list (string * pyval)).

Definition saved_trips_initial : trip_store := [].

(** [request.id or f"trip_{datetime.now().timestamp()}"] *)
Definition effective_trip_id (clock : save_clock) (request : SaveTripRequest) : string :=
  match request_id request with
  | Some i => if (String.length i =? 0)%nat then "trip_" ++ timestamp_text clock else i
  | None => "trip_" ++ timestamp_text clock
  end.

Definition trip_record (clock : save_clock) (request : SaveTripRequest) : pyval :=
  VDict [ ("id", VStr (effective_trip_id clock request));
          ("name", VStr (request_name request));
          ("trip_data", VDict (request_trip_data request));
          ("created_at", VStr (created_text clock));
          ("updated_at", VStr (updated_text clock)) ].

Definition save_trip (clock : save_clock) (request : SaveTripRequest)
    (saved_trips : trip_store) : http_reply * trip_store :=
  let trip_id := effective_trip_id clock request in
  (Reply (VDict [ ("id", VStr trip_id); ("message", VStr "Trip saved successfully") ]),
   dict_set trip_id (trip_record clock request) saved_trips).

Definition get_saved_trips (saved_trips : trip_store) : http_reply :=
  Reply (VList (dict_values saved_trips)).

Definition delete_trip (trip_id : string) (saved_trips : trip_store)
    : http_reply * trip_store :=
  if negb (dict_mem trip_id saved_trips)
  then (HTTPException 404 "Trip not found", saved_trips)
  else (Reply (VDict [ ("message", VStr "Trip deleted successfully") ]),
        dict_del trip_id saved_trips).

(** The store as a finite map. *)
Definition store_map (saved_trips : trip_store) : gmap string pyval :=
  fold_left (fun m kv => <[fst kv := snd kv]> m) saved_trips ∅.

(* ===================================================================== *)
(** * The rules as the specification words them *)
(* ===================================================================== *)

(** The number that [validate_budget] takes for the budget when its
    conversions succeed: the digits left by the cleaning, joined. *)
Definition parse_budget (travel_input : pydict) : Z :=
  let budget_str := py_str (dict_get_default travel_input "budget" (VStr "0")) in
  let cleaned_budget := strip_currency budget_str in
  let budget_numbers := findall_digits cleaned_budget in
  match budget_numbers with
  | [] => 0
  | _ => int_of_digits (String.concat "" budget_numbers)
  end.

(** The number that [validate_budget] takes for the duration when its
    conversions succeed: the first run of digits, or 1. *)
Definition parse_duration_days (travel_input : pydict) : Z :=
  let duration_str := py_str (dict_get_default travel_input "duration" (VStr "1")) in
  let duration_numbers := findall_digits duration_str in
  match duration_numbers with
  | first :: _ => int_of_digits first
  | [] => 1
  end.

(** The theme multiplier: devotional 1.0, cultural 1.2, adventurous 1.5,
    nightlife 2.0, luxury 3.0, any other theme 1.2. *)
Definition spec_theme_multiplier (theme : string) : float :=
  if String.eqb theme "devotional" then float_lit 10 10
  else if String.eqb theme "cultural" then float_lit 12 10
  else if String.eqb theme "adventurous" then float_lit 15 10
  else if String.eqb theme "nightlife" then float_lit 20 10
  else if String.eqb theme "luxury" then float_lit 30 10
  else float_lit 12 10.

(** [int(d*rate + d*2500*0.4*m + d*2500*0.3 + d*2500*0.3*m)], the
    operations taken left to right in double precision. *)
Definition minimum_formula (duration rate : Z) (m : float) : result Z :=
  do t1 <- int_mul_float (duration * 2500) (float_lit 4 10);
  do t2 <- int_mul_float (duration * 2500) (float_lit 3 10);
  do t3 <- int_mul_float (duration * 2500) (float_lit 3 10);
  do s1 <- int_add_float (duration * rate) (fmul t1 m);
  int_of_float (fadd (fadd s1 t2) (fmul t3 m)).

(** The minimum for a duration, a travel mode and a theme: the rate is
    1500 when the mode is 'self' in any case of letters, else 3500. *)
Definition spec_minimum_budget (duration : Z) (travel_mode theme : string) : result Z :=
  minimum_formula duration
    (if String.eqb (str_lower travel_mode) "self" then 1500 else 3500)
    (spec_theme_multiplier (str_lower theme)).

(** The same formula over the rationals, where it is an integer:
    [d*rate + d*1000*m + d*750 + d*750*m] with [m] in tenths. *)
Definition exact_minimum_budget (duration rate tenths : Z) : Z :=
  duration * rate + duration * 100 * tenths + duration * 750 + duration * 75 * tenths.

(** The theme multiplier in tenths. *)
Definition theme_tenths (theme : string) : Z :=
  if String.eqb theme "devotional" then 10
  else if String.eqb theme "cultural" then 12
  else if String.eqb theme "adventurous" then 15
  else if String.eqb theme "nightlife" then 20
  else if String.eqb theme "luxury" then 30
  else 12.

(** The double-precision formula gives the exact integer for every
    duration below [n] days, both rates and the five multipliers. *)
Definition formula_exact_below (n : nat) : bool :=
  forallb (fun d =>
    forallb (fun rate =>
      forallb (fun tenths =>
        match minimum_formula (Z.of_nat d) rate (float_lit tenths 10) with
        | Ok v => v =? exact_minimum_budget (Z.of_nat d) rate tenths
        | Raise _ => false
        end) [10; 12; 15; 20; 30]) [1500; 3500]) (List.seq 0 n).

(** A decimal digit repeated: the text of a very long number. *)
Fixpoint str_repeat (n : nat) (c : ascii) : string :=
  match n with
  | O => EmptyString
  | S n' => String c (str_repeat n' c)
  end.

(** The distance of a pair: the entry of the pair, else the entry of the
    reversed pair, else 300. *)
Definition spec_distance (source_key dest_key : string) : Z :=
  match lookup_distance source_key dest_key with
  | Some d => d
  | None =>
      match lookup_distance dest_key source_key with
      | Some d => d
      | None => 300
      end
  end.

(** No pattern of [_parse_distance] matches the lowercased text. *)
Definition no_distance_match (text : string) : bool :=
  match search distance_re1 (str_lower text), search distance_re2 (str_lower text),
        search distance_re3 (str_lower text), search distance_re4 (str_lower text) with
  | None, None, None, None => true
  | _, _, _, _ => false
  end.

(** No pattern of [_parse_duration] matches the lowercased text. *)
Definition no_duration_match (text : string) : bool :=
  match search duration_re1 (str_lower text), search duration_re2 (str_lower text),
        search duration_re3 (str_lower text) with
  | None, None, None => true
  | _, _, _ => false
  end.

(** The top-level keys of the frontend format. *)
Definition frontend_keys : list string :=
  [ "trip_overview"; "destinations"; "hotels"; "restaurants"; "transportation";
    "budget_breakdown"; "weather_info"; "daily_itinerary"; "booking_summary"; "sources" ].

(** Checks over the distance matrix, run once by computation. *)
Definition all_entries (p : string -> string -> Z -> bool) : bool :=
  forallb (fun row => forallb (fun cell => p (fst row) (fst cell) (snd cell)) (snd row))
          distances.

Definition entry_positive (a b : string) (d : Z) : bool := 0 <? d.

Definition entry_symmetric (a b : string) (d : Z) : bool :=
  match lookup_distance b a with
  | Some d' => d =? d'
  | None => true
  end.

(* ===================================================================== *)
(** * GeminiTravelPlanningAgent.search_and_respond *)
(* ===================================================================== *)

(** The trip a request in plain text is answered with. *)
Definition default_travel_input : pydict :=
  [ ("source", VStr "Mumbai");
    ("destination", VStr "Goa");
    ("travel_mode", VStr "Self");
    ("budget", VStr "20000");
    ("theme", VStr "cultural");
    ("duration", VStr "3 days");
    ("vehicle_type", VStr "car") ].

Section Compatibility.

Variables world response part function_call : Type.
Variable sv : services world response part function_call.

(** [search_and_respond(user_input)]: a value that is neither a string
    nor a dictionary has no [get]. *)
Definition search_and_respond (user_input : pyval) : io world pyval :=
  match user_input with
  | VStr _ => generate_personalized_itinerary _ _ _ _ sv default_travel_input
  | VDict travel_input => generate_personalized_itinerary _ _ _ _ sv travel_input
  | other => io_lift _ (Raise (no_attribute other "get"))
  end.

End Compatibility.

(* ===================================================================== *)
(** * Formatting a float with a fixed number of decimals *)
(* ===================================================================== *)

(** The integer nearest to [n/d], ties to the even one, for [0 <= n] and
    [0 < d]. *)
Definition nearest_even (n d : Z) : Z :=
  let q := n / d in
  let r := n mod d in
  if 2 * r <? d then q
  else if d <? 2 * r then q + 1
  else if Z.even q then q else q + 1.

(** [s] with zeros in front up to the length [n]. *)
Definition pad_zeros (n : nat) (s : string) : string :=
  str_repeat (n - String.length s) "0" ++ s.

Fixpoint str_drop (n : nat) (s : string) : string :=
  match n, s with
  | S n', String _ s' => str_drop n' s'
  | _, _ => s
  end.

(** [format(x, '.<digits>f')], the text an f-string puts for
    [{x:.<digits>f}]: the decimal with [digits] places nearest to the
    value of the double, ties to even. *)
Definition format_fixed (digits : nat) (x : float) : string :=
  let scaled m e :=
    let num := Zpos m * 10 ^ Z.of_nat digits in
    if 0 <=? e then num * 2 ^ e else nearest_even num (2 ^ (- e)) in
  let body (n : Z) :=
    let text := pad_zeros (S digits) (str_of_int n) in
    let cut := (String.length text - digits)%nat in
    match digits with
    | O => text
    | _ => str_take cut text ++ "." ++ str_drop cut text
    end in
  match x with
  | S754_nan => "nan"
  | S754_infinity s => if s then "-inf" else "inf"
  | S754_zero s => (if s then "-" else "") ++ body 0
  | S754_finite s m e => (if s then "-" else "") ++ body (scaled m e)
  end.

(** [a / b] for two ints that are doubles themselves, [b] not zero. *)
Definition int_truediv (a b : Z) : float := float_lit a b.

(** [x * n] for a float [x] and an int [n] that is a double itself. *)
Definition float_mul_int (x : float) (n : Z) : float :=
  fmul x (binary_normalize prec emax n 0 false).

(* ===================================================================== *)
(** * PersonalizedTripPlanner: the processing of the response *)
(* ===================================================================== *)

(** [v[k] = x] *)
Definition py_setitem (v : pyval) (k : string) (x : pyval) : result pyval :=
  match v with
  | VDict d => Ok (VDict (dict_set k x d))
  | VList _ => Raise (Exn TypeError "list indices must be integers or slices, not str")
  | _ => Raise (Exn TypeError ("'" ++ type_name v ++ "' object does not support item assignment"))
  end.

(** [s.strip()] *)
Fixpoint str_lstrip (s : string) : string :=
  match s with
  | EmptyString => EmptyString
  | String c s' => if is_space c then str_lstrip s' else s
  end.

Fixpoint str_rstrip (s : string) : string :=
  match s with
  | EmptyString => EmptyString
  | String c s' =>
      match str_rstrip s' with
      | EmptyString => if is_space c then EmptyString else String c EmptyString
      | r => String c r
      end
  end.

Definition str_strip (s : string) : string := str_rstrip (str_lstrip s).

(** [s.startswith('{')] *)
Definition starts_with_brace (s : string) : bool :=
  match s with
  | String c _ => Ascii.eqb c "{"
  | EmptyString => false
  end.

Definition agent_fuel_efficiency : list (string * Z) :=
  [ ("car", 15); ("bike", 40); ("suv", 12); ("motorcycle", 45) ].

(** [_calculate_fuel_costs(source, destination, vehicle_type)]; the two
    places are not read. *)
Definition _calculate_fuel_costs (vehicle_type : pyval) : result pyval :=
  let estimated_distance := 300 in
  do key <- py_lower vehicle_type;
  let efficiency := dict_get_default agent_fuel_efficiency key 15 in
  let fuel_price := 100 in
  let fuel_needed := int_truediv estimated_distance efficiency in
  let fuel_cost := float_mul_int fuel_needed fuel_price in
  Ok (VDict
    [ ("estimated_distance", VStr (str_of_int estimated_distance ++ " km"));
      ("fuel_efficiency", VStr (str_of_int efficiency ++ " km/l"));
      ("fuel_needed", VStr (format_fixed 1 fuel_needed ++ " liters"));
      ("fuel_cost", VStr (currency_mark ++ format_fixed 0 fuel_cost));
      ("total_cost_with_return",
       VStr (currency_mark ++ format_fixed 0 (float_mul_int fuel_cost 2))) ]).

(** [_create_structured_response(response_text, travel_input)]; [now] is
    the text of [datetime.now().isoformat()] at the call. *)
Definition _create_structured_response (now : string) (response_text : string)
    (travel_input : pydict) : pyval :=
  let field k := dict_get_default travel_input k (VStr "") in
  VDict
    [ ("status", VStr "success");
      ("trip_overview", VDict
         [ ("source", field "source");
           ("destination", field "destination");
           ("travel_mode", field "travel_mode");
           ("theme", field "theme");
           ("duration", field "duration");
           ("budget", field "budget") ]);
      ("ai_response", VStr response_text);
      ("itinerary", VList []);
      ("recommendations", VDict
         [ ("hotels", VList []);
           ("restaurants", VList []);
           ("activities", VList []);
           ("local_markets", VList []) ]);
      ("travel_info", VDict []);
      ("weather_info", VDict []);
      ("generated_at", VStr now) ].

(** [_enhance_self_mode(itinerary, travel_input)] *)
Definition _enhance_self_mode (itinerary : pyval) (travel_input : pydict) : result pyval :=
  let vehicle_type := dict_get_default travel_input "vehicle_type" (VStr "car") in
  do fuel_info <- _calculate_fuel_costs vehicle_type;
  py_setitem itinerary "self_mode_features"
    (VDict
       [ ("vehicle_type", vehicle_type);
         ("fuel_costs", fuel_info);
         ("route_recommendations", str_list
            [ "Take NH highways for better road conditions";
              "Plan rest stops every 2-3 hours";
              "Check vehicle condition before departure";
              "Keep emergency contact numbers handy" ]);
         ("packing_list", str_list
            [ "Vehicle documents and insurance";
              "First aid kit";
              "Tool kit for minor repairs";
              "Extra fuel canister (if allowed)";
              "Phone charger and power bank" ]) ]).

(** [_enhance_booking_mode(itinerary, travel_input)] *)
Definition _enhance_booking_mode (itinerary : pyval) (travel_input : pydict) : result pyval :=
  py_setitem itinerary "booking_mode_features"
    (VDict
       [ ("transport_options", VList
            [ VDict
                [ ("type", VStr "Flight");
                  ("duration", VStr "2 hours");
                  ("price_range", VStr (currency_mark ++ "3,000 - " ++ currency_mark ++ "8,000"));
                  ("booking_tips", VStr "Book 2-3 weeks in advance for better rates") ];
              VDict
                [ ("type", VStr "Train");
                  ("duration", VStr "6-8 hours");
                  ("price_range", VStr (currency_mark ++ "500 - " ++ currency_mark ++ "2,000"));
                  ("booking_tips", VStr "Book through IRCTC for confirmed tickets") ];
              VDict
                [ ("type", VStr "Bus");
                  ("duration", VStr "8-10 hours");
                  ("price_range", VStr (currency_mark ++ "800 - " ++ currency_mark ++ "1,500"));
                  ("booking_tips", VStr "Choose reputable operators for safety") ] ]);
         ("booking_links", VDict
            [ ("flights", VStr "https://www.easemytrip.com");
              ("trains", VStr "https://www.irctc.co.in");
              ("buses", VStr "https://www.redbus.in") ]);
         ("travel_tips", str_list
            [ "Arrive at station/airport 2 hours early";
              "Keep ID proof for ticket verification";
              "Download offline maps for local transport";
              "Keep transport booking confirmations handy" ]) ]).

(** The rest of the [try] block of [_process_ai_response], from the text
    of the response on.  [json_loads] is [json.loads]; the
    [JSONDecodeError] it raises on a malformed text is its only
    [ValueError]. *)
Section ResponseProcessing.

Variable json_loads : string -> result pyval.

(** The itinerary before the validations are added: the parsed text, or
    the text wrapped by [_create_structured_response]. *)
Definition parse_or_wrap (now : string) (response_text : string) (travel_input : pydict)
    : result pyval :=
  if starts_with_brace (str_strip response_text)
  then try_except_only [ValueError] exn_class_eqb (json_loads response_text)
         (_create_structured_response now response_text travel_input)
  else Ok (_create_structured_response now response_text travel_input).

Definition enhance_response (now : string) (response_text : string) (travel_input : pydict)
    (bv dv : pyval) : result pyval :=
  do itinerary <- parse_or_wrap now response_text travel_input;
  do itinerary <- py_setitem itinerary "budget_validation" bv;
  do itinerary <- py_setitem itinerary "duration_validation" dv;
  let travel_mode := dict_get_default travel_input "travel_mode" (VStr "Self") in
  do mode <- py_lower travel_mode;
  if String.eqb mode "self"
  then _enhance_self_mode itinerary travel_input
  else _enhance_booking_mode itinerary travel_input.

Variables world response part function_call : Type.

(** The planner with that processing in the place of [build_itinerary]. *)
Definition with_response_processing (sv : services world response part function_call)
    : services world response part function_call :=
  {| start_chat := start_chat _ _ _ _ sv;
     send_message := send_message _ _ _ _ sv;
     response_parts := response_parts _ _ _ _ sv;
     part_function_call := part_function_call _ _ _ _ sv;
     _execute_function_call := _execute_function_call _ _ _ _ sv;
     _create_personalized_prompt := _create_personalized_prompt _ _ _ _ sv;
     response_text := response_text _ _ _ _ sv;
     build_itinerary := fun text travel_input bv dv w =>
       (enhance_response (now_iso _ _ _ _ sv w) text travel_input bv dv, w);
     now_iso := now_iso _ _ _ _ sv |}.

End ResponseProcessing.

(* ===================================================================== *)
(** * get_transportation_details: the estimate without the language model *)
(* ===================================================================== *)

(** The table of [get_approximate_distance]. *)
Definition approximate_distances : list (string * list (string * Z)) :=
  [ ("kerala",
     [ ("rajasthan", 1800); ("goa", 600); ("mumbai", 1200); ("delhi", 2200);
       ("bangalore", 350); ("chennai", 650) ]);
    ("mumbai",
     [ ("delhi", 1400); ("kerala", 1200); ("rajasthan", 800); ("goa", 450);
       ("bangalore", 980); ("chennai", 1100) ]);
    ("delhi",
     [ ("mumbai", 1400); ("kerala", 2200); ("rajasthan", 600); ("goa", 1800);
       ("bangalore", 2100); ("chennai", 2200) ]);
    ("rajasthan",
     [ ("kerala", 1800); ("mumbai", 800); ("delhi", 600); ("goa", 1200);
       ("bangalore", 1600); ("chennai", 1800) ]);
    ("goa",
     [ ("kerala", 600); ("mumbai", 450); ("delhi", 1800); ("rajasthan", 1200);
       ("bangalore", 560); ("chennai", 900) ]);
    ("bangalore",
     [ ("kerala", 350); ("mumbai", 980); ("delhi", 2100); ("rajasthan", 1600);
       ("goa", 560); ("chennai", 350) ]);
    ("chennai",
     [ ("kerala", 650); ("mumbai", 1100); ("delhi", 2200); ("rajasthan", 1800);
       ("goa", 900); ("bangalore", 350) ]) ].

(** [distances.get(a, {}).get(b)] on that table. *)
Definition lookup_approximate (a b : string) : option Z :=
  dict_get b (dict_get_default approximate_distances a []).

(** [get_approximate_distance(source, destination)], nested in
    [get_transportation_details]. *)
Definition get_approximate_distance (source destination : string) : Z :=
  let source_key := str_lower source in
  let dest_key := str_lower destination in
  let distance := py_or (lookup_approximate source_key dest_key)
                        (lookup_approximate dest_key source_key) in
  match py_or distance (Some 350) with
  | Some v => v
  | None => 350
  end.

(** The receiver of a call of the string method [attr]: only a string
    has the method. *)
Definition expect_str (attr : string) (v : pyval) : result string :=
  match v with
  | VStr s => Ok s
  | _ => Raise (no_attribute v attr)
  end.

(** [needle in s] for two strings *)
Fixpoint str_prefix (p s : string) : bool :=
  match p, s with
  | EmptyString, _ => true
  | String a p', String b s' => Ascii.eqb a b && str_prefix p' s'
  | _, _ => false
  end.

Fixpoint str_contains (needle s : string) : bool :=
  str_prefix needle s
  || match s with
     | EmptyString => false
     | String _ s' => str_contains needle s'
     end.

(** [needle in v] for a string [needle] *)
Definition py_contains (needle : string) (v : pyval) : result bool :=
  match v with
  | VList items => Ok (existsb (fun x => py_eq_str x needle) items)
  | VStr s => Ok (str_contains needle s)
  | VDict d => Ok (dict_mem needle d)
  | _ => Raise (Exn TypeError ("argument of type '" ++ type_name v ++ "' is not iterable"))
  end.

Definition server_fuel_efficiency : list (string * Z) :=
  [ ("car", 15); ("suv", 12); ("bike", 45); ("hatchback", 18) ].

(** [{...}.get(vehicle_type, 15)]: a list or a dictionary is no key. *)
Definition fuel_efficiency_of (vehicle_type : pyval) : result Z :=
  match vehicle_type with
  | VStr s => Ok (dict_get_default server_fuel_efficiency s 15)
  | VList _ => Raise (Exn TypeError "unhashable type: 'list'")
  | VDict _ => Raise (Exn TypeError "unhashable type: 'dict'")
  | _ => Ok 15
  end.

Definition transport_option (type operator price duration booking_url : string)
    (one_click_booking : bool) : pyval :=
  VDict [ ("type", VStr type);
          ("operator", VStr operator);
          ("price", VStr price);
          ("duration", VStr duration);
          ("booking_url", VStr booking_url);
          ("one_click_booking", VBool one_click_booking) ].

(** [get_transportation_details(user_input)] from the end of the [try]
    block that asks the language model: what the function returns when
    that block has returned nothing. *)
Definition transportation_fallback (user_input : pydict) : result pyval :=
  let travel_mode := dict_get_default user_input "travel_mode" (VStr "Self") in
  if py_eq_str travel_mode "Self" then
    let vehicle_type := dict_get_default user_input "vehicle_type" (VStr "car") in
    do fuel_efficiency <- fuel_efficiency_of vehicle_type;
    do source <- expect_str "lower" (dict_get_default user_input "source" (VStr "Unknown"));
    do destination <-
      expect_str "lower" (dict_get_default user_input "destination" (VStr "Unknown"));
    let estimated_distance := get_approximate_distance source destination in
    let fuel_needed := int_truediv estimated_distance fuel_efficiency in
    let fuel_price_per_liter := 100 in
    let fuel_cost := float_mul_int fuel_needed fuel_price_per_liter in
    do vehicle_title <- py_title vehicle_type;
    Ok (VDict
      [ ("self_mode", VDict
           [ ("route_details", VStr "Best route via highways and scenic roads");
             ("fuel_estimate", VDict
                [ ("vehicle_type", VStr vehicle_title);
                  ("total_distance", VStr (str_of_int estimated_distance ++ " KM"));
                  ("fuel_efficiency", VStr (str_of_int fuel_efficiency ++ " km/l"));
                  ("fuel_needed", VStr (format_fixed 1 fuel_needed ++ " liters"));
                  ("fuel_cost", VStr (rupee ++ format_fixed 0 fuel_cost));
                  ("toll_charges", VStr (rupee ++ "300-500")) ]);
             ("route_hotels", str_list
                [ "Highway Rest Inn"; "Midway Comfort Lodge"; "Roadside Restaurant & Stay" ]);
             ("route_restaurants", str_list
                [ "Highway Dhaba Deluxe"; "Local Cuisine Stop"; "Fast Food Junction" ]) ]) ])
  else if py_eq_str travel_mode "Booking" then
    let transport_prefs :=
      dict_get_default user_input "transport_preferences" (str_list ["flight"; "train"]) in
    do flight <- py_contains "flight" transport_prefs;
    do train <- py_contains "train" transport_prefs;
    do bus <- py_contains "bus" transport_prefs;
    do cab <- py_contains "cab" transport_prefs;
    let transport_options :=
      ((if flight
        then [ transport_option "Flight" "Various Airlines" (rupee ++ "4000-8000") "1.5 hours"
                 "https://booking-site.com" true ] else [])
       ++ (if train
           then [ transport_option "Train" "Indian Railways" (rupee ++ "800-2500") "6-8 hours"
                    "https://irctc.co.in" true ] else [])
       ++ (if bus
           then [ transport_option "Bus" "State Transport" (rupee ++ "500-1200") "8-10 hours"
                    "https://redbus.in" false ] else [])
       ++ (if cab
           then [ transport_option "Cab" "Ola/Uber" (rupee ++ "3000-5000") "5-7 hours"
                    "https://olacabs.com" true ] else []))%list in
    Ok (VDict [ ("booking_mode", VDict [ ("transport_options", VList transport_options) ]) ])
  else Ok (VDict []).

(* ===================================================================== *)
(** * Sequences of requests to the saved-trips store *)
(* ===================================================================== *)

(** A request to one of the two endpoints that change the store. *)
Inductive store_request :=
  | SaveTrip (clock : save_clock) (request : SaveTripRequest)
  | DeleteTrip (trip_id : string).

Definition serve (r : store_request) (saved_trips : trip_store) : http_reply * trip_store :=
  match r with
  | SaveTrip clock request => save_trip clock request saved_trips
  | DeleteTrip trip_id => delete_trip trip_id saved_trips
  end.

(** The store after a sequence of requests, the first one served first. *)
Definition serve_all (rs : list store_request) (saved_trips : trip_store) : trip_store :=
  fold_left (fun s r => snd (serve r s)) rs saved_trips.

(* ===================================================================== *)
(** * Predicates and inputs of the statements *)
(* ===================================================================== *)

(** What the claim says of the fallback template. *)
Definition is_fallback_of (travel_input : pydict) (bv dv : pyval) (now : string)
    (itinerary : pyval) : Prop :=
  _create_fallback_itinerary now travel_input bv dv = Ok itinerary
  /\ py_index itinerary "status" = Ok (VStr "fallback")
  /\ py_index itinerary "trip_overview"
     = Ok (VDict
         [ ("source", dict_get_default travel_input "source" (VStr ""));
           ("destination", dict_get_default travel_input "destination" (VStr "Destination"));
           ("travel_mode", dict_get_default travel_input "travel_mode" (VStr ""));
           ("theme", dict_get_default travel_input "theme" (VStr "cultural"));
           ("duration", dict_get_default travel_input "duration" (VStr "3 days"));
           ("budget", dict_get_default travel_input "budget" (VStr "")) ])
  /\ py_index itinerary "budget_validation" = Ok bv
  /\ py_index itinerary "duration_validation" = Ok dv
  /\ (exists day1 day2, py_index itinerary "itinerary" = Ok (VList [day1; day2])
        /\ py_index day1 "day" = Ok (VInt 1) /\ py_index day2 "day" = Ok (VInt 2))
  /\ py_index itinerary "generated_at" = Ok (VStr now).

(** A duration of 311 digits: the product with the daily cost is beyond
    the doubles. *)
Definition huge_duration_input : pydict :=
  [ ("budget", VStr "25000");
    ("duration", VStr (String "1" (str_repeat 310 "0") ++ " days")) ].

(** A world in which the model cannot be reached: every call to it
    raises; the state counts the calls made.  The prompt is a stub that
    lowercases the travel mode and the theme as the real one does. *)
Definition offline_services : services nat unit unit unit :=
  {| start_chat := fun w => (Raise (Exn ExternalError "model unavailable"), S w);
     send_message := fun _ w => (Raise (Exn ExternalError "model unavailable"), S w);
     response_parts := fun _ => [];
     part_function_call := fun _ => None;
     _execute_function_call := fun _ w => (Ok VNone, w);
     _create_personalized_prompt :=
       fun _ _ travel_mode _ theme _ _ _ _ =>
         do _ <- py_lower travel_mode; do _ <- py_lower theme; Ok "prompt";
     response_text := fun _ => Ok None;
     build_itinerary := fun _ _ _ _ w => (Ok (VDict []), w);
     now_iso := fun _ => "2025-01-01T00:00:00" |}.

Definition goa_trip : pydict :=
  [ ("source", VStr "Mumbai"); ("destination", VStr "Goa"); ("travel_mode", VStr "Self");
    ("budget", VStr "25000"); ("theme", VStr "adventurous"); ("duration", VStr "4 days") ].


(** The value is a number and its sign bit is clear. *)
Definition sign_clear (x : float) : bool :=
  match x with
  | S754_zero s | S754_infinity s | S754_finite s _ _ => negb s
  | S754_nan => false
  end.

(** Every character class of [r] passes [ok]. *)
Fixpoint uses_only (ok : cclass -> bool) (r : regex) : bool :=
  match r with
  | Eps => true
  | Chr k => ok k
  | Seq a b => uses_only ok a && uses_only ok b
  | Opt a | Star a | Group _ a => uses_only ok a
  end.

(** Every group numbered [n] of [r] is made of classes that pass [ok]. *)
Fixpoint group_uses_only (ok : cclass -> bool) (n : nat) (r : regex) : bool :=
  match r with
  | Eps | Chr _ => true
  | Seq a b => group_uses_only ok n a && group_uses_only ok n b
  | Opt a | Star a => group_uses_only ok n a
  | Group m a => (if (n =? m)%nat then uses_only ok a else true) && group_uses_only ok n a
  end.

(** The classes of a number with separators: digits, comma, point. *)
Definition number_class (k : cclass) : bool :=
  match k with
  | CDigit => true
  | CSpace => false
  | CLit c => Ascii.eqb c "," || Ascii.eqb c "."
  end.

(** The classes of a decimal: digits and the point. *)
Definition decimal_class (k : cclass) : bool :=
  match k with
  | CDigit => true
  | CSpace => false
  | CLit c => Ascii.eqb c "."
  end.

Definition digit_class (k : cclass) : bool :=
  match k with
  | CDigit => true
  | _ => false
  end.

Definition number_char (c : ascii) : bool :=
  is_digit c || Ascii.eqb c "," || Ascii.eqb c ".".

Definition decimal_char (c : ascii) : bool := is_digit c || Ascii.eqb c ".".

(** What a match reads is made of characters the classes allow. *)
Definition reads_ok (p : ascii -> bool) (st st' : mstate) : Prop :=
  exists u, rest st = u ++ rest st' /\ str_forall p u = true.

(** The groups numbered [n] hold allowed characters only. *)
Definition caps_ok (p : ascii -> bool) (n : nat) (st : mstate) : Prop :=
  forall g, group n (caps st) = Some g -> str_forall p g = true.

(** The trip to Goa on a budget of 5000 rupees, below its minimum. *)
Definition goa_trip_low_budget : pydict :=
  [ ("source", VStr "Mumbai"); ("destination", VStr "Goa"); ("travel_mode", VStr "Self");
    ("budget", VStr "5000"); ("theme", VStr "adventurous"); ("duration", VStr "4 days") ].

(** A world in which the model answers every message with the same
    text; the state counts the messages. *)
Definition answering_services : services nat string unit unit :=
  {| start_chat := fun w => (Ok tt, w);
     send_message := fun _ w => (Ok "{}", S w);
     response_parts := fun _ => [];
     part_function_call := fun _ => None;
     _execute_function_call := fun _ w => (Ok VNone, w);
     _create_personalized_prompt :=
       fun _ _ travel_mode _ theme _ _ _ _ =>
         do _ <- py_lower travel_mode; do _ <- py_lower theme; Ok "prompt";
     response_text := fun r => Ok (Some r);
     build_itinerary := fun _ _ _ _ w => (Ok (VDict []), w);
     now_iso := fun _ => "2025-01-01T00:00:00" |}.

(** A parser whose result already holds a budget validation. *)
Definition forging_json_loads (text : string) : result pyval :=
  Ok (VDict [ ("status", VStr "success"); ("budget_validation", VStr "forged") ]).

(** What the planner returns for the trip to Goa when the model answers
    and the parsed answer holds a budget validation of its own. *)
Definition answered_goa_itinerary : pyval :=
  match fst (generate_personalized_itinerary _ _ _ _
               (with_response_processing forging_json_loads _ _ _ _ answering_services)
               goa_trip 0%nat) with
  | Ok v => v
  | Raise _ => VNone
  end.

(** Every record is filed under its own id. *)
Definition filed_by_id (saved_trips : trip_store) : Prop :=
  forall k record, dict_get k saved_trips = Some record -> py_index record "id" = Ok (VStr k).

(** A request to save a trip under the id 'goa'. *)
Definition goa_save_request : SaveTripRequest :=
  {| request_id := Some "goa"; request_name := "Goa"; request_trip_data := goa_trip |}.

Definition first_clock : save_clock :=
  {| timestamp_text := "1735689600.0";
     created_text := "2025-01-01T00:00:00";
     updated_text := "2025-01-01T00:00:00" |}.

Definition second_clock : save_clock :=
  {| timestamp_text := "1735776000.0";
     created_text := "2025-01-02T00:00:00";
     updated_text := "2025-01-02T00:00:00" |}.

(** [r] can match at the head of [s] and leave [t]. *)
Definition reaches (r : regex) (s t : string) : Prop :=
  exists st, In st (rmatch r {| rest := s; caps := [] |}) /\ rest st = t.

(** [r] matches somewhere in [s]. *)
Definition matches_in (r : regex) (s : string) : Prop :=
  exists pre u t, s = pre ++ u /\ reaches r u t.

(** Two lists of states with the same texts left to read. *)
Definition same_rest (l1 l2 : list mstate) : Prop :=
  Forall2 (fun x y => rest x = rest y) l1 l2.

(** Equality of two doubles, bit for bit. *)
Definition float_same (x y : float) : bool :=
  match x, y with
  | S754_zero a, S754_zero b => Bool.eqb a b
  | S754_infinity a, S754_infinity b => Bool.eqb a b
  | S754_nan, S754_nan => true
  | S754_finite a m e, S754_finite b m' e' => Bool.eqb a b && (m =? m')%positive && (e =? e')
  | _, _ => false
  end.

(** [_parse_distance] reads [text] as the double of [n]. *)
Definition reads_as (text : string) (n : Z) : bool :=
  match _parse_distance text, float_of_int n with
  | Ok x, Ok y => float_same x y
  | _, _ => false
  end.

(** The [len] integers from [start] on. *)
Fixpoint zrange (start : Z) (len : nat) : list Z :=
  match len with
  | O => []
  | S k => start :: zrange (start + 1) k
  end.

(** Every number below [n] is read when ' km' or ' miles' follows. *)
Definition plain_distances_read_below (n : nat) : bool :=
  forallb (fun i =>
    reads_as (str_of_int i ++ " km") i && reads_as (str_of_int i ++ " miles") i)
    (zrange 0 n).

(** Every number below [n] is read when ' kilometres' follows, and read
    as zero when ' kilometers' does. *)
Definition spelled_distances_read_below (n : nat) : bool :=
  forallb (fun i =>
    reads_as (str_of_int i ++ " kilometres") i
    && reads_as (str_of_int i ++ " kilometers") 0)
    (zrange 0 n).

(** The text [_parse_duration] gives for a number of minutes. *)
Definition minutes_text (n : Z) : string :=
  if n <? 10 then "N/A"
  else if 0 <? n / 60 then str_of_int (n / 60) ++ "h " ++ str_of_int (n mod 60) ++ "m"
  else str_of_int (n mod 60) ++ "m".

(** The text [_parse_duration] gives for hours and minutes. *)
Definition hours_text (h m : Z) : string :=
  if 0 <? m then str_of_int h ++ "h " ++ str_of_int m ++ "m" else str_of_int h ++ "h".

Definition result_is (r : result string) (s : string) : bool :=
  match r with
  | Ok t => String.eqb t s
  | Raise _ => false
  end.

Definition minutes_read_below (n : nat) : bool :=
  forallb (fun i =>
    result_is (_parse_duration (fun _ => "") (str_of_int i ++ " minutes")) (minutes_text i))
    (zrange 0 n).

Definition hours_minutes_read_below (hours minutes : nat) : bool :=
  forallb (fun h =>
    forallb (fun m =>
      result_is (_parse_duration (fun _ => "")
                   (str_of_int h ++ " hours " ++ str_of_int m ++ " mins"))
                (hours_text h m))
      (zrange 0 minutes))
    (zrange 0 hours).

(** Checks over the table of approximate distances, run once by
    computation. *)
Definition all_approximate (p : string -> string -> Z -> bool) : bool :=
  forallb (fun row => forallb (fun cell => p (fst row) (fst cell) (snd cell)) (snd row))
          approximate_distances.

(** The entry is between 350 and 2200 km, the reversed pair is listed
    with the same distance, and the matrix of
    [calculate_minimum_duration], where it lists the pair in either
    direction, gives the same distance. *)
Definition approximate_entry_ok (a b : string) (d : Z) : bool :=
  (350 <=? d) && (d <=? 2200)
  && match lookup_approximate b a with Some d' => d =? d' | None => false end
  && match lookup_distance a b, lookup_distance b a with
     | None, None => true
     | _, _ => route_distance a b =? d
     end.

(** The litres and the cost the double arithmetic and the two formats
    show for a distance and an efficiency are the decimals nearest to the
    exact quotients [d/e] and [100*d/e]. *)
Definition fuel_texts_exact (d e : Z) : bool :=
  let fuel_needed := int_truediv d e in
  let fuel_cost := float_mul_int fuel_needed 100 in
  let tenths := (20 * d + e) / (2 * e) in
  String.eqb (format_fixed 1 fuel_needed)
             (str_of_int (tenths / 10) ++ "." ++ str_of_int (tenths mod 10))
  && String.eqb (format_fixed 0 fuel_cost) (str_of_int ((200 * d + e) / (2 * e))).

Definition efficiencies : list Z := [15; 12; 45; 18].

Definition approximate_fuel_exact (a b : string) (d : Z) : bool :=
  forallb (fuel_texts_exact d) efficiencies.

(** A request for the estimate of a drive from Mumbai to Goa. *)
Definition goa_drive : pydict :=
  [ ("source", VStr "Mumbai"); ("destination", VStr "Goa"); ("travel_mode", VStr "Self");
    ("vehicle_type", VStr "suv") ].

(** The trip to Goa with the travel mode in small letters, what the
    frontend is shown for it and what the processed response is. *)
Definition goa_trip_small_letters : pydict :=
  [ ("source", VStr "Mumbai"); ("destination", VStr "Goa"); ("travel_mode", VStr "self");
    ("budget", VStr "25000"); ("theme", VStr "adventurous"); ("duration", VStr "4 days") ].

Definition small_letters_frontend : pyval :=
  match transform_backend_response_to_frontend_format
          [ ("budget_validation", validate_budget goa_trip_small_letters) ]
          (VDict goa_trip_small_letters) with
  | Ok v => v
  | Raise _ => VNone
  end.

Definition small_letters_itinerary : pyval :=
  match enhance_response forging_json_loads "2025-01-01T00:00:00" "{}" goa_trip_small_letters
          (validate_budget goa_trip_small_letters) (validate_duration (VStr "4 days")) with
  | Ok v => v
  | Raise _ => VNone
  end.

(** Every character of the text is an ASCII character: Python and the
    model read the same digits, spaces and letters from it. *)
Definition is_ascii (s : string) : bool :=
  str_forall (fun c => (char_code c <? 128)%N) s.

(** Every character of the text is an ASCII character or the rupee
    sign. *)
Fixpoint ascii_or_rupee (s : string) : bool :=
  match s with
  | EmptyString => true
  | String c s' =>
      if starts_with_rupee s then
        match s' with
        | String _ (String _ s'') => ascii_or_rupee s''
        | _ => true
        end
      else (char_code c <? 128)%N && ascii_or_rupee s'
  end.

(** Not more digits than [int] converts. *)
Definition within_limit (digits : string) : bool :=
  Z.of_nat (String.length digits) <=? max_str_digits.

(** The first run of digits of a text, empty when the text has no
    digit. *)
Definition first_digits (text : string) : string :=
  match findall_digits text with
  | first :: _ => first
  | [] => EmptyString
  end.

(** A budget of 4301 digits. *)
Definition long_budget_input : pydict :=
  [ ("budget", VStr (str_repeat 4301 "9")) ].

(** A duration of 4301 digits. *)
Definition long_duration : pyval := VStr (str_repeat 4301 "9" ++ " days").

(** The matrix lists [d] km from the place [a] to the place [b]. *)
Definition listed (a b : string) (d : Z) : Prop :=
  exists row, In (a, row) distances /\ In (b, d) row.

(** No key is bound twice. *)
Fixpoint keys_unique {A} (d : list (string * A)) : bool :=
  match d with
  | [] => true
  | (k, _) :: rest => negb (existsb (String.eqb k) (map fst rest)) && keys_unique rest
  end.

(** The matrix has one row for a place, and a row one entry for a
    place. *)
Definition distances_unique : bool :=
  keys_unique distances && forallb (fun row => keys_unique (snd row)) distances.

(** [key] is [name] with its capital letters A to Z made small. *)
Fixpoint in_small_letters (name key : string) : bool :=
  match name, key with
  | EmptyString, EmptyString => true
  | String c name', String k key' =>
      (if is_upper c then (char_code k =? char_code c + 32)%N else Ascii.eqb k c)
      && in_small_letters name' key'
  | _, _ => false
  end.

(** The days for a distance: in 'Self' mode 2 up to 300 km, 3 up to 800,
    4 up to 1500, else 5; in any other mode 2 up to 500 km, 3 up to 1200,
    else 4. *)
Definition spec_days (travel_mode : string) (distance : Z) : Z :=
  if String.eqb travel_mode "Self" then
    if distance <=? 300 then 2
    else if distance <=? 800 then 3
    else if distance <=? 1500 then 4
    else 5
  else
    if distance <=? 500 then 2
    else if distance <=? 1200 then 3
    else 4.

(** The first pattern of the list that matches in the text, and the
    groups of its match. *)
Fixpoint first_match (patterns : list regex) (text : string)
    : option (list (nat * string)) :=
  match patterns with
  | [] => None
  | r :: others =>
      match search r text with
      | Some m => Some m
      | None => first_match others text
      end
  end.

(** The patterns of [_parse_distance] and of [_parse_duration], in the
    order in which they are tried. *)
Definition distance_patterns : list regex :=
  [distance_re1; distance_re2; distance_re3; distance_re4].

Definition duration_patterns : list regex :=
  [duration_re1; duration_re2; duration_re3].

(** A numeral: digits, the first character one of them, commas among
    them, and maybe a point followed by digits. *)
Definition is_numeral (number : string) : bool :=
  let '(ip, fp) := split_point (remove_commas number) in
  str_forall is_digit ip && negb (String.eqb ip "")
  && match fp with
     | Some f => str_forall is_digit f && negb (String.eqb f "")
     | None => true
     end.

(** The number of decimals of a numeral: its digits after the point. *)
Definition decimals (number : string) : nat :=
  match snd (split_point (remove_commas number)) with
  | Some f => String.length f
  | None => O
  end.

(** The double nearest to a numeral: its digits, read as one number, over
    ten to the number of its decimals. *)
Definition decimal_value (number : string) : float :=
  round_ratio (int_of_digits (str_filter is_digit number)) (10 ^ Z.of_nat (decimals number)).

(** The classes of digits in groups: digits and the comma. *)
Definition grouped_class (k : cclass) : bool :=
  match k with
  | CDigit => true
  | CSpace => false
  | CLit c => Ascii.eqb c ","
  end.

Definition grouped_char (c : ascii) : bool := is_digit c || Ascii.eqb c ",".

(** Whatever a group numbered [n] of [r] reads satisfies [Q]. *)
Fixpoint group_reads (Q : string -> Prop) (n : nat) (r : regex) : Prop :=
  match r with
  | Eps | Chr _ => True
  | Seq a b => group_reads Q n a /\ group_reads Q n b
  | Opt a | Star a => group_reads Q n a
  | Group m a =>
      (m = n -> forall s t, reaches a s t -> Q (consumed s t)) /\ group_reads Q n a
  end.

(** The groups numbered [n] captured so far satisfy [Q]. *)
Definition caps_read (Q : string -> Prop) (n : nat) (st : mstate) : Prop :=
  forall g, group n (caps st) = Some g -> Q g.

(** Every match of [r] sets the group numbered [n]. *)
Fixpoint sets_group (n : nat) (r : regex) : bool :=
  match r with
  | Seq a b => sets_group n a || sets_group n b
  | Group m a => (n =? m)%nat || sets_group n a
  | _ => false
  end.

(** The last character of a text. *)
Fixpoint str_last (s : string) : option ascii :=
  match s with
  | EmptyString => None
  | String c EmptyString => Some c
  | String _ s' => str_last s'
  end.

(* ===================================================================== *)
(** * Dictionaries: lookup, update, removal *)
(* ===================================================================== *)

Section DictFacts.

Context {A : Type}.
Implicit Types (d : list (string * A)) (k : string) (v : A).

Lemma dict_get_In k d v : dict_get k d = Some v -> In (k, v) d.
Proof.
  induction d as [|[k' v'] d IH]; simpl; [discriminate|].
  destruct (dict_get k d) as [x|] eqn:E.
  - intros [= <-]. right. apply IH. reflexivity.
  - destruct (String.eqb k k') eqn:Ek; [|discriminate].
    apply String.eqb_eq in Ek. intros [= <-]. left. now subst.
Qed.

Lemma dict_get_app k d d' :
  dict_get k (d ++ d') =
  match dict_get k d' with Some x => Some x | None => dict_get k d end.
Proof.
  induction d as [|[k' v'] d IH]; simpl.
  - now destruct (dict_get k d').
  - rewrite IH. now destruct (dict_get k d'), (dict_get k d).
Qed.

Lemma dict_get_None_notin k d : dict_get k d = None -> ~ In k (map fst d).
Proof.
  induction d as [|[k' v'] d IH]; simpl; [tauto|].
  destruct (dict_get k d) eqn:E; [discriminate|].
  destruct (String.eqb k k') eqn:Ek; [discriminate|].
  apply String.eqb_neq in Ek. intros _ [H|H]; [congruence|now apply IH].
Qed.

Lemma dict_get_map_set k v d :
  dict_get k (map (fun kv => if String.eqb k (fst kv) then (fst kv, v) else kv) d)
  = match dict_get k d with Some _ => Some v | None => None end.
Proof.
  induction d as [|[k' v'] d IH]; simpl; [reflexivity|].
  destruct (String.eqb k k') eqn:Ek; simpl; rewrite IH;
    destruct (dict_get k d); try reflexivity; now rewrite Ek.
Qed.

Lemma dict_get_set_eq k v d : dict_get k (dict_set k v d) = Some v.
Proof.
  unfold dict_set, dict_mem. destruct (dict_get k d) as [x|] eqn:E.
  - now rewrite dict_get_map_set, E.
  - rewrite dict_get_app. simpl. now rewrite String.eqb_refl.
Qed.

Lemma dict_get_set_ne k k' v d :
  k <> k' -> dict_get k' (dict_set k v d) = dict_get k' d.
Proof.
  intros Hne. unfold dict_set. destruct (dict_mem k d).
  - induction d as [|[k2 v2] d IH]; simpl; [reflexivity|].
    destruct (String.eqb k k2) eqn:Ek; simpl; rewrite IH;
      destruct (dict_get k' d); try reflexivity.
    apply String.eqb_eq in Ek. subst k2.
    destruct (String.eqb k' k) eqn:Ek'; [|reflexivity].
    apply String.eqb_eq in Ek'. congruence.
  - rewrite dict_get_app. simpl.
    destruct (String.eqb k' k) eqn:Ek'.
    + apply String.eqb_eq in Ek'. congruence.
    + reflexivity.
Qed.

Lemma dict_get_del_eq k d : dict_get k (dict_del k d) = None.
Proof.
  unfold dict_del. induction d as [|[k' v'] d IH]; simpl; [reflexivity|].
  destruct (String.eqb k k') eqn:Ek; simpl; [exact IH|].
  now rewrite IH, Ek.
Qed.

Lemma dict_get_del_ne k k' d :
  k <> k' -> dict_get k' (dict_del k d) = dict_get k' d.
Proof.
  intros Hne. unfold dict_del.
  induction d as [|[k2 v2] d IH]; simpl; [reflexivity|].
  destruct (String.eqb k k2) eqn:Ek; simpl.
  - apply String.eqb_eq in Ek. subst k2. rewrite IH.
    destruct (dict_get k' d); [reflexivity|].
    destruct (String.eqb k' k) eqn:Ek'; [|reflexivity].
    apply String.eqb_eq in Ek'. congruence.
  - now rewrite IH.
Qed.

End DictFacts.

(* ===================================================================== *)
(** * The distance matrix and the minimum duration *)
(* ===================================================================== *)

Lemma lookup_distance_In a b d :
  lookup_distance a b = Some d ->
  exists row, In (a, row) distances /\ In (b, d) row.
Proof.
  unfold lookup_distance, dict_get_default. intros H.
  destruct (dict_get a distances) as [row|] eqn:E.
  - exists row. split; now apply dict_get_In.
  - discriminate.
Qed.

Lemma all_entries_sound p :
  all_entries p = true ->
  forall a b d, lookup_distance a b = Some d -> p a b d = true.
Proof.
  unfold all_entries. intros H a b d Hl.
  destruct (lookup_distance_In _ _ _ Hl) as (row & Hrow & Hcell).
  rewrite forallb_forall in H. specialize (H _ Hrow). simpl in H.
  rewrite forallb_forall in H. exact (H _ Hcell).
Qed.

Lemma distances_positive : all_entries entry_positive = true.
Proof. vm_compute. reflexivity. Qed.

Lemma distances_symmetric : all_entries entry_symmetric = true.
Proof. vm_compute. reflexivity. Qed.

Lemma lookup_distance_pos a b d : lookup_distance a b = Some d -> 0 < d.
Proof.
  intros H. apply (all_entries_sound _ distances_positive) in H.
  unfold entry_positive in H. lia.
Qed.

Lemma lookup_distance_sym a b d d' :
  lookup_distance a b = Some d -> lookup_distance b a = Some d' -> d = d'.
Proof.
  intros H H'. apply (all_entries_sound _ distances_symmetric) in H.
  unfold entry_symmetric in H. rewrite H' in H. lia.
Qed.

Lemma route_distance_spec a b : route_distance a b = spec_distance a b.
Proof.
  unfold route_distance, spec_distance, py_or.
  destruct (lookup_distance a b) as [d|] eqn:E1.
  - assert (Hz : (d =? 0) = false)
      by (apply Z.eqb_neq; pose proof (lookup_distance_pos _ _ _ E1); lia).
    now rewrite !Hz.
  - destruct (lookup_distance b a) as [d|] eqn:E2; [|reflexivity].
    assert (Hz : (d =? 0) = false)
      by (apply Z.eqb_neq; pose proof (lookup_distance_pos _ _ _ E2); lia).
    now rewrite !Hz.
Qed.

Lemma spec_distance_comm a b : spec_distance a b = spec_distance b a.
Proof.
  unfold spec_distance.
  destruct (lookup_distance a b) as [d|] eqn:E1,
           (lookup_distance b a) as [d'|] eqn:E2; try reflexivity.
  exact (lookup_distance_sym _ _ _ _ E1 E2).
Qed.

(** In a dictionary display without a repeated key, an entry is what
    [get] finds. *)
Lemma dict_get_unique {A} k (v : A) d :
  keys_unique d = true -> In (k, v) d -> dict_get k d = Some v.
Proof.
  induction d as [|[k' v'] d IH]; simpl; [tauto|].
  intros Hu Hin. apply andb_prop in Hu as [Hk Hu].
  destruct Hin as [[= -> ->]|Hin].
  - destruct (dict_get k d) as [x|] eqn:E.
    + apply dict_get_In in E. apply negb_true_iff in Hk.
      assert (Hex : existsb (String.eqb k) (map fst d) = true).
      { apply existsb_exists. exists k. split; [|apply String.eqb_refl].
        apply in_map_iff. now exists (k, x). }
      congruence.
    + now rewrite String.eqb_refl.
  - now rewrite (IH Hu Hin).
Qed.

Lemma distances_unique_checked : distances_unique = true.
Proof. vm_compute. reflexivity. Qed.

(** The entries of the matrix are what the lookup of the code finds. *)
Lemma listed_lookup a b d : listed a b d <-> lookup_distance a b = Some d.
Proof.
  split; [|apply lookup_distance_In].
  intros (row & Hrow & Hcell).
  pose proof distances_unique_checked as Hu. unfold distances_unique in Hu.
  apply andb_prop in Hu as [Hrows Hcells].
  unfold lookup_distance, dict_get_default.
  rewrite (dict_get_unique _ _ _ Hrows Hrow).
  apply dict_get_unique; [|exact Hcell].
  rewrite forallb_forall in Hcells. exact (Hcells _ Hrow).
Qed.

Lemma not_listed_lookup a b : (forall d, ~ listed a b d) <-> lookup_distance a b = None.
Proof.
  split.
  - intros H. destruct (lookup_distance a b) as [d|] eqn:E; [|reflexivity].
    now destruct (H d); apply listed_lookup.
  - intros H d Hl. apply listed_lookup in Hl. congruence.
Qed.

Lemma in_small_letters_lower name : forall key,
  in_small_letters name key = true -> str_lower name = key.
Proof.
  induction name as [|c name IH]; intros [|k key]; simpl; try discriminate; [reflexivity|].
  intros H. apply andb_prop in H as [Hc Hrest].
  change (str_lower (String c name)) with (String (to_lower c) (str_lower name)).
  rewrite (IH _ Hrest). f_equal.
  unfold to_lower. destruct (is_upper c).
  - apply N.eqb_eq in Hc. unfold char_code in *. rewrite <- Hc.
    now rewrite ascii_N_embedding.
  - apply Ascii.eqb_eq in Hc. now subst.
Qed.

(** C2. For a source and a destination written in ASCII characters,
    whose names in small letters are [a] and [b]:
    [calculate_minimum_duration] takes the distance that the matrix lists
    from [a] to [b]; when it lists none, the distance that it lists from
    [b] to [a]; and 300 km when it lists neither.  It maps the distance
    to days: in 'Self' mode 2 up to 300 km, 3 up to 800, 4 up to 1500 and
    5 beyond; in any other mode 2 up to 500 km, 3 up to 1200 and 4
    beyond. *)
Theorem calculate_minimum_duration_spec (source destination travel_mode a b : string) :
  is_ascii source = true -> is_ascii destination = true ->
  in_small_letters source a = true -> in_small_letters destination b = true ->
  let days := calculate_minimum_duration source destination travel_mode in
  (forall d, listed a b d -> days = spec_days travel_mode d)
  /\ (forall d, (forall d', ~ listed a b d') -> listed b a d ->
                days = spec_days travel_mode d)
  /\ ((forall d, ~ listed a b d) -> (forall d, ~ listed b a d) ->
      days = spec_days travel_mode 300).
Proof.
  intros _ _ Ha Hb days.
  assert (Hdays : days = spec_days travel_mode (spec_distance a b)).
  { unfold days, calculate_minimum_duration.
    rewrite (in_small_letters_lower _ _ Ha), (in_small_letters_lower _ _ Hb).
    now rewrite route_distance_spec. }
  rewrite Hdays. unfold spec_distance. repeat split.
  - intros d Hl. apply listed_lookup in Hl. now rewrite Hl.
  - intros d Hn Hl. apply not_listed_lookup in Hn. apply listed_lookup in Hl.
    now rewrite Hn, Hl.
  - intros Hn Hn'. apply not_listed_lookup in Hn, Hn'. now rewrite Hn, Hn'.
Qed.

(** Mumbai to Goa is listed with 450 km: three days by car, two
    otherwise.  Bangalore to Delhi is listed with 2100 km: five days by
    car.  Karnataka to Bangalore is listed with 50 km and Bangalore to
    Karnataka is not: two days.  Nothing is listed for Atlantis: 300 km
    and two days. *)
Lemma calculate_minimum_duration_listed_pairs :
  calculate_minimum_duration "Mumbai" "Goa" "Self" = 3
  /\ calculate_minimum_duration "MUMBAI" "goa" "Booking" = 2
  /\ calculate_minimum_duration "Bangalore" "Delhi" "Self" = 5
  /\ calculate_minimum_duration "Bangalore" "Karnataka" "Self" = 2
  /\ calculate_minimum_duration "Atlantis" "Goa" "Self" = 2.
Proof.
  assert (H1 : listed "mumbai" "goa" 450) by (apply listed_lookup; vm_compute; reflexivity).
  assert (H0 : listed "bangalore" "delhi" 2100)
    by (apply listed_lookup; vm_compute; reflexivity).
  assert (H2 : forall d, ~ listed "bangalore" "karnataka" d)
    by (apply not_listed_lookup; vm_compute; reflexivity).
  assert (H3 : listed "karnataka" "bangalore" 50)
    by (apply listed_lookup; vm_compute; reflexivity).
  assert (H4 : forall d, ~ listed "atlantis" "goa" d)
    by (apply not_listed_lookup; vm_compute; reflexivity).
  assert (H5 : forall d, ~ listed "goa" "atlantis" d)
    by (apply not_listed_lookup; vm_compute; reflexivity).
  split; [|split; [|split; [|split]]].
  - exact (proj1 (calculate_minimum_duration_spec "Mumbai" "Goa" "Self" "mumbai" "goa"
                    eq_refl eq_refl eq_refl eq_refl) 450 H1).
  - exact (proj1 (calculate_minimum_duration_spec "MUMBAI" "goa" "Booking" "mumbai" "goa"
                    eq_refl eq_refl eq_refl eq_refl) 450 H1).
  - exact (proj1 (calculate_minimum_duration_spec "Bangalore" "Delhi" "Self"
                    "bangalore" "delhi" eq_refl eq_refl eq_refl eq_refl) 2100 H0).
  - exact (proj1 (proj2 (calculate_minimum_duration_spec "Bangalore" "Karnataka" "Self"
                           "bangalore" "karnataka" eq_refl eq_refl eq_refl eq_refl))
             50 H2 H3).
  - exact (proj2 (proj2 (calculate_minimum_duration_spec "Atlantis" "Goa" "Self"
                           "atlantis" "goa" eq_refl eq_refl eq_refl eq_refl)) H4 H5).
Defined.

(** C8. [calculate_minimum_duration] gives the same number of days for a
    pair of places and for the reversed pair, in every travel mode: the
    lookup tries both directions, and a pair listed in both directions
    carries the same distance in both. *)
Theorem calculate_minimum_duration_comm (source destination travel_mode : string) :
  calculate_minimum_duration source destination travel_mode
  = calculate_minimum_duration destination source travel_mode
  /\ (forall d d',
        lookup_distance (str_lower source) (str_lower destination) = Some d ->
        lookup_distance (str_lower destination) (str_lower source) = Some d' ->
        d = d').
Proof.
  split; [|intros d d'; apply lookup_distance_sym].
  unfold calculate_minimum_duration.
  rewrite !route_distance_spec.
  now rewrite (spec_distance_comm (str_lower source) (str_lower destination)).
Qed.

Lemma calculate_minimum_duration_cases source destination travel_mode :
  let n := calculate_minimum_duration source destination travel_mode in
  if String.eqb travel_mode "Self"
  then n = 2 \/ n = 3 \/ n = 4 \/ n = 5
  else n = 2 \/ n = 3 \/ n = 4.
Proof.
  unfold calculate_minimum_duration.
  destruct (String.eqb travel_mode "Self");
    repeat match goal with |- context [if ?c then _ else _] => destruct c end;
    simpl; tauto.
Qed.

(** C9. [calculate_minimum_duration] returns between 2 and 5 days, at
    most 4 outside 'Self' mode, so [get_feasible_durations] is never empty
    and always offers the 7-day and the 10-day option. *)
Theorem minimum_duration_range_and_feasible (source destination travel_mode : string) :
  let n := calculate_minimum_duration source destination travel_mode in
  let options := get_feasible_durations source destination travel_mode in
  2 <= n <= 5
  /\ (if String.eqb travel_mode "Self" then n <= 5 else n <= 4)
  /\ options <> []
  /\ In {| label := "5-7 days"; value := "7 days"; days := 7 |} options
  /\ In {| label := "1 week+"; value := "10 days"; days := 10 |} options.
Proof.
  intros n options.
  pose proof (calculate_minimum_duration_cases source destination travel_mode) as H.
  fold n in H. simpl in H.
  assert (Hn : n = 2 \/ n = 3 \/ n = 4 \/ n = 5)
    by (destruct (String.eqb travel_mode "Self"); tauto).
  assert (Hm : if String.eqb travel_mode "Self" then n <= 5 else n <= 4)
    by (destruct (String.eqb travel_mode "Self"); lia).
  split; [lia|]. split; [exact Hm|].
  unfold options, get_feasible_durations. fold n.
  destruct Hn as [-> | [-> | [-> | ->]]]; simpl;
    (split; [discriminate|]); split; tauto.
Qed.

(* ===================================================================== *)
(** * Reading the budget: digits only *)
(* ===================================================================== *)

Lemma int_of_digits_empty : int_of_digits "" = 0.
Proof. reflexivity. Qed.

Lemma str_app_cons (a : ascii) (s t : string) : String a s ++ t = String a (s ++ t).
Proof. reflexivity. Qed.

Lemma str_app_nil_l (t : string) : "" ++ t = t.
Proof. reflexivity. Qed.

Lemma str_app_nil_r (s : string) : s ++ "" = s.
Proof.
  induction s as [|a s IH]; [reflexivity|]. now rewrite str_app_cons, IH.
Qed.

Lemma str_app_snoc (r : string) (c : ascii) (t : string) :
  (r ++ String c "") ++ t = r ++ String c t.
Proof.
  induction r as [|a r IH]; [reflexivity|]. now rewrite !str_app_cons, IH.
Qed.

Lemma concat_empty_cons (r : string) (l : list string) :
  String.concat "" (r :: l) = r ++ String.concat "" l.
Proof. destruct l; simpl; [now rewrite str_app_nil_r|reflexivity]. Qed.

Lemma concat_digit_runs cur s :
  String.concat "" (digit_runs cur s)
  = (match cur with Some r => r | None => "" end) ++ str_filter is_digit s.
Proof.
  revert cur. induction s as [|c s IH]; intros cur.
  - destruct cur as [r|]; simpl; [now rewrite str_app_nil_r|reflexivity].
  - cbn [digit_runs str_filter]. destruct (is_digit c).
    + rewrite IH. destruct cur as [r|]; [apply str_app_snoc|reflexivity].
    + destruct cur as [r|]; [|now rewrite IH].
      now rewrite concat_empty_cons, IH.
Qed.

Lemma findall_digits_concat s :
  String.concat "" (findall_digits s) = str_filter is_digit s.
Proof. unfold findall_digits. now rewrite concat_digit_runs. Qed.

Lemma findall_digits_nil s : findall_digits s = [] -> str_filter is_digit s = "".
Proof. intros H. rewrite <- findall_digits_concat, H. reflexivity. Qed.

Lemma currency_noise_not_digit c : is_currency_noise c = true -> is_digit c = false.
Proof.
  destruct c as [[] [] [] [] [] [] [] []]; vm_compute; congruence.
Qed.

Lemma starts_with_rupee_inv s :
  starts_with_rupee s = true ->
  exists c0 c1 c2 s', s = String c0 (String c1 (String c2 s'))
    /\ is_digit c0 = false /\ is_digit c1 = false /\ is_digit c2 = false.
Proof.
  destruct s as [|c0 [|c1 [|c2 s']]]; simpl; try discriminate.
  intros H. apply andb_prop in H as [H H2]. apply andb_prop in H as [H0 H1].
  apply N.eqb_eq in H0, H1, H2.
  exists c0, c1, c2, s'. split; [reflexivity|].
  unfold is_digit, in_range. rewrite H0, H1, H2. now vm_compute.
Qed.

Lemma strip_currency_digits_upto n :
  forall s, (String.length s <= n)%nat ->
  str_filter is_digit (strip_currency s) = str_filter is_digit s.
Proof.
  induction n as [|n IH]; intros s Hlen.
  - destruct s; [reflexivity|simpl in Hlen; lia].
  - destruct s as [|c s']; [reflexivity|].
    cbn [strip_currency].
    destruct (starts_with_rupee (String c s')) eqn:Hr.
    + apply starts_with_rupee_inv in Hr
        as (c0 & c1 & c2 & s'' & Heq & H0 & H1 & H2).
      injection Heq as -> ->. simpl. rewrite H0, H1, H2.
      destruct n as [|[|n]]; simpl in Hlen; try lia.
      * apply IH. simpl. lia.
    + simpl in Hlen. destruct (is_currency_noise c) eqn:Hn.
      * simpl. rewrite (currency_noise_not_digit _ Hn). apply IH. lia.
      * simpl. destruct (is_digit c); [f_equal|]; apply IH; lia.
Qed.

Lemma strip_currency_digits s :
  str_filter is_digit (strip_currency s) = str_filter is_digit s.
Proof. apply (strip_currency_digits_upto (String.length s)). lia. Qed.

Lemma str_filter_none p s : str_exists p s = false -> str_filter p s = "".
Proof.
  induction s as [|c s IH]; simpl; [reflexivity|].
  destruct (p c); simpl; [discriminate|exact IH].
Qed.

Lemma str_filter_forall p s : str_forall p (str_filter p s) = true.
Proof.
  induction s as [|c s IH]; simpl; [reflexivity|].
  destruct (p c) eqn:E; simpl; [now rewrite E|exact IH].
Qed.

(** The number spelled by the digits of the field, whatever stands
    between them. *)
Lemma parse_budget_digits travel_input :
  parse_budget travel_input
  = int_of_digits
      (str_filter is_digit (py_str (dict_get_default travel_input "budget" (VStr "0")))).
Proof.
  unfold parse_budget.
  set (b := py_str _).
  rewrite <- strip_currency_digits, <- findall_digits_concat.
  destruct (findall_digits (strip_currency b)); reflexivity.
Qed.

Lemma str_forall_snoc p r c :
  str_forall p r = true -> p c = true -> str_forall p (r ++ String c "") = true.
Proof.
  intros Hr Hc. induction r as [|a r IH]; [simpl; now rewrite Hc|].
  rewrite str_app_cons. simpl in *.
  apply andb_prop in Hr as [-> Hr]. now apply IH.
Qed.

Lemma str_snoc_nonempty r c : r ++ String c "" <> "".
Proof. destruct r; discriminate. Qed.

(** A run of digits is made of digits and is not empty. *)
Lemma digit_runs_digits s : forall cur,
  match cur with Some r => str_forall is_digit r = true | None => True end ->
  Forall (fun r => str_forall is_digit r = true) (digit_runs cur s).
Proof.
  induction s as [|c s IH]; intros cur Hcur; cbn [digit_runs].
  - destruct cur; constructor; [exact Hcur|constructor].
  - destruct (is_digit c) eqn:Hc.
    + apply IH. destruct cur as [r|]; [now apply str_forall_snoc|simpl; now rewrite Hc].
    + destruct cur as [r|]; [constructor; [exact Hcur|]|]; now apply IH.
Qed.

Lemma digit_runs_nonempty s : forall cur,
  match cur with Some r => r <> "" | None => True end ->
  Forall (fun r => r <> "") (digit_runs cur s).
Proof.
  induction s as [|c s IH]; intros cur Hcur; cbn [digit_runs].
  - destruct cur; constructor; [exact Hcur|constructor].
  - destruct (is_digit c).
    + apply IH. destruct cur as [r|]; [apply str_snoc_nonempty|discriminate].
    + destruct cur as [r|]; [constructor; [exact Hcur|]|]; now apply IH.
Qed.

Lemma digit_runs_no_digit s : str_exists is_digit s = false -> digit_runs None s = [].
Proof.
  induction s as [|c s IH]; simpl; [reflexivity|].
  destruct (is_digit c); simpl; [discriminate|exact IH].
Qed.

Lemma first_digits_spec text :
  match findall_digits text with
  | first :: _ => first = first_digits text /\ str_forall is_digit first = true /\ first <> ""
  | [] => first_digits text = ""
  end.
Proof.
  unfold first_digits, findall_digits.
  pose proof (digit_runs_digits text None I) as Hd.
  pose proof (digit_runs_nonempty text None I) as Hn.
  destruct (digit_runs None text) as [|first l]; [reflexivity|].
  inversion Hd; inversion Hn; subst. auto.
Qed.

(* ===================================================================== *)
(** * The conversions of the validators *)
(* ===================================================================== *)

Lemma within_limit_spec digits :
  (max_str_digits <? Z.of_nat (String.length digits)) = negb (within_limit digits).
Proof.
  unfold within_limit.
  destruct (Z.ltb_spec max_str_digits (Z.of_nat (String.length digits)));
    destruct (Z.leb_spec (Z.of_nat (String.length digits)) max_str_digits); try lia; reflexivity.
Qed.

(** [int] on a run of digits. *)
Lemma int_of_string_digits s :
  str_forall is_digit s = true -> s <> "" ->
  int_of_string s
  = if within_limit s then Ok (int_of_digits s)
    else Raise (int_limit_exceeded (String.length s)).
Proof.
  intros Hd Hn. unfold int_of_string. rewrite Hd, within_limit_spec.
  destruct s; [congruence|]. simpl. now destruct (within_limit _).
Qed.

Lemma int_of_string_raises s e : int_of_string s = Raise e -> exn_cls e = ValueError.
Proof.
  unfold int_of_string. destruct (_ && _); [|now intros [= <-]].
  destruct (_ <? _); [now intros [= <-]|discriminate].
Qed.

Lemma py_str_checked_cases v :
  py_str_checked v
  = if has_long_int v then Raise str_limit_exceeded else Ok (py_str v).
Proof. reflexivity. Qed.

(** How the budget is read from the text of its field: the digits of the
    text, all of them, as one number. *)
Lemma read_budget_spec text :
  let budget_numbers := findall_digits (strip_currency text) in
  match budget_numbers with
  | [] => Ok 0
  | _ => int_of_string (String.concat "" budget_numbers)
  end
  = if within_limit (str_filter is_digit text)
    then Ok (int_of_digits (str_filter is_digit text))
    else Raise (int_limit_exceeded (String.length (str_filter is_digit text))).
Proof.
  cbv zeta.
  rewrite <- (strip_currency_digits text), <- findall_digits_concat.
  unfold findall_digits.
  pose proof (digit_runs_nonempty (strip_currency text) None I) as Hn.
  pose proof (concat_digit_runs None (strip_currency text)) as Hc.
  rewrite str_app_nil_l in Hc.
  destruct (digit_runs None (strip_currency text)) as [|first l]; [reflexivity|].
  apply int_of_string_digits.
  - rewrite Hc. apply str_filter_forall.
  - inversion Hn; subst. rewrite concat_empty_cons. now destruct first.
Qed.

(** How the days are read from the text of the duration: its first run of
    digits, or 1. *)
Lemma read_duration_spec text :
  match findall_digits text with
  | first :: _ => int_of_string first
  | [] => Ok 1
  end
  = if within_limit (first_digits text)
    then Ok (match findall_digits text with
             | first :: _ => int_of_digits first
             | [] => 1
             end)
    else Raise (int_limit_exceeded (String.length (first_digits text))).
Proof.
  pose proof (first_digits_spec text) as H.
  destruct (findall_digits text) as [|first l].
  - now rewrite H.
  - destruct H as (<- & Hd & Hn). now apply int_of_string_digits.
Qed.

(* ===================================================================== *)
(** * validate_budget *)
(* ===================================================================== *)

Lemma theme_multiplier_spec theme :
  theme_multiplier_of theme = spec_theme_multiplier theme.
Proof.
  unfold theme_multiplier_of, spec_theme_multiplier, dict_get_default, theme_multipliers.
  destruct (String.eqb_spec theme "devotional") as [->|H1]; [reflexivity|].
  destruct (String.eqb_spec theme "cultural") as [->|H2]; [reflexivity|].
  destruct (String.eqb_spec theme "adventurous") as [->|H3]; [reflexivity|].
  destruct (String.eqb_spec theme "nightlife") as [->|H4]; [reflexivity|].
  destruct (String.eqb_spec theme "luxury") as [->|H5]; [reflexivity|].
  simpl.
  apply String.eqb_neq in H1, H2, H3, H4, H5.
  now rewrite H1, H2, H3, H4, H5.
Qed.

(** The steps of the [try] block in the order in which they can raise:
    the text of the budget, its digits, the theme, the text of the
    duration, its digits, the travel mode, the arithmetic. *)
Lemma validate_budget_body_steps travel_input :
  let budget_field := dict_get_default travel_input "budget" (VStr "0") in
  let duration_field := dict_get_default travel_input "duration" (VStr "1") in
  let budget_digits := str_filter is_digit (py_str budget_field) in
  let duration_digits := first_digits (py_str duration_field) in
  validate_budget_body travel_input
  = if has_long_int budget_field then Raise str_limit_exceeded
    else if negb (within_limit budget_digits)
    then Raise (int_limit_exceeded (String.length budget_digits))
    else
      do theme <- py_lower (dict_get_default travel_input "theme" (VStr "cultural"));
      if has_long_int duration_field then Raise str_limit_exceeded
      else if negb (within_limit duration_digits)
      then Raise (int_limit_exceeded (String.length duration_digits))
      else
        do mode <- py_lower (dict_get_default travel_input "travel_mode" (VStr "Self"));
        do minimum <- minimum_formula (parse_duration_days travel_input)
                        (if String.eqb mode "self" then 1500 else 3500)
                        (spec_theme_multiplier theme);
        Ok (if minimum <=? parse_budget travel_input
            then budget_sufficient (parse_budget travel_input) minimum
            else budget_insufficient (parse_budget travel_input) minimum).
Proof.
  intros budget_field duration_field budget_digits duration_digits.
  unfold validate_budget_body. fold budget_field duration_field.
  rewrite (py_str_checked_cases budget_field).
  destruct (has_long_int budget_field); [reflexivity|]. cbn [rbind].
  rewrite read_budget_spec. fold budget_digits.
  destruct (within_limit budget_digits); [|reflexivity]. cbn [rbind negb].
  destruct (py_lower (dict_get_default travel_input "theme" (VStr "cultural")))
    as [theme|e]; [|reflexivity].
  cbn [rbind]. rewrite (py_str_checked_cases duration_field).
  destruct (has_long_int duration_field); [reflexivity|]. cbn [rbind].
  rewrite read_duration_spec. fold duration_digits.
  destruct (within_limit duration_digits); [|reflexivity]. cbn [rbind negb].
  destruct (py_lower (dict_get_default travel_input "travel_mode" (VStr "Self")))
    as [mode|e]; [|reflexivity].
  cbn [rbind]. rewrite theme_multiplier_spec.
  unfold minimum_formula, base_daily_cost.
  rewrite parse_budget_digits. fold budget_field budget_digits.
  unfold parse_duration_days. fold duration_field.
  set (d := match findall_digits (py_str duration_field) with
            | first :: _ => int_of_digits first
            | [] => 1
            end).
  set (m := spec_theme_multiplier theme).
  assert (Hrate : (if String.eqb mode "self" then d * 1500 else d * 3500)
                  = d * (if String.eqb mode "self" then 1500 else 3500))
    by (destruct (String.eqb mode "self"); reflexivity).
  rewrite Hrate.
  destruct (int_mul_float (d * 2500) (float_lit 4 10)) as [t1|e]; [|reflexivity].
  cbn [rbind].
  destruct (int_mul_float (d * 2500) (float_lit 3 10)) as [t2|e]; [|reflexivity].
  cbn [rbind].
  destruct (int_add_float _ (fmul t1 m)) as [s1|e]; [|reflexivity].
  cbn [rbind].
  destruct (int_of_float _) as [minimum|e]; [|reflexivity].
  cbn [rbind].
  destruct (minimum <=? int_of_digits budget_digits); reflexivity.
Qed.

(** Where the [try] block returns, the theme and the travel mode are
    strings, the formula of the specification has a value, and the
    budget is compared with it. *)
Lemma validate_budget_body_returns travel_input v :
  validate_budget_body travel_input = Ok v ->
  exists theme travel_mode minimum,
    dict_get_default travel_input "theme" (VStr "cultural") = VStr theme
    /\ dict_get_default travel_input "travel_mode" (VStr "Self") = VStr travel_mode
    /\ spec_minimum_budget (parse_duration_days travel_input) travel_mode theme = Ok minimum
    /\ v = if minimum <=? parse_budget travel_input
           then budget_sufficient (parse_budget travel_input) minimum
           else budget_insufficient (parse_budget travel_input) minimum.
Proof.
  rewrite validate_budget_body_steps. cbv zeta.
  destruct (has_long_int _); [discriminate|].
  destruct (negb _); [discriminate|].
  destruct (dict_get_default travel_input "theme" (VStr "cultural"))
    as [| | |theme| |] eqn:Ht; try discriminate.
  cbn [py_lower rbind].
  destruct (has_long_int _); [discriminate|].
  destruct (negb _); [discriminate|].
  destruct (dict_get_default travel_input "travel_mode" (VStr "Self"))
    as [| | |mode| |] eqn:Hm; try discriminate.
  cbn [py_lower rbind]. fold (spec_minimum_budget (parse_duration_days travel_input) mode theme).
  destruct (spec_minimum_budget _ mode theme) as [minimum|e] eqn:Hmin; [|discriminate].
  cbn [rbind]. intros [= <-]. now exists theme, mode, minimum.
Qed.

(** The three shapes of a budget validation. *)
Lemma validate_budget_shape travel_input :
  (exists theme travel_mode minimum,
      dict_get_default travel_input "theme" (VStr "cultural") = VStr theme
      /\ dict_get_default travel_input "travel_mode" (VStr "Self") = VStr travel_mode
      /\ spec_minimum_budget (parse_duration_days travel_input) travel_mode theme = Ok minimum
      /\ validate_budget travel_input
         = if minimum <=? parse_budget travel_input
           then budget_sufficient (parse_budget travel_input) minimum
           else budget_insufficient (parse_budget travel_input) minimum)
  \/ (exists e, validate_budget travel_input = budget_error e).
Proof.
  unfold validate_budget, try_except.
  destruct (validate_budget_body travel_input) as [v|e] eqn:E.
  - left. destruct (validate_budget_body_returns _ _ E) as (theme & mode & m & Ht & Hm & Hmin & ->).
    now exists theme, mode, m.
  - right. now exists e.
Qed.

(** The status of a budget validation is one of three. *)
Lemma validate_budget_status travel_input :
  exists st, py_index (validate_budget travel_input) "status" = Ok (VStr st)
    /\ (st = "sufficient" \/ st = "insufficient" \/ st = "error").
Proof.
  destruct (validate_budget_shape travel_input)
    as [(theme & mode & m & _ & _ & _ & ->)|(e & ->)].
  - destruct (_ <=? _).
    + exists "sufficient". split; [reflexivity|tauto].
    + exists "insufficient". split; [reflexivity|tauto].
  - exists "error". split; [reflexivity|tauto].
Qed.

(** The cases of [validate_budget], in the order of the [try] block. *)
Lemma validate_budget_steps travel_input :
  let budget_field := dict_get_default travel_input "budget" (VStr "0") in
  let duration_field := dict_get_default travel_input "duration" (VStr "1") in
  let budget_digits := str_filter is_digit (py_str budget_field) in
  let duration_digits := first_digits (py_str duration_field) in
  let budget := int_of_digits budget_digits in
  validate_budget travel_input
  = if has_long_int budget_field then budget_error str_limit_exceeded
    else if negb (within_limit budget_digits)
    then budget_error (int_limit_exceeded (String.length budget_digits))
    else
      match dict_get_default travel_input "theme" (VStr "cultural") with
      | VStr theme =>
          if has_long_int duration_field then budget_error str_limit_exceeded
          else if negb (within_limit duration_digits)
          then budget_error (int_limit_exceeded (String.length duration_digits))
          else
            match dict_get_default travel_input "travel_mode" (VStr "Self") with
            | VStr travel_mode =>
                match spec_minimum_budget (parse_duration_days travel_input)
                        travel_mode theme with
                | Ok minimum =>
                    if minimum <=? budget
                    then budget_sufficient budget minimum
                    else budget_insufficient budget minimum
                | Raise e => budget_error e
                end
            | other => budget_error (no_attribute other "lower")
            end
      | other => budget_error (no_attribute other "lower")
      end.
Proof.
  intros budget_field duration_field budget_digits duration_digits budget.
  unfold validate_budget. rewrite validate_budget_body_steps.
  fold budget_field duration_field budget_digits duration_digits. cbv zeta.
  rewrite parse_budget_digits. fold budget_field budget_digits budget.
  destruct (has_long_int budget_field); [reflexivity|].
  destruct (negb (within_limit budget_digits)); [reflexivity|].
  destruct (dict_get_default travel_input "theme" (VStr "cultural"))
    as [| | |theme| |]; try reflexivity.
  cbn [py_lower rbind].
  destruct (has_long_int duration_field); [reflexivity|].
  destruct (negb (within_limit duration_digits)); [reflexivity|].
  destruct (dict_get_default travel_input "travel_mode" (VStr "Self"))
    as [| | |mode| |]; try reflexivity.
  cbn [py_lower rbind]. fold (spec_minimum_budget (parse_duration_days travel_input) mode theme).
  destruct (spec_minimum_budget _ mode theme) as [minimum|e]; [|reflexivity].
  cbn [rbind try_except]. reflexivity.
Qed.

Lemma budget_sufficient_status b m :
  py_index (budget_sufficient b m) "status" = Ok (VStr "sufficient").
Proof. reflexivity. Qed.

Lemma budget_insufficient_status b m :
  py_index (budget_insufficient b m) "status" = Ok (VStr "insufficient").
Proof. reflexivity. Qed.

Lemma budget_error_status e :
  py_index (budget_error e) "status" = Ok (VStr "error").
Proof. reflexivity. Qed.

Lemma str_repeat_digits n : str_filter is_digit (str_repeat n "9") = str_repeat n "9".
Proof. induction n as [|n IH]; [reflexivity|]. simpl. now rewrite IH. Qed.

Lemma str_repeat_length n c : String.length (str_repeat n c) = n.
Proof. induction n as [|n IH]; [reflexivity|]. simpl. now rewrite IH. Qed.

(** C1, as stated, fails: a travel_input whose duration is a number of 311
    digits gets neither 'sufficient' nor 'insufficient' but the status
    'error', because the conversion to a double overflows. *)
Lemma validate_budget_huge_duration_error :
  validate_budget huge_duration_input
  = VDict [ ("status", VStr "error");
            ("message", VStr "Budget validation failed: int too large to convert to float");
            ("minimum_required", VInt 10000) ].
Proof. vm_compute. reflexivity. Qed.

(** C1, amended. For every travel_input whose budget is written in ASCII
    characters and rupee signs and whose duration is written in ASCII
    characters, [validate_budget] returns the status 'error' with
    minimum_required 10000 when a step of its [try] block raises, and
    otherwise compares the budget with the minimum of the formula.  In
    the order of the block, the errors are: a budget of more than 4300
    digits (as an int or in its text), a theme that is no string, a
    duration whose first run of digits has more than 4300 digits, a
    travel mode that is no string, and an overflow of the double-precision
    formula [int(d*rate + d*2500*0.4*m + d*2500*0.3 + d*2500*0.3*m)] -
    rate 1500 for mode 'self' in any case, else 3500; [d] the first run
    of digits of the duration, default 1; [m] the theme multiplier.
    Without an error the status is 'sufficient' with the buffer when the
    budget, the number spelled by the digits of its field, reaches that
    minimum, and 'insufficient' with the shortfall otherwise.  (A theme or
    a travel mode in another script is lowercased to no key that the code
    compares it with, in Python as in the model.) *)
Theorem validate_budget_cases (travel_input : pydict) :
  let budget_field := dict_get_default travel_input "budget" (VStr "0") in
  let duration_field := dict_get_default travel_input "duration" (VStr "1") in
  let budget_digits := str_filter is_digit (py_str budget_field) in
  let duration_digits := first_digits (py_str duration_field) in
  let budget := int_of_digits budget_digits in
  let duration := if String.eqb duration_digits "" then 1 else int_of_digits duration_digits in
  ascii_or_rupee (py_str budget_field) = true ->
  is_ascii (py_str duration_field) = true ->
  validate_budget travel_input
  = if has_long_int budget_field then budget_error str_limit_exceeded
    else if negb (within_limit budget_digits)
    then budget_error (int_limit_exceeded (String.length budget_digits))
    else
      match dict_get_default travel_input "theme" (VStr "cultural") with
      | VStr theme =>
          if has_long_int duration_field then budget_error str_limit_exceeded
          else if negb (within_limit duration_digits)
          then budget_error (int_limit_exceeded (String.length duration_digits))
          else
            match dict_get_default travel_input "travel_mode" (VStr "Self") with
            | VStr travel_mode =>
                match spec_minimum_budget duration travel_mode theme with
                | Ok minimum =>
                    if minimum <=? budget
                    then VDict [ ("status", VStr "sufficient");
                                 ("provided_budget", VInt budget);
                                 ("minimum_required", VInt minimum);
                                 ("buffer_amount", VInt (budget - minimum));
                                 ("message",
                                  VStr ("Budget is sufficient! You have " ++ currency_mark
                                        ++ format_commas (budget - minimum)
                                        ++ " buffer amount.")) ]
                    else VDict [ ("status", VStr "insufficient");
                                 ("provided_budget", VInt budget);
                                 ("minimum_required", VInt minimum);
                                 ("shortfall", VInt (minimum - budget));
                                 ("alert_message",
                                  VStr (alert_mark
                                        ++ "Budget Alert: Minimum required budget is "
                                        ++ currency_mark ++ format_commas minimum
                                        ++ ". You provided " ++ currency_mark
                                        ++ format_commas budget
                                        ++ ". Please increase budget by " ++ currency_mark
                                        ++ format_commas (minimum - budget) ++ ".")) ]
                | Raise e => budget_error e
                end
            | other => budget_error (no_attribute other "lower")
            end
      | other => budget_error (no_attribute other "lower")
      end.
Proof.
  intros budget_field duration_field budget_digits duration_digits budget duration _ _.
  rewrite validate_budget_steps.
  fold budget_field duration_field budget_digits duration_digits budget. cbv zeta.
  assert (Hd : parse_duration_days travel_input = duration).
  { unfold parse_duration_days, duration, duration_digits. fold duration_field.
    pose proof (first_digits_spec (py_str duration_field)) as H.
    destruct (findall_digits (py_str duration_field)) as [|first l].
    - now rewrite H.
    - destruct H as (<- & _ & Hn). destruct first; [congruence|reflexivity]. }
  rewrite Hd. reflexivity.
Qed.

(** A trip to Goa by car, four days on an adventurous theme: the minimum
    is 19500 rupees and the budget of 25000 leaves 5500. *)
Lemma validate_budget_cases_goa :
  validate_budget goa_trip = budget_sufficient 25000 19500.
Proof.
  exact (validate_budget_cases goa_trip eq_refl eq_refl).
Defined.

Lemma formula_exact_below_sound (n : nat) :
  formula_exact_below n = true ->
  forall d rate tenths,
    0 <= d < Z.of_nat n -> In rate [1500; 3500] -> In tenths [10; 12; 15; 20; 30] ->
    minimum_formula d rate (float_lit tenths 10) = Ok (exact_minimum_budget d rate tenths).
Proof.
  unfold formula_exact_below. intros H d rate tenths Hd Hrate Hten.
  rewrite forallb_forall in H.
  assert (Hseq : In (Z.to_nat d) (List.seq 0 n)) by (apply in_seq; lia).
  specialize (H _ Hseq). rewrite forallb_forall in H. specialize (H _ Hrate).
  rewrite forallb_forall in H. specialize (H _ Hten).
  rewrite Z2Nat.id in H by lia.
  destruct (minimum_formula d rate _) as [v|e]; [|discriminate].
  apply Z.eqb_eq in H. now subst.
Qed.

Lemma formula_exact_below_400 : formula_exact_below 400 = true.
Proof. vm_compute. reflexivity. Qed.

Lemma spec_theme_multiplier_tenths theme :
  spec_theme_multiplier theme = float_lit (theme_tenths theme) 10
  /\ In (theme_tenths theme) [10; 12; 15; 20; 30].
Proof.
  unfold spec_theme_multiplier, theme_tenths.
  repeat match goal with |- context [if ?c then _ else _] => destruct c end;
    (split; [reflexivity|simpl; tauto]).
Qed.

(** X1. For a trip of fewer than 400 days the rounding of the doubles
    does not show: the minimum budget of [validate_budget] is the exact
    integer [d*rate + d*1000*m + d*750 + d*750*m], with rate 1500 or 3500
    and [m] the theme multiplier. *)
Theorem minimum_budget_exact_below_400 (duration : Z) (travel_mode theme : string) :
  0 <= duration < 400 ->
  spec_minimum_budget duration travel_mode theme
  = Ok (exact_minimum_budget duration
          (if String.eqb (str_lower travel_mode) "self" then 1500 else 3500)
          (theme_tenths (str_lower theme))).
Proof.
  intros Hd. unfold spec_minimum_budget.
  destruct (spec_theme_multiplier_tenths (str_lower theme)) as [-> Hin].
  apply (formula_exact_below_sound 400 formula_exact_below_400).
  - lia.
  - destruct (String.eqb _ "self"); simpl; tauto.
  - exact Hin.
Qed.

(** Three days by car on a cultural theme: 13050 rupees. *)
Lemma minimum_budget_goa_weekend :
  spec_minimum_budget 3 "Self" "Cultural" = Ok 13050.
Proof.
  exact (minimum_budget_exact_below_400 3 "Self" "Cultural" ltac:(lia)).
Defined.

(** C10, as stated, fails: a budget of 4301 digits is not read as a
    number; [int] refuses it and the validation is an 'error' that
    carries no provided_budget. *)
Lemma validate_budget_long_budget_error :
  validate_budget long_budget_input
  = VDict [ ("status", VStr "error");
            ("message",
             VStr ("Budget validation failed: Exceeds the limit (4300 digits) for integer "
                   ++ "string conversion: value has 4301 digits; use "
                   ++ "sys.set_int_max_str_digits() to increase the limit"));
            ("minimum_required", VInt 10000) ]
  /\ (forall budget,
        py_index (validate_budget long_budget_input) "provided_budget" <> Ok budget).
Proof.
  assert (H : validate_budget long_budget_input = budget_error (int_limit_exceeded 4301)).
  { rewrite validate_budget_steps. cbv zeta.
    change (dict_get_default long_budget_input "budget" (VStr "0"))
      with (VStr (str_repeat 4301 "9")).
    cbn [has_long_int py_str]. rewrite str_repeat_digits.
    unfold within_limit. rewrite str_repeat_length. reflexivity. }
  rewrite H. split; [reflexivity|]. intros budget. discriminate.
Qed.

(** C10, amended. [validate_budget] reads a budget written in ASCII
    characters and rupee signs by deleting the rupee sign, R, s, commas
    and whitespace and joining every run of digits that is left, which
    gives the digits of the field, all of them.  Up to 4300 digits they
    are read as one number - '15000-20000' as 1500020000, '2500.50' as
    250050, and a field with no digit as 0, which is reported
    'insufficient' for every positive minimum; more than 4300 digits are
    not read, and the validation is an 'error'. *)
Theorem validate_budget_reads_all_digits (travel_input : pydict) :
  let budget_field := dict_get_default travel_input "budget" (VStr "0") in
  let duration_field := dict_get_default travel_input "duration" (VStr "1") in
  let field := py_str budget_field in
  let digits := str_filter is_digit field in
  let budget := int_of_digits digits in
  ascii_or_rupee field = true ->
  has_long_int budget_field = false ->
  String.concat "" (findall_digits (strip_currency field)) = digits
  /\ (field = "15000-20000" -> budget = 1500020000)
  /\ (field = "2500.50" -> budget = 250050)
  /\ (str_exists is_digit field = false -> budget = 0)
  /\ (if within_limit digits
      then
        forall theme travel_mode minimum,
          dict_get_default travel_input "theme" (VStr "cultural") = VStr theme ->
          dict_get_default travel_input "travel_mode" (VStr "Self") = VStr travel_mode ->
          has_long_int duration_field = false ->
          within_limit (first_digits (py_str duration_field)) = true ->
          spec_minimum_budget (parse_duration_days travel_input) travel_mode theme
          = Ok minimum ->
          validate_budget travel_input
          = (if minimum <=? budget
             then budget_sufficient budget minimum
             else budget_insufficient budget minimum)
          /\ py_index (validate_budget travel_input) "provided_budget" = Ok (VInt budget)
          /\ (budget = 0 -> 0 < minimum ->
              validate_budget travel_input = budget_insufficient 0 minimum)
      else
        validate_budget travel_input
        = budget_error (int_limit_exceeded (String.length digits))).
Proof.
  intros budget_field duration_field field digits budget _ Hlong.
  split; [unfold digits; now rewrite findall_digits_concat, strip_currency_digits|].
  split; [intros H; unfold budget, digits; rewrite H; reflexivity|].
  split; [intros H; unfold budget, digits; rewrite H; reflexivity|].
  split; [intros H; unfold budget, digits; now rewrite (str_filter_none _ _ H)|].
  rewrite validate_budget_steps. cbv zeta.
  fold budget_field duration_field field digits budget. rewrite Hlong.
  destruct (within_limit digits); [|reflexivity]. cbn [negb].
  intros theme travel_mode minimum Ht Hm Hdl Hdw Hmin.
  rewrite Ht, Hdl, Hdw, Hm, Hmin. cbn [negb].
  split; [reflexivity|]. split.
  - destruct (minimum <=? budget); reflexivity.
  - intros H0 Hpos. rewrite H0.
    destruct (minimum <=? 0) eqn:E; [apply Z.leb_le in E; lia|reflexivity].
Qed.

(** A ranged budget on a trip of one day. *)
Lemma validate_budget_reads_range :
  validate_budget [ ("budget", VStr "15000-20000") ] = budget_sufficient 1500020000 4350.
Proof.
  exact (proj1 (proj2 (proj2 (proj2 (proj2
           (validate_budget_reads_all_digits [ ("budget", VStr "15000-20000") ]
              eq_refl eq_refl))))
           "cultural" "Self" 4350 eq_refl eq_refl eq_refl eq_refl eq_refl)).
Defined.

Example validate_budget_no_digit_example :
  validate_budget [ ("budget", VStr "plenty"); ("duration", VStr "3 days");
                    ("theme", VStr "Luxury"); ("travel_mode", VStr "Booking") ]
  = budget_insufficient 0 28500.
Proof. vm_compute. reflexivity. Qed.

(* ===================================================================== *)
(** * The fallback itinerary *)
(* ===================================================================== *)

Lemma fallback_of_string_theme travel_input bv dv now theme :
  dict_get_default travel_input "theme" (VStr "cultural") = VStr theme ->
  exists itinerary, is_fallback_of travel_input bv dv now itinerary.
Proof.
  intros Ht. unfold is_fallback_of, _create_fallback_itinerary.
  rewrite Ht. cbn [py_title rbind].
  eexists. split; [reflexivity|].
  repeat (split; [reflexivity|]).
  split; [|reflexivity].
  do 2 eexists. split; [reflexivity|]. split; reflexivity.
Qed.

Lemma fallback_bad_theme travel_input bv dv now :
  (forall s, dict_get_default travel_input "theme" (VStr "cultural") <> VStr s) ->
  _create_fallback_itinerary now travel_input bv dv
  = Raise (no_attribute (dict_get_default travel_input "theme" (VStr "cultural")) "title").
Proof.
  intros H. unfold _create_fallback_itinerary.
  destruct (dict_get_default travel_input "theme" (VStr "cultural")) eqn:E;
    try reflexivity.
  now destruct (H s).
Qed.

Section PlannerFacts.

Variables world response part function_call : Type.
Variable sv : services world response part function_call.

Abbreviation generate := (generate_personalized_itinerary _ _ _ _ sv).

Lemma generate_not_insufficient travel_input w :
  py_index (validate_budget travel_input) "status" <> Ok (VStr "insufficient") ->
  let bv := validate_budget travel_input in
  let dv := validate_duration (dict_get_default travel_input "duration" (VStr "3 days")) in
  generate travel_input w
  = io_try _
      (io_bind _ (ask_model _ _ _ _ sv travel_input bv dv)
         (fun response0 => _process_ai_response _ _ _ _ sv response0 travel_input bv dv))
      (fun _ => fallback_io _ _ _ _ sv travel_input bv dv) w.
Proof.
  intros Hst bv dv. unfold generate_personalized_itinerary. fold bv dv.
  destruct (validate_budget_status travel_input) as (st & Hidx & Hcases).
  fold bv in Hidx, Hst. unfold io_bind at 1, io_lift. rewrite Hidx.
  destruct (py_eq_str (VStr st) "insufficient") eqn:E; [|reflexivity].
  simpl in E. apply String.eqb_eq in E. subst st. now destruct Hst.
Qed.





End PlannerFacts.



(* ===================================================================== *)
(** * The clock in the fallback itinerary *)
(* ===================================================================== *)

(** C4, as stated, fails: two calls of [_create_fallback_itinerary] with
    equal arguments, made at different times, return different results. *)
Lemma fallback_depends_on_clock :
  _create_fallback_itinerary "2025-01-01T00:00:00" goa_trip VNone VNone
  <> _create_fallback_itinerary "2025-01-01T00:00:01" goa_trip VNone VNone.
Proof. vm_compute. intros H. discriminate H. Qed.

(** C4, amended. [_create_fallback_itinerary] depends on the time of the
    call, and through its generated_at entry only: two calls with equal
    arguments, made at the times [now1] and [now2], either raise the same
    exception or return dictionaries that hold [now1] and [now2] under
    generated_at and are equal once that entry is removed; the two
    results are equal exactly when the two times are. *)
Theorem fallback_deterministic_but_timestamp (now1 now2 : string)
    (travel_input : pydict) (bv dv : pyval) :
  match _create_fallback_itinerary now1 travel_input bv dv,
        _create_fallback_itinerary now2 travel_input bv dv with
  | Ok (VDict a), Ok (VDict b) =>
      dict_del "generated_at" a = dict_del "generated_at" b
      /\ dict_get "generated_at" a = Some (VStr now1)
      /\ dict_get "generated_at" b = Some (VStr now2)
      /\ (a = b <-> now1 = now2)
  | Raise e1, Raise e2 => e1 = e2
  | _, _ => False
  end.
Proof.
  unfold _create_fallback_itinerary.
  destruct (py_title _); cbn [rbind]; [|reflexivity].
  split; [reflexivity|]. split; [reflexivity|]. split; [reflexivity|].
  split.
  - intros H. apply (f_equal (dict_get "generated_at")) in H.
    cbn in H. now injection H.
  - now intros ->.
Qed.

(* ===================================================================== *)
(** * The saved-trips store *)
(* ===================================================================== *)

Section StoreFacts.

Context {A : Type}.
Implicit Types (d acc : list (string * A)) (k : string) (v : A).

Lemma fold_insert_lookup d (m : gmap string A) k :
  fold_left (fun m kv => <[fst kv := snd kv]> m) d m !! k
  = match dict_get k d with Some v => Some v | None => m !! k end.
Proof.
  revert m. induction d as [|[k' v'] d IH]; intros m; simpl; [reflexivity|].
  rewrite IH. destruct (dict_get k d); [reflexivity|].
  destruct (String.eqb_spec k k') as [->|Hne].
  - apply lookup_insert_eq.
  - apply lookup_insert_ne. congruence.
Qed.

Lemma dict_set_keys k v d :
  map fst (dict_set k v d)
  = if dict_mem k d then map fst d else (map fst d ++ [k])%list.
Proof.
  unfold dict_set. destruct (dict_mem k d).
  - induction d as [|[k' v'] d IH]; simpl; [reflexivity|].
    rewrite IH. now destruct (String.eqb k k').
  - now rewrite map_app.
Qed.

Lemma dict_set_NoDup k v d : List.NoDup (map fst d) -> List.NoDup (map fst (dict_set k v d)).
Proof.
  intros H. rewrite dict_set_keys. unfold dict_mem.
  destruct (dict_get k d) eqn:E; [exact H|].
  apply dict_get_None_notin in E.
  apply NoDup_app_remove_l with (l := []). simpl.
  clear -H E. induction (map fst d) as [|a l IH]; simpl.
  - constructor; [tauto|constructor].
  - inversion H; subst. simpl in E.
    constructor.
    + rewrite in_app_iff. simpl. intuition congruence.
    + apply IH; [assumption|tauto].
Qed.

Lemma dict_get_NoDup k v d :
  List.NoDup (map fst d) -> (In (k, v) d <-> dict_get k d = Some v).
Proof.
  intros H. split; [|apply dict_get_In].
  induction d as [|[k' v'] d IH]; simpl; [tauto|].
  inversion H as [|? ? Hnot Hnd]; subst.
  intros [Heq|Hin].
  - injection Heq as -> ->.
    destruct (dict_get k d) eqn:E.
    + apply dict_get_In in E. destruct Hnot.
      change k with (fst (k, a)). now apply in_map.
    + now rewrite String.eqb_refl.
  - now rewrite (IH Hnd Hin).
Qed.

Lemma dict_items_spec d :
  List.NoDup (map fst (dict_items d))
  /\ forall k, dict_get k (dict_items d) = dict_get k d.
Proof.
  unfold dict_items.
  assert (H : forall acc, List.NoDup (map fst acc) ->
            List.NoDup (map fst (fold_left (fun a kv => dict_set (fst kv) (snd kv) a) d acc))
            /\ forall k, dict_get k (fold_left (fun a kv => dict_set (fst kv) (snd kv) a) d acc)
                         = match dict_get k d with
                           | Some v => Some v
                           | None => dict_get k acc
                           end).
  { induction d as [|[k' v'] d IH]; intros acc Hacc; simpl.
    - split; [exact Hacc|reflexivity].
    - destruct (IH (dict_set k' v' acc) (dict_set_NoDup k' v' acc Hacc)) as [Hn Hg].
      split; [exact Hn|]. intros k. rewrite Hg.
      destruct (dict_get k d); [reflexivity|].
      destruct (String.eqb_spec k k') as [->|Hne].
      + apply dict_get_set_eq.
      + apply dict_get_set_ne. congruence. }
  destruct (H [] (List.NoDup_nil _)) as [Hn Hg]. split; [exact Hn|].
  intros k. rewrite Hg. now destruct (dict_get k d).
Qed.

Lemma dict_values_spec d v :
  In v (dict_values d) <-> exists k, dict_get k d = Some v.
Proof.
  unfold dict_values. destruct (dict_items_spec d) as [Hn Hg]. split.
  - intros H. apply in_map_iff in H as ([k v'] & <- & Hin).
    exists k. rewrite <- Hg. now apply dict_get_NoDup.
  - intros [k Hk]. rewrite <- Hg in Hk. apply dict_get_In in Hk.
    change v with (snd (k, v)). now apply in_map.
Qed.

End StoreFacts.

Lemma store_map_lookup (saved_trips : trip_store) k :
  store_map saved_trips !! k = dict_get k saved_trips.
Proof.
  unfold store_map. rewrite fold_insert_lookup, lookup_empty.
  now destruct (dict_get k saved_trips).
Qed.

Lemma store_map_set k v (saved_trips : trip_store) :
  store_map (dict_set k v saved_trips) = <[k := v]> (store_map saved_trips).
Proof.
  apply map_eq. intros j. rewrite store_map_lookup.
  destruct (String.eqb_spec k j) as [->|Hne].
  - now rewrite dict_get_set_eq, lookup_insert_eq.
  - rewrite (dict_get_set_ne _ _ _ _ Hne), lookup_insert_ne by exact Hne.
    now rewrite store_map_lookup.
Qed.

Lemma store_map_del k (saved_trips : trip_store) :
  store_map (dict_del k saved_trips) = delete k (store_map saved_trips).
Proof.
  apply map_eq. intros j. rewrite store_map_lookup.
  destruct (String.eqb_spec k j) as [->|Hne].
  - now rewrite dict_get_del_eq, lookup_delete_eq.
  - rewrite (dict_get_del_ne _ _ _ Hne), lookup_delete_ne by exact Hne.
    now rewrite store_map_lookup.
Qed.

(** C5. The saved trips are a dictionary in memory that the three
    endpoints keep consistent: [save_trip] stores the trip under the given
    id, or under 'trip_<timestamp>' when none is given, and changes no
    other entry; [get_saved_trips] returns exactly the stored records;
    [delete_trip] removes the named entry and no other when it is there,
    and answers 404 'Trip not found', the store unchanged, when it is
    not. *)
Theorem saved_trips_consistent (clock : save_clock) (request : SaveTripRequest)
    (trip_id : string) (saved_trips : trip_store) :
  let new_id := effective_trip_id clock request in
  let generated := "trip_" ++ timestamp_text clock in
  (* save_trip *)
  new_id = match request_id request with
           | Some i => if decide (i = "") then generated else i
           | None => generated
           end
  /\ fst (save_trip clock request saved_trips)
     = Reply (VDict [ ("id", VStr new_id); ("message", VStr "Trip saved successfully") ])
  /\ store_map (snd (save_trip clock request saved_trips))
     = <[new_id := VDict [ ("id", VStr new_id);
                           ("name", VStr (request_name request));
                           ("trip_data", VDict (request_trip_data request));
                           ("created_at", VStr (created_text clock));
                           ("updated_at", VStr (updated_text clock)) ]]>
         (store_map saved_trips)
  (* get_saved_trips *)
  /\ (exists trips, get_saved_trips saved_trips = Reply (VList trips)
        /\ forall record, In record trips <-> exists k, store_map saved_trips !! k = Some record)
  (* delete_trip *)
  /\ match store_map saved_trips !! trip_id with
     | Some _ =>
         fst (delete_trip trip_id saved_trips)
         = Reply (VDict [ ("message", VStr "Trip deleted successfully") ])
         /\ store_map (snd (delete_trip trip_id saved_trips))
            = delete trip_id (store_map saved_trips)
     | None =>
         delete_trip trip_id saved_trips = (HTTPException 404 "Trip not found", saved_trips)
     end.
Proof.
  intros new_id generated. repeat split.
  - unfold new_id, effective_trip_id. destruct (request_id request) as [i|]; [|reflexivity].
    destruct i as [|c i]; [reflexivity|]. simpl.
    destruct (decide (String c i = "")); [discriminate|reflexivity].
  - unfold save_trip. cbn [snd]. apply store_map_set.
  - exists (dict_values saved_trips). split; [reflexivity|].
    intros record. rewrite dict_values_spec.
    split; intros [k Hk]; exists k; [now rewrite store_map_lookup|now rewrite <- store_map_lookup].
  - rewrite store_map_lookup. unfold delete_trip, dict_mem.
    destruct (dict_get trip_id saved_trips); cbn [negb fst snd].
    + split; [reflexivity|apply store_map_del].
    + reflexivity.
Qed.

(* ===================================================================== *)
(** * The frontend format *)
(* ===================================================================== *)

(** The status the frontend receives is 'sufficient' or 'insufficient'
    whenever the remapping returns. *)
Lemma frontend_budget_status_two budget_validation st :
  frontend_budget_status budget_validation = Ok st ->
  st = VStr "sufficient" \/ st = VStr "insufficient".
Proof.
  unfold frontend_budget_status.
  destruct (py_get budget_validation "status" (VStr "sufficient")) as [s|e];
    cbn [rbind]; [|discriminate].
  destruct (py_eq_str s "sufficient") eqn:E1.
  - cbn [orb negb]. intros [= <-]. left.
    destruct s; try discriminate. simpl in E1. apply String.eqb_eq in E1. now subst.
  - destruct (py_eq_str s "insufficient") eqn:E2.
    + cbn [orb negb]. intros [= <-]. right.
      destruct s; try discriminate. simpl in E2. apply String.eqb_eq in E2. now subst.
    + cbn [orb negb].
      destruct (py_get budget_validation "provided_budget" (VInt 0)); cbn [rbind]; [|discriminate].
      destruct (py_get budget_validation "minimum_required" (VInt 0)); cbn [rbind]; [|discriminate].
      destruct (py_ge a a0) as [[]|]; cbn [rbind]; intros [= <-]; tauto.
Qed.


Lemma transform_keys backend_result user_input out :
  transform_backend_response_to_frontend_format backend_result user_input = Ok out ->
  exists entries budget_status overview,
    out = VDict entries
    /\ map fst entries = frontend_keys
    /\ dict_get "trip_overview" entries = Some (VDict overview)
    /\ dict_get "budget_status" overview = Some budget_status
    /\ frontend_budget_status
         (dict_get_default backend_result "budget_validation" (VDict [])) = Ok budget_status.
Proof.
  unfold transform_backend_response_to_frontend_format.
  destruct (frontend_budget_status _) as [st|e] eqn:Est; cbn [rbind]; [|discriminate].
  destruct (py_get _ "minimum_required" (VInt 15000)) as [mn|e]; cbn [rbind]; [|discriminate].
  intros [= <-]. do 3 eexists.
  split; [reflexivity|]. split; [reflexivity|]. split; [reflexivity|].
  split; reflexivity.
Qed.




(* ===================================================================== *)
(** * Floats: the sign of sums, quotients and parsed decimals *)
(* ===================================================================== *)

Lemma sign_clear_nonneg x : sign_clear x = true -> float_nonneg x = true.
Proof. destruct x as [[]|[]| |[] m e]; simpl; try discriminate; reflexivity. Qed.

Lemma shr_1_nonneg mrs : 0 <= shr_m mrs -> 0 <= shr_m (shr_1 mrs).
Proof.
  destruct mrs as [m r s]. destruct m as [|[p|p|]|[p|p|]]; simpl; lia.
Qed.

Lemma iter_shr_1_nonneg p : forall mrs,
  0 <= shr_m mrs -> 0 <= shr_m (SpecFloat.iter_pos shr_1 p mrs).
Proof.
  induction p as [p IH|p IH|]; intros mrs H; simpl.
  - apply IH, IH, shr_1_nonneg, H.
  - apply IH, IH, H.
  - apply shr_1_nonneg, H.
Qed.

Lemma shr_fexp_nonneg m e l :
  0 <= m -> 0 <= shr_m (fst (shr_fexp prec emax m e l)).
Proof.
  intros H. unfold shr_fexp, shr.
  assert (H0 : 0 <= shr_m (shr_record_of_loc m l)) by (destruct l as [|[]]; exact H).
  destruct (_ - e); simpl; [exact H0|now apply iter_shr_1_nonneg|exact H0].
Qed.

Lemma round_nearest_even_nonneg m l : 0 <= m -> 0 <= round_nearest_even m l.
Proof.
  intros H. destruct l as [|[]]; simpl; try lia. destruct (Z.even m); lia.
Qed.

Lemma binary_round_aux_sign mx ex lx :
  0 <= mx -> sign_clear (binary_round_aux prec emax false mx ex lx) = true.
Proof.
  intros H. unfold binary_round_aux.
  pose proof (shr_fexp_nonneg mx ex lx H) as H1.
  destruct (shr_fexp prec emax mx ex lx) as [mrs' e']. simpl in H1.
  pose proof (shr_fexp_nonneg _ e' loc_Exact
                (round_nearest_even_nonneg _ (loc_of_shr_record mrs') H1)) as H2.
  destruct (shr_fexp prec emax _ e' loc_Exact) as [mrs'' e'']. simpl in H2.
  destruct (shr_m mrs''); [reflexivity| |lia].
  destruct (e'' <=? emax - prec); reflexivity.
Qed.

Lemma div_core_nonneg m1 e1 m2 e2 :
  0 <= m1 -> 0 < m2 ->
  0 <= fst (fst (SFdiv_core_binary prec emax m1 e1 m2 e2)).
Proof.
  intros H1 H2. unfold SFdiv_core_binary.
  set (s := e1 - e2 - _).
  set (m' := match s with Z.pos _ => Z.shiftl m1 s | 0 => m1 | Z.neg _ => 0 end).
  assert (Hm' : 0 <= m').
  { unfold m'. destruct s; try lia. apply Z.shiftl_nonneg. exact H1. }
  pose proof (Z_div_mod m' m2 ltac:(lia)) as Hd.
  destruct (Z.div_eucl m' m2) as [q r]. simpl. destruct Hd as [Hq Hr]. nia.
Qed.

Lemma round_ratio_sign n d : 0 <= n -> 0 < d -> sign_clear (round_ratio n d) = true.
Proof.
  intros Hn Hd. unfold round_ratio. destruct n as [|p|p]; [reflexivity| |lia].
  pose proof (div_core_nonneg (Z.pos p) 0 d 0 Hn Hd) as H.
  destruct (SFdiv_core_binary prec emax (Z.pos p) 0 d 0) as [[q e] l]. simpl in H.
  now apply binary_round_aux_sign.
Qed.

Lemma int_of_digits_nonneg s : str_forall is_digit s = true -> 0 <= int_of_digits s.
Proof.
  unfold int_of_digits.
  assert (H : forall l acc, 0 <= acc -> forallb is_digit l = true ->
            0 <= fold_left (fun a c => 10 * a + digit_value c) l acc).
  { induction l as [|c l IH]; intros acc Hacc Hl; simpl in *; [exact Hacc|].
    apply andb_prop in Hl as [Hc Hl]. apply IH; [|exact Hl].
    unfold is_digit, in_range in Hc. apply andb_prop in Hc as [Hlo _].
    apply N.leb_le in Hlo. unfold digit_value. lia. }
  intros Hs. apply H; [lia|].
  clear H. induction s as [|c s IH]; simpl in *; [reflexivity|].
  apply andb_prop in Hs as [-> Hs]. now rewrite IH.
Qed.

(* ===================================================================== *)
(** * What a group can capture *)
(* ===================================================================== *)

Section Captures.

Variable ok : cclass -> bool.
Variable p : ascii -> bool.
Hypothesis ok_sound : forall k c, ok k = true -> class_mem k c = true -> p c = true.

Lemma str_forall_app s t :
  str_forall p (s ++ t) = str_forall p s && str_forall p t.
Proof.
  induction s as [|c s IH]; [reflexivity|].
  rewrite str_app_cons. simpl. now rewrite IH, andb_assoc.
Qed.

Lemma str_app_assoc (s t u : string) : (s ++ t) ++ u = s ++ (t ++ u).
Proof.
  induction s as [|c s IH]; [reflexivity|]. now rewrite !str_app_cons, IH.
Qed.

Lemma str_length_app (s t : string) :
  String.length (s ++ t) = (String.length s + String.length t)%nat.
Proof.
  induction s as [|c s IH]; [reflexivity|]. rewrite str_app_cons. simpl. now rewrite IH.
Qed.

Lemma consumed_app u r : consumed (u ++ r) r = u.
Proof.
  unfold consumed. rewrite str_length_app.
  replace (String.length u + String.length r - String.length r)%nat
    with (String.length u) by lia.
  induction u as [|c u IH]; [now destruct r|].
  rewrite str_app_cons. simpl. now rewrite IH.
Qed.

Lemma reads_ok_refl st : reads_ok p st st.
Proof. now exists "". Qed.

Lemma reads_ok_trans st1 st2 st3 : reads_ok p st1 st2 -> reads_ok p st2 st3 -> reads_ok p st1 st3.
Proof.
  intros (u & Hu & Pu) (v & Hv & Pv). exists (u ++ v). split.
  - now rewrite Hu, Hv, str_app_assoc.
  - now rewrite str_forall_app, Pu, Pv.
Qed.

Lemma star_iter_reads f :
  (forall st st', In st' (f st) -> reads_ok p st st') ->
  forall fuel st st', In st' (star_iter f fuel st) -> reads_ok p st st'.
Proof.
  intros Hf. induction fuel as [|fuel IH]; intros st st' Hin; simpl in Hin.
  - destruct Hin as [<-|[]]. apply reads_ok_refl.
  - apply in_app_iff in Hin as [Hin|[<-|[]]]; [|apply reads_ok_refl].
    apply in_flat_map in Hin as (st1 & H1 & H2).
    destruct (_ <? _)%nat; [|destruct H2].
    eapply reads_ok_trans; [apply Hf, H1|apply IH, H2].
Qed.

Lemma rmatch_reads r :
  uses_only ok r = true ->
  forall st st', In st' (rmatch r st) -> reads_ok p st st'.
Proof.
  induction r as [|k|a IHa b IHb|a IHa|a IHa|n a IHa]; simpl; intros Hok st st' Hin.
  - destruct Hin as [<-|[]]. apply reads_ok_refl.
  - destruct (rest st) as [|c s'] eqn:E; [destruct Hin|].
    destruct (class_mem k c) eqn:Ek; [|destruct Hin].
    destruct Hin as [<-|[]]. exists (String c ""). simpl. split; [exact E|].
    now rewrite (ok_sound k c Hok Ek).
  - apply andb_prop in Hok as [Ha Hb].
    apply in_flat_map in Hin as (st1 & H1 & H2).
    eapply reads_ok_trans; [apply (IHa Ha), H1|apply (IHb Hb), H2].
  - apply in_app_iff in Hin as [Hin|[<-|[]]]; [now apply IHa|apply reads_ok_refl].
  - eapply star_iter_reads; [|exact Hin]. now apply IHa.
  - apply in_map_iff in Hin as (st1 & <- & H1). simpl.
    destruct (IHa Hok st st1 H1) as (u & Hu & Pu). now exists u.
Qed.

Lemma star_iter_caps n f :
  (forall st st', In st' (f st) -> caps_ok p n st -> caps_ok p n st') ->
  forall fuel st st', In st' (star_iter f fuel st) -> caps_ok p n st -> caps_ok p n st'.
Proof.
  intros Hf. induction fuel as [|fuel IH]; intros st st' Hin Hst; simpl in Hin.
  - now destruct Hin as [<-|[]].
  - apply in_app_iff in Hin as [Hin|[<-|[]]]; [|exact Hst].
    apply in_flat_map in Hin as (st1 & H1 & H2).
    destruct (_ <? _)%nat; [|destruct H2].
    eapply IH; [exact H2|]. eapply Hf; [exact H1|exact Hst].
Qed.

Lemma rmatch_caps n r :
  group_uses_only ok n r = true ->
  forall st st', In st' (rmatch r st) -> caps_ok p n st -> caps_ok p n st'.
Proof.
  induction r as [|k|a IHa b IHb|a IHa|a IHa|m a IHa]; simpl; intros Hok st st' Hin Hst.
  - now destruct Hin as [<-|[]].
  - destruct (rest st) as [|c s']; [destruct Hin|].
    destruct (class_mem k c); [|destruct Hin].
    now destruct Hin as [<-|[]].
  - apply andb_prop in Hok as [Ha Hb].
    apply in_flat_map in Hin as (st1 & H1 & H2).
    eapply (IHb Hb); [exact H2|]. eapply (IHa Ha); [exact H1|exact Hst].
  - apply in_app_iff in Hin as [Hin|[<-|[]]]; [|exact Hst].
    eapply IHa; eauto.
  - eapply star_iter_caps; [|exact Hin|exact Hst]. intros; eapply IHa; eauto.
  - apply andb_prop in Hok as [Hm Ha].
    apply in_map_iff in Hin as (st1 & <- & H1).
    intros g. simpl. destruct (n =? m)%nat eqn:E.
    + intros [= <-].
      destruct (rmatch_reads a Hm st st1 H1) as (u & Hu & Pu).
      now rewrite Hu, consumed_app.
    + apply (IHa Ha st st1 H1 Hst).
Qed.

Lemma search_caps n r :
  group_uses_only ok n r = true ->
  forall s m g, search r s = Some m -> group n m = Some g -> str_forall p g = true.
Proof.
  intros Hok. induction s as [|c s IH]; intros m g; simpl.
  - destruct (rmatch r _) as [|st l] eqn:E; [discriminate|].
    intros [= <-]. apply (rmatch_caps n r Hok {| rest := ""; caps := [] |} st).
    + rewrite E. now left.
    + intros g'. discriminate.
  - destruct (rmatch r _) as [|st l] eqn:E; [apply IH|].
    intros [= <-]. apply (rmatch_caps n r Hok {| rest := String c s; caps := [] |} st).
    + rewrite E. now left.
    + intros g'. discriminate.
Qed.

End Captures.

Lemma number_class_sound k c :
  number_class k = true -> class_mem k c = true -> number_char c = true.
Proof.
  unfold number_char. destruct k as [| |c']; simpl; try discriminate.
  - intros _ ->. reflexivity.
  - intros H Hc. apply Ascii.eqb_eq in Hc. subst c'.
    rewrite <- orb_assoc. rewrite H. apply orb_true_r.
Qed.

Lemma decimal_class_sound k c :
  decimal_class k = true -> class_mem k c = true -> decimal_char c = true.
Proof.
  unfold decimal_char. destruct k as [| |c']; simpl; try discriminate.
  - intros _ ->. reflexivity.
  - intros H Hc. apply Ascii.eqb_eq in Hc. subst c'. rewrite H. apply orb_true_r.
Qed.

Lemma digit_class_sound k c :
  digit_class k = true -> class_mem k c = true -> is_digit c = true.
Proof. destruct k; simpl; try discriminate. now intros _ ->. Qed.

Lemma remove_commas_decimal s :
  str_forall number_char s = true -> str_forall decimal_char (remove_commas s) = true.
Proof.
  unfold remove_commas. induction s as [|c s IH]; [reflexivity|]. simpl.
  intros H. apply andb_prop in H as [Hc Hs].
  destruct (Ascii.eqb c ",") eqn:E; simpl; [now apply IH|].
  rewrite (IH Hs), andb_true_r. unfold number_char in Hc. unfold decimal_char.
  rewrite E, orb_false_r in Hc. destruct (is_digit c); [reflexivity|exact Hc].
Qed.

Lemma group_text_ok (p : ascii -> bool) n m :
  (forall g, group n m = Some g -> str_forall p g = true) ->
  str_forall p (group_text n m) = true.
Proof. unfold group_text. destruct (group n m); auto. Qed.

(** X2. Whatever the text, the strings [_parse_distance] hands to [float]
    are made of digits and points, and those [_parse_duration] hands to
    [int] of digits and to [float] of digits and points: the strings on
    which [float_of_string] and [int_of_string] are the conversions of
    Python. *)
Theorem parser_conversions_in_range (text : string) (m : list (nat * string)) :
  (search distance_re1 text = Some m \/ search distance_re2 text = Some m
   \/ search distance_re4 text = Some m ->
   str_forall decimal_char (remove_commas (group_text 1 m)) = true)
  /\ (search distance_re3 text = Some m ->
      str_forall is_digit (group_text 1 m) = true
      /\ str_forall is_digit (group_text 2 m) = true)
  /\ (search duration_re1 text = Some m ->
      str_forall is_digit (group_text 1 m) = true
      /\ forall g, group 2 m = Some g -> str_forall is_digit g = true)
  /\ (search duration_re2 text = Some m ->
      str_forall decimal_char (group_text 1 m) = true)
  /\ (search duration_re3 text = Some m ->
      str_forall is_digit (group_text 1 m) = true).
Proof.
  pose proof (search_caps number_class number_char number_class_sound) as Hn.
  pose proof (search_caps digit_class is_digit digit_class_sound) as Hd.
  pose proof (search_caps decimal_class decimal_char decimal_class_sound) as Hp.
  split; [|split; [|split; [|split]]].
  - intros [H|[H|H]]; apply remove_commas_decimal, group_text_ok; intros g;
      eapply Hn; try exact H; reflexivity.
  - intros H. split; apply group_text_ok; intros g; eapply Hd; try exact H; reflexivity.
  - intros H. split; [apply group_text_ok|]; intros g; eapply Hd; try exact H; reflexivity.
  - intros H. apply group_text_ok. intros g. eapply Hp; try exact H; reflexivity.
  - intros H. apply group_text_ok. intros g. eapply Hd; try exact H; reflexivity.
Qed.

(* ===================================================================== *)
(** * The planner: the budget alert and the results it can return *)
(* ===================================================================== *)

Lemma cost_saving_tips_strings travel_mode theme :
  exists tips, _get_cost_saving_tips (VStr travel_mode) (VStr theme) = Ok (str_list tips).
Proof.
  unfold _get_cost_saving_tips. cbn [py_lower rbind].
  destruct (String.eqb (str_lower travel_mode) "self");
    destruct (String.eqb (str_lower theme) "devotional");
    try destruct (String.eqb (str_lower theme) "adventurous");
    eexists; reflexivity.
Qed.

Section PlannerResults.

Variables world response part function_call : Type.
Variable sv : services world response part function_call.

Lemma generate_insufficient_reply travel_input w :
  py_index (validate_budget travel_input) "status" = Ok (VStr "insufficient") ->
  exists theme travel_mode minimum tips,
    dict_get_default travel_input "theme" (VStr "cultural") = VStr theme
    /\ dict_get_default travel_input "travel_mode" (VStr "Self") = VStr travel_mode
    /\ spec_minimum_budget (parse_duration_days travel_input) travel_mode theme = Ok minimum
    /\ parse_budget travel_input < minimum
    /\ _get_cost_saving_tips (VStr travel_mode) (VStr theme) = Ok tips
    /\ generate_personalized_itinerary _ _ _ _ sv travel_input w
       = (Ok (VDict
            [ ("status", VStr "budget_insufficient");
              ("budget_validation",
               budget_insufficient (parse_budget travel_input) minimum);
              ("duration_validation",
               validate_duration (dict_get_default travel_input "duration" (VStr "3 days")));
              ("alert",
               VStr (alert_mark ++ "Budget Alert: Minimum required budget is " ++ currency_mark
                     ++ format_commas minimum ++ ". You provided " ++ currency_mark
                     ++ format_commas (parse_budget travel_input)
                     ++ ". Please increase budget by " ++ currency_mark
                     ++ format_commas (minimum - parse_budget travel_input) ++ "."));
              ("recommendations", VDict
                 [ ("minimum_budget", VInt minimum);
                   ("cost_saving_tips", tips) ]) ]), w).
Proof.
  intros Hst.
  destruct (validate_budget_shape travel_input)
    as [(theme & mode & m & Ht & Hm & Hmin & Hv)|(e & Hv)].
  2:{ rewrite Hv in Hst. discriminate Hst. }
  destruct (m <=? parse_budget travel_input) eqn:Hle.
  { rewrite Hv in Hst. discriminate Hst. }
  apply Z.leb_gt in Hle.
  destruct (cost_saving_tips_strings mode theme) as (tips & Htips).
  exists theme, mode, m, (str_list tips).
  repeat (split; [assumption|]).
  unfold generate_personalized_itinerary. rewrite Hv.
  unfold io_bind, io_lift. cbn [py_index budget_insufficient dict_get].
  simpl py_eq_str. cbv iota.
  unfold budget_insufficient_reply. rewrite Ht, Hm, Htips. reflexivity.
Qed.

(** X3. When the budget validation is 'insufficient',
    [generate_personalized_itinerary] asks the model nothing - the
    outside world is left as it was - and returns the budget alert: the
    status 'budget_insufficient', the two validations, the alert message
    with the minimum, the budget read and the shortfall, and the
    cost-saving tips for the travel mode and the theme, which are strings
    whenever the validation is 'insufficient'. *)
Theorem generate_insufficient_asks_nothing (travel_input : pydict) (w : world) :
  py_index (validate_budget travel_input) "status" = Ok (VStr "insufficient") ->
  exists theme travel_mode minimum tips,
    dict_get_default travel_input "theme" (VStr "cultural") = VStr theme
    /\ dict_get_default travel_input "travel_mode" (VStr "Self") = VStr travel_mode
    /\ spec_minimum_budget (parse_duration_days travel_input) travel_mode theme = Ok minimum
    /\ parse_budget travel_input < minimum
    /\ _get_cost_saving_tips (VStr travel_mode) (VStr theme) = Ok tips
    /\ generate_personalized_itinerary _ _ _ _ sv travel_input w
       = (Ok (VDict
            [ ("status", VStr "budget_insufficient");
              ("budget_validation",
               budget_insufficient (parse_budget travel_input) minimum);
              ("duration_validation",
               validate_duration (dict_get_default travel_input "duration" (VStr "3 days")));
              ("alert",
               VStr (alert_mark ++ "Budget Alert: Minimum required budget is " ++ currency_mark
                     ++ format_commas minimum ++ ". You provided " ++ currency_mark
                     ++ format_commas (parse_budget travel_input)
                     ++ ". Please increase budget by " ++ currency_mark
                     ++ format_commas (minimum - parse_budget travel_input) ++ "."));
              ("recommendations", VDict
                 [ ("minimum_budget", VInt minimum);
                   ("cost_saving_tips", tips) ]) ]), w).
Proof. apply generate_insufficient_reply. Qed.

Lemma generate_string_theme_returns travel_input theme w :
  dict_get_default travel_input "theme" (VStr "cultural") = VStr theme ->
  exists itinerary w',
    generate_personalized_itinerary _ _ _ _ sv travel_input w = (Ok itinerary, w').
Proof.
  intros Ht.
  destruct (validate_budget_status travel_input) as (st & Hidx & _).
  destruct (String.eqb_spec st "insufficient") as [->|Hne].
  - destruct (generate_insufficient_reply travel_input w Hidx)
      as (th & mode & m & tips & _ & _ & _ & _ & _ & Hg).
    rewrite Hg. eauto.
  - assert (Hst : py_index (validate_budget travel_input) "status" <> Ok (VStr "insufficient"))
      by (rewrite Hidx; congruence).
    rewrite (generate_not_insufficient _ _ _ _ sv _ _ Hst).
    cbv zeta. unfold io_try.
    match goal with |- context [match ?m with _ => _ end] => destruct m as [[v|e] w'] end.
    + eauto.
    + unfold fallback_io.
      destruct (fallback_of_string_theme travel_input (validate_budget travel_input)
                  (validate_duration (dict_get_default travel_input "duration" (VStr "3 days")))
                  (now_iso _ _ _ _ sv w') _ Ht) as (it & Hit & _).
      rewrite Hit. eauto.
Qed.


(** X5. [search_and_respond] answers every request in plain text with
    the plan of one trip, Mumbai to Goa by car for 3 days on 20000
    rupees: the text is not read.  The budget of that trip is sufficient
    (minimum 13050, buffer 6950), so the model is asked, and the call
    raises nothing. *)
Theorem search_and_respond_text_is_default_trip (text : string) (w : world) :
  search_and_respond _ _ _ _ sv (VStr text) w
  = generate_personalized_itinerary _ _ _ _ sv default_travel_input w
  /\ validate_budget default_travel_input = budget_sufficient 20000 13050
  /\ search_and_respond _ _ _ _ sv (VStr text) w
     = io_try _
         (io_bind _ (ask_model _ _ _ _ sv default_travel_input
                       (budget_sufficient 20000 13050) (validate_duration (VStr "3 days")))
            (fun response0 =>
               _process_ai_response _ _ _ _ sv response0 default_travel_input
                 (budget_sufficient 20000 13050) (validate_duration (VStr "3 days"))))
         (fun _ => fallback_io _ _ _ _ sv default_travel_input
                     (budget_sufficient 20000 13050) (validate_duration (VStr "3 days"))) w
  /\ exists itinerary w', search_and_respond _ _ _ _ sv (VStr text) w = (Ok itinerary, w').
Proof.
  assert (Hv : validate_budget default_travel_input = budget_sufficient 20000 13050)
    by (vm_compute; reflexivity).
  split; [reflexivity|]. split; [exact Hv|]. split.
  - cbn [search_and_respond].
    rewrite (generate_not_insufficient _ _ _ _ sv default_travel_input w)
      by (rewrite Hv; discriminate).
    cbv zeta. rewrite Hv. reflexivity.
  - cbn [search_and_respond]. now apply (generate_string_theme_returns _ "cultural").
Qed.

(** Where a result of [generate_personalized_itinerary] comes from: the
    budget alert, the fallback template, or the processed response. *)
Lemma generate_result_cases travel_input w v w' :
  let bv := validate_budget travel_input in
  let dv := validate_duration (dict_get_default travel_input "duration" (VStr "3 days")) in
  generate_personalized_itinerary _ _ _ _ sv travel_input w = (Ok v, w') ->
  budget_insufficient_reply travel_input bv dv = Ok v
  \/ (exists w1, _create_fallback_itinerary (now_iso _ _ _ _ sv w1) travel_input bv dv = Ok v)
  \/ (exists text w1, build_itinerary _ _ _ _ sv text travel_input bv dv w1 = (Ok v, w')).
Proof.
  intros bv dv. unfold generate_personalized_itinerary. fold bv dv.
  assert (Hfb : forall w1, fallback_io _ _ _ _ sv travel_input bv dv w1 = (Ok v, w') ->
            exists w2, _create_fallback_itinerary (now_iso _ _ _ _ sv w2) travel_input bv dv
                       = Ok v).
  { unfold fallback_io. intros w1 [= H _]. now exists w1. }
  unfold io_bind at 1, io_lift at 1.
  destruct (py_index bv "status") as [status|e]; [|discriminate].
  destruct (py_eq_str status "insufficient").
  { unfold io_lift. intros [= H _]. now left. }
  unfold io_try at 1, io_bind at 1.
  destruct (ask_model _ _ _ _ sv travel_input bv dv w) as [[r|e] w1].
  - unfold _process_ai_response, io_try, process_body.
    destruct (response_text _ _ _ _ sv r) as [text|e].
    + match goal with |- context [build_itinerary _ _ _ _ sv ?t] => set (txt := t) end.
      destruct (build_itinerary _ _ _ _ sv txt travel_input bv dv w1) as [[v1|e] w2] eqn:E.
      * intros [= <- <-]. right. right. now exists txt, w1.
      * repeat match goal with
               | |- context [fallback_io _ _ _ _ sv travel_input bv dv ?x] =>
                   let F := fresh "F" in
                   destruct (fallback_io _ _ _ _ sv travel_input bv dv x) as [[? | ?] ?] eqn:F
               end;
          try discriminate; intros [= <- <-]; right; left; eapply Hfb; eassumption.
    + repeat match goal with
             | |- context [fallback_io _ _ _ _ sv travel_input bv dv ?x] =>
                 let F := fresh "F" in
                 destruct (fallback_io _ _ _ _ sv travel_input bv dv x) as [[? | ?] ?] eqn:F
             end;
        try discriminate; intros [= <- <-]; right; left; eapply Hfb; eassumption.
  - intros F. right. left. exact (Hfb _ F).
Qed.

End PlannerResults.

(** The alert for the trip to Goa on 5000 rupees, with the model out of
    reach and never called. *)
Lemma generate_insufficient_offline :
  exists theme travel_mode minimum tips,
    dict_get_default goa_trip_low_budget "theme" (VStr "cultural") = VStr theme
    /\ dict_get_default goa_trip_low_budget "travel_mode" (VStr "Self") = VStr travel_mode
    /\ spec_minimum_budget (parse_duration_days goa_trip_low_budget) travel_mode theme
       = Ok minimum
    /\ parse_budget goa_trip_low_budget < minimum
    /\ _get_cost_saving_tips (VStr travel_mode) (VStr theme) = Ok tips
    /\ generate_personalized_itinerary _ _ _ _ offline_services goa_trip_low_budget 0%nat
       = (Ok (VDict
            [ ("status", VStr "budget_insufficient");
              ("budget_validation",
               budget_insufficient (parse_budget goa_trip_low_budget) minimum);
              ("duration_validation",
               validate_duration
                 (dict_get_default goa_trip_low_budget "duration" (VStr "3 days")));
              ("alert",
               VStr (alert_mark ++ "Budget Alert: Minimum required budget is " ++ currency_mark
                     ++ format_commas minimum ++ ". You provided " ++ currency_mark
                     ++ format_commas (parse_budget goa_trip_low_budget)
                     ++ ". Please increase budget by " ++ currency_mark
                     ++ format_commas (minimum - parse_budget goa_trip_low_budget) ++ "."));
              ("recommendations", VDict
                 [ ("minimum_budget", VInt minimum);
                   ("cost_saving_tips", tips) ]) ]), 0%nat).
Proof.
  exact (generate_insufficient_asks_nothing nat unit unit unit offline_services
           goa_trip_low_budget 0%nat ltac:(vm_compute; reflexivity)).
Defined.


(* ===================================================================== *)
(** * The processing of the response keeps the planner's validations *)
(* ===================================================================== *)

Lemma py_setitem_get v k x v' :
  py_setitem v k x = Ok v' -> py_index v' k = Ok x.
Proof.
  destruct v; try discriminate. intros [= <-]. simpl. now rewrite dict_get_set_eq.
Qed.

Lemma py_setitem_other v k x v' j :
  py_setitem v k x = Ok v' -> k <> j -> py_index v' j = py_index v j.
Proof.
  destruct v; try discriminate. intros [= <-] Hne. simpl.
  now rewrite (dict_get_set_ne _ _ _ _ Hne).
Qed.

Lemma enhance_response_validations json_loads now text travel_input bv dv v :
  enhance_response json_loads now text travel_input bv dv = Ok v ->
  py_index v "budget_validation" = Ok bv /\ py_index v "duration_validation" = Ok dv.
Proof.
  unfold enhance_response.
  destruct (parse_or_wrap _ _ _ _) as [i0|e]; cbn [rbind]; [|discriminate].
  destruct (py_setitem i0 _ bv) as [i1|e] eqn:E1; cbn [rbind]; [|discriminate].
  destruct (py_setitem i1 _ dv) as [i2|e] eqn:E2; cbn [rbind]; [|discriminate].
  destruct (py_lower _) as [mode|e]; cbn [rbind]; [|discriminate].
  assert (H2 : py_index i2 "budget_validation" = Ok bv
               /\ py_index i2 "duration_validation" = Ok dv).
  { split; [|exact (py_setitem_get _ _ _ _ E2)].
    rewrite (py_setitem_other _ _ _ _ "budget_validation" E2) by discriminate.
    exact (py_setitem_get _ _ _ _ E1). }
  destruct H2 as [Hb Hd].
  destruct (String.eqb mode "self").
  - unfold _enhance_self_mode.
    destruct (_calculate_fuel_costs _); cbn [rbind]; [|discriminate].
    intros E3. split.
    + rewrite (py_setitem_other _ _ _ _ "budget_validation" E3) by discriminate. exact Hb.
    + rewrite (py_setitem_other _ _ _ _ "duration_validation" E3) by discriminate. exact Hd.
  - unfold _enhance_booking_mode. intros E3. split.
    + rewrite (py_setitem_other _ _ _ _ "budget_validation" E3) by discriminate. exact Hb.
    + rewrite (py_setitem_other _ _ _ _ "duration_validation" E3) by discriminate. exact Hd.
Qed.

Lemma insufficient_reply_validations travel_input bv dv v :
  budget_insufficient_reply travel_input bv dv = Ok v ->
  py_index v "budget_validation" = Ok bv /\ py_index v "duration_validation" = Ok dv.
Proof.
  unfold budget_insufficient_reply.
  destruct (py_index bv "alert_message"); cbn [rbind]; [|discriminate].
  destruct (py_index bv "minimum_required"); cbn [rbind]; [|discriminate].
  destruct (_get_cost_saving_tips _ _); cbn [rbind]; [|discriminate].
  intros [= <-]. split; reflexivity.
Qed.

Lemma fallback_validations now travel_input bv dv v :
  _create_fallback_itinerary now travel_input bv dv = Ok v ->
  py_index v "budget_validation" = Ok bv /\ py_index v "duration_validation" = Ok dv.
Proof.
  unfold _create_fallback_itinerary.
  destruct (py_title _); cbn [rbind]; [|discriminate].
  intros [= <-]. split; reflexivity.
Qed.

(** X6. Whatever the model answers and whatever [json.loads] makes of
    it, an itinerary returned by [generate_personalized_itinerary] - the
    budget alert, the fallback template or the processed response of
    [_process_ai_response] - carries under 'budget_validation' and
    'duration_validation' the results of the planner's own
    [validate_budget] and [validate_duration]: entries of these names in
    the parsed answer are overwritten, and the mode-specific enhancement
    leaves them alone. *)
Theorem itinerary_carries_planner_validations
    (world response part function_call : Type)
    (sv : services world response part function_call)
    (json_loads : string -> result pyval)
    (travel_input : pydict) (w w' : world) (itinerary : pyval) :
  generate_personalized_itinerary _ _ _ _
    (with_response_processing json_loads _ _ _ _ sv) travel_input w = (Ok itinerary, w') ->
  py_index itinerary "budget_validation" = Ok (validate_budget travel_input)
  /\ py_index itinerary "duration_validation"
     = Ok (validate_duration (dict_get_default travel_input "duration" (VStr "3 days"))).
Proof.
  intros H. apply generate_result_cases in H. cbv zeta in H.
  destruct H as [H|[(w1 & H)|(text & w1 & H)]].
  - exact (insufficient_reply_validations _ _ _ _ H).
  - exact (fallback_validations _ _ _ _ _ H).
  - simpl in H. injection H as H _. exact (enhance_response_validations _ _ _ _ _ _ _ H).
Qed.

(** The model answers, the parsed answer claims a budget validation of
    its own, and the itinerary holds the planner's. *)
Lemma forged_validation_overwritten :
  py_index answered_goa_itinerary "budget_validation" = Ok (validate_budget goa_trip)
  /\ py_index answered_goa_itinerary "duration_validation"
     = Ok (validate_duration (dict_get_default goa_trip "duration" (VStr "3 days"))).
Proof.
  exact (itinerary_carries_planner_validations nat string unit unit answering_services
           forging_json_loads goa_trip 0%nat 1%nat answered_goa_itinerary
           ltac:(vm_compute; reflexivity)).
Defined.

(* ===================================================================== *)
(** * The minimum duration across travel modes *)
(* ===================================================================== *)

Lemma self_thresholds d :
  let self_days := if d <=? 300 then 2 else if d <=? 800 then 3 else if d <=? 1500 then 4 else 5 in
  let other_days := if d <=? 500 then 2 else if d <=? 1200 then 3 else 4 in
  other_days <= self_days <= other_days + 1.
Proof.
  cbv zeta.
  repeat match goal with |- context [?a <=? ?b] =>
    let E := fresh in destruct (Z.leb_spec a b) as [E|E] end; lia.
Qed.

(** X7. For every pair of places, driving ('Self') needs at least as
    many days as any other travel mode and at most one day more, so every
    duration offered for 'Self' is offered for the other modes too; and
    no offered duration is shorter than the minimum. *)
Theorem self_mode_needs_no_fewer_days (source destination travel_mode : string) :
  let self_days := calculate_minimum_duration source destination "Self" in
  let other_days := calculate_minimum_duration source destination travel_mode in
  other_days <= self_days <= other_days + 1
  /\ (forall option, In option (get_feasible_durations source destination "Self") ->
                     In option (get_feasible_durations source destination travel_mode))
  /\ (forall option, In option (get_feasible_durations source destination travel_mode) ->
                     other_days <= days option).
Proof.
  intros self_days other_days.
  assert (H : other_days <= self_days <= other_days + 1).
  { unfold self_days, other_days, calculate_minimum_duration.
    change (String.eqb "Self" "Self") with true. cbv iota.
    destruct (String.eqb travel_mode "Self"); [lia|].
    apply self_thresholds. }
  split; [exact H|]. split.
  - intros o. unfold get_feasible_durations. fold self_days other_days.
    rewrite !filter_In. intros [Hin Hle]. split; [exact Hin|].
    apply Z.leb_le in Hle. apply Z.leb_le. lia.
  - intros o. unfold get_feasible_durations. fold other_days.
    rewrite filter_In. intros [_ Hle]. now apply Z.leb_le.
Qed.

(* ===================================================================== *)
(** * validate_duration *)
(* ===================================================================== *)

Lemma validate_duration_steps duration :
  validate_duration duration
  = if has_long_int duration then duration_error str_limit_exceeded
    else if negb (within_limit (first_digits (py_str duration)))
    then duration_error (int_limit_exceeded (String.length (first_digits (py_str duration))))
    else
      let days := match findall_digits (py_str duration) with
                  | first :: _ => int_of_digits first
                  | [] => 1
                  end in
      if days <? 1 then
        VDict [ ("status", VStr "invalid");
                ("message", VStr "Duration must be at least 1 day");
                ("recommended_duration", VInt 2) ]
      else if 30 <? days then
        VDict [ ("status", VStr "warning");
                ("message",
                 VStr "Long trip detected. Consider breaking into multiple shorter trips.");
                ("validated_duration", VInt days) ]
      else
        VDict [ ("status", VStr "valid");
                ("validated_duration", VInt days);
                ("message", VStr ("Duration of " ++ str_of_int days
                                  ++ " days is optimal for trip planning.")) ].
Proof.
  unfold validate_duration, validate_duration_body.
  rewrite py_str_checked_cases.
  destruct (has_long_int duration); [reflexivity|]. cbn [rbind].
  rewrite read_duration_spec.
  destruct (within_limit (first_digits (py_str duration))); [|reflexivity].
  cbn [rbind negb]. cbv zeta.
  destruct (_ <? 1); [reflexivity|]. destruct (30 <? _); reflexivity.
Qed.

(** X8. [validate_duration] reads no sign, and it reports 'error' for a
    number of more than 4300 digits only.  For a duration written in
    ASCII characters, with [days] the first run of digits of its text, or
    1 when there is no digit: the status is 'error' when that run has
    more than 4300 digits, or when the duration is itself an int of more
    than 4300 digits; otherwise it is 'invalid' with a recommended
    duration of 2 when [days] is 0, 'valid' from 1 to 30 days and
    'warning' beyond, the last two with [days] as the validated
    duration. *)
Theorem validate_duration_statuses (duration : pyval) :
  let text := py_str duration in
  let days := match findall_digits text with
              | first :: _ => int_of_digits first
              | [] => 1
              end in
  let converted := negb (has_long_int duration) && within_limit (first_digits text) in
  is_ascii text = true ->
  0 <= days
  /\ py_index (validate_duration duration) "status"
     = Ok (VStr (if negb converted then "error"
                 else if days =? 0 then "invalid"
                 else if days <=? 30 then "valid" else "warning"))
  /\ (has_long_int duration = true ->
      validate_duration duration = duration_error str_limit_exceeded)
  /\ (has_long_int duration = false -> within_limit (first_digits text) = false ->
      validate_duration duration
      = duration_error (int_limit_exceeded (String.length (first_digits text))))
  /\ (converted = true -> days = 0 ->
      py_index (validate_duration duration) "recommended_duration" = Ok (VInt 2))
  /\ (converted = true -> 0 < days ->
      py_index (validate_duration duration) "validated_duration" = Ok (VInt days))
  /\ (str_exists is_digit text = false -> days = 1).
Proof.
  intros text days converted _.
  assert (Hnn : 0 <= days).
  { unfold days, findall_digits.
    pose proof (digit_runs_digits text None I) as H.
    destruct (digit_runs None text) as [|first l]; [lia|].
    inversion H; subst. now apply int_of_digits_nonneg. }
  assert (Hno : str_exists is_digit text = false -> days = 1).
  { intros Hno. unfold days, findall_digits. now rewrite (digit_runs_no_digit _ Hno). }
  split; [exact Hnn|].
  rewrite validate_duration_steps. fold text. cbv zeta. fold days.
  unfold converted. clearbody days.
  destruct (has_long_int duration).
  { cbn [negb andb]. repeat split; try reflexivity; try discriminate. exact Hno. }
  destruct (within_limit (first_digits text)).
  2:{ cbn [negb andb]. repeat split; try reflexivity; try discriminate. exact Hno. }
  cbn [negb andb].
  destruct (Z.ltb_spec days 1) as [H1|H1].
  - assert (H0 : days = 0) by lia. subst days.
    repeat split; try reflexivity; try discriminate; try lia. exact Hno.
  - destruct (Z.eqb_spec days 0) as [H0|H0]; [lia|].
    split.
    { destruct (Z.ltb_spec 30 days); destruct (Z.leb_spec days 30); try lia; reflexivity. }
    split; [discriminate|]. split; [discriminate|]. split; [lia|]. split; [|exact Hno].
    intros _ _. destruct (Z.ltb_spec 30 days); reflexivity.
Qed.

(** Four days are a valid duration. *)
Lemma validate_duration_four_days :
  py_index (validate_duration (VStr "4 days")) "status" = Ok (VStr "valid")
  /\ py_index (validate_duration (VStr "4 days")) "validated_duration" = Ok (VInt 4).
Proof.
  pose proof (validate_duration_statuses (VStr "4 days") eq_refl) as H.
  cbv zeta in H. destruct H as (_ & Hs & _ & _ & _ & Hv & _).
  split; [exact Hs|]. apply Hv; [reflexivity|]. change (0 < 4). lia.
Defined.

(** A duration of 4301 digits is an 'error'. *)
Example validate_duration_long_error :
  validate_duration long_duration = duration_error (int_limit_exceeded 4301).
Proof. vm_compute. reflexivity. Qed.

(* ===================================================================== *)
(** * The saved-trips store under sequences of requests *)
(* ===================================================================== *)

Section DictLaws.

Context {A : Type}.
Implicit Types (d : list (string * A)) (k : string) (v : A).

Lemma dict_set_fresh k v d : dict_mem k d = false -> dict_set k v d = (d ++ [(k, v)])%list.
Proof. intros H. unfold dict_set. now rewrite H. Qed.

Lemma dict_del_notin k d : dict_mem k d = false -> dict_del k d = d.
Proof.
  unfold dict_mem. intros H.
  destruct (dict_get k d) eqn:E; [discriminate|].
  apply dict_get_None_notin in E.
  unfold dict_del. induction d as [|[k' v'] d IH]; simpl; [reflexivity|].
  simpl in E. destruct (String.eqb_spec k k') as [->|Hne]; [tauto|].
  simpl. f_equal. apply IH. tauto.
Qed.

Lemma dict_del_set_fresh k v d : dict_mem k d = false -> dict_del k (dict_set k v d) = d.
Proof.
  intros H. rewrite (dict_set_fresh _ _ _ H). unfold dict_del.
  rewrite List.filter_app. fold (dict_del k d). rewrite (dict_del_notin _ _ H).
  simpl. rewrite String.eqb_refl. simpl. apply app_nil_r.
Qed.

Lemma dict_mem_set k v d : dict_mem k (dict_set k v d) = true.
Proof. unfold dict_mem. now rewrite dict_get_set_eq. Qed.

Lemma dict_set_set k v1 v2 d : dict_set k v2 (dict_set k v1 d) = dict_set k v2 d.
Proof.
  unfold dict_set at 1. rewrite dict_mem_set.
  unfold dict_set. destruct (dict_mem k d) eqn:E.
  - rewrite map_map. apply map_ext. intros [k' v']. simpl.
    destruct (String.eqb k k') eqn:E'; simpl; now rewrite E'.
  - rewrite map_app. simpl. rewrite String.eqb_refl. f_equal.
    unfold dict_mem in E. destruct (dict_get k d) eqn:Eg; [discriminate|].
    apply dict_get_None_notin in Eg. clear E.
    induction d as [|[k' v'] d IH]; simpl; [reflexivity|].
    simpl in Eg. destruct (String.eqb_spec k k') as [->|Hne]; [tauto|].
    f_equal. apply IH. tauto.
Qed.

Lemma dict_items_NoDup d : List.NoDup (map fst d) -> dict_items d = d.
Proof.
  unfold dict_items.
  assert (H : forall acc, List.NoDup (map fst (acc ++ d)) ->
            fold_left (fun a kv => dict_set (fst kv) (snd kv) a) d acc = (acc ++ d)%list).
  { induction d as [|[k v] d IH]; intros acc Hn; simpl.
    - now rewrite app_nil_r.
    - assert (Hf : dict_mem k acc = false).
      { unfold dict_mem. destruct (dict_get k acc) eqn:E; [|reflexivity].
        apply dict_get_In in E. rewrite map_app in Hn. simpl in Hn.
        apply List.NoDup_remove_2 in Hn. destruct Hn. rewrite in_app_iff. left.
        change k with (fst (k, a)). apply in_map. exact E. }
      rewrite (dict_set_fresh _ _ _ Hf).
      rewrite IH; rewrite <- app_assoc; [reflexivity|exact Hn]. }
  intros Hn. apply (H [] Hn).
Qed.

Lemma dict_del_NoDup k d : List.NoDup (map fst d) -> List.NoDup (map fst (dict_del k d)).
Proof.
  unfold dict_del. induction d as [|[k' v'] d IH]; simpl; [trivial|].
  intros Hn. inversion Hn as [|? ? Hnot Hnd]; subst.
  destruct (negb (String.eqb k k')); [|now apply IH].
  simpl. constructor; [|now apply IH].
  intros Hin. apply Hnot. apply in_map_iff in Hin as (kv & Hk & Hin).
  apply filter_In in Hin as [Hin _]. rewrite <- Hk. now apply in_map.
Qed.

End DictLaws.

Lemma serve_keeps_keys_unique r (s : trip_store) :
  List.NoDup (map fst s) -> List.NoDup (map fst (snd (serve r s))).
Proof.
  intros H. destruct r as [clock request|trip_id]; simpl.
  - now apply dict_set_NoDup.
  - unfold delete_trip. destruct (negb (dict_mem trip_id s)); simpl; [exact H|].
    now apply dict_del_NoDup.
Qed.

Lemma serve_keeps_filed r (s : trip_store) : filed_by_id s -> filed_by_id (snd (serve r s)).
Proof.
  intros H k record. destruct r as [clock request|trip_id]; simpl.
  - destruct (String.eqb_spec (effective_trip_id clock request) k) as [<-|Hne].
    + rewrite dict_get_set_eq. intros [= <-]. reflexivity.
    + rewrite (dict_get_set_ne _ _ _ _ Hne). apply H.
  - unfold delete_trip. destruct (negb (dict_mem trip_id s)); simpl; [apply H|].
    destruct (String.eqb_spec trip_id k) as [<-|Hne].
    + now rewrite dict_get_del_eq.
    + rewrite (dict_get_del_ne _ _ _ Hne). apply H.
Qed.

Lemma serve_all_invariant rs (s : trip_store) :
  List.NoDup (map fst s) -> filed_by_id s ->
  List.NoDup (map fst (serve_all rs s)) /\ filed_by_id (serve_all rs s).
Proof.
  unfold serve_all. revert s. induction rs as [|r rs IH]; intros s Hn Hf; simpl.
  - split; assumption.
  - apply IH; [now apply serve_keeps_keys_unique|now apply serve_keeps_filed].
Qed.

Lemma store_map_size (s : trip_store) :
  List.NoDup (map fst s) -> size (store_map s) = length s.
Proof.
  unfold store_map.
  assert (H : forall (m : gmap string pyval),
            List.NoDup (map fst s) -> (forall k, In k (map fst s) -> m !! k = None) ->
            size (fold_left (fun m kv => <[fst kv := snd kv]> m) s m)
            = (length s + size m)%nat).
  { induction s as [|[k v] s IH]; intros m Hn Hm; simpl; [reflexivity|].
    inversion Hn as [|? ? Hnot Hnd]; subst.
    rewrite IH; [|exact Hnd|].
    - rewrite map_size_insert_None by (apply Hm; now left). lia.
    - intros j Hj. rewrite lookup_insert_ne.
      + apply Hm. now right.
      + intros ->. contradiction. }
  intros Hn. rewrite (H ∅ Hn); [rewrite map_size_empty; lia|].
  intros k _. apply lookup_empty.
Qed.

(** X9. After any sequence of [save_trip] and [delete_trip] requests on
    the empty store, no id is stored twice, every record is filed under
    the id it carries, and [get_saved_trips] returns the stored records
    in the order of the store, one for each id. *)
Theorem store_keeps_one_record_per_id (requests : list store_request) :
  let saved_trips := serve_all requests saved_trips_initial in
  List.NoDup (map fst saved_trips)
  /\ (forall k record, dict_get k saved_trips = Some record ->
        py_index record "id" = Ok (VStr k))
  /\ get_saved_trips saved_trips = Reply (VList (map snd saved_trips))
  /\ length (map snd saved_trips) = size (store_map saved_trips).
Proof.
  intros saved_trips.
  destruct (serve_all_invariant requests saved_trips_initial) as [Hn Hf].
  { constructor. } { intros k record H. discriminate H. }
  fold saved_trips in Hn, Hf.
  split; [exact Hn|]. split; [exact Hf|]. split.
  - unfold get_saved_trips, dict_values. now rewrite (dict_items_NoDup _ Hn).
  - rewrite length_map. symmetry. now apply store_map_size.
Qed.

(** X10. Saving a trip under an id that is not in the store and deleting
    it again gives the store back as it was, entry for entry; a second
    [delete_trip] of the id is answered 404. *)
Theorem save_then_delete_restores (clock : save_clock) (request : SaveTripRequest)
    (saved_trips : trip_store) :
  let trip_id := effective_trip_id clock request in
  dict_mem trip_id saved_trips = false ->
  let saved := snd (save_trip clock request saved_trips) in
  delete_trip trip_id saved
  = (Reply (VDict [ ("message", VStr "Trip deleted successfully") ]), saved_trips)
  /\ delete_trip trip_id (snd (delete_trip trip_id saved))
     = (HTTPException 404 "Trip not found", saved_trips).
Proof.
  intros trip_id Hfresh saved.
  assert (H1 : delete_trip trip_id saved
               = (Reply (VDict [ ("message", VStr "Trip deleted successfully") ]), saved_trips)).
  { unfold delete_trip, saved, save_trip. cbn [snd]. fold trip_id.
    rewrite dict_mem_set. cbn [negb]. now rewrite (dict_del_set_fresh _ _ _ Hfresh). }
  split; [exact H1|]. rewrite H1. cbn [snd]. unfold delete_trip. now rewrite Hfresh.
Qed.

Lemma save_then_delete_goa :
  delete_trip "goa" (snd (save_trip first_clock goa_save_request saved_trips_initial))
  = (Reply (VDict [ ("message", VStr "Trip deleted successfully") ]), saved_trips_initial)
  /\ delete_trip "goa"
       (snd (delete_trip "goa"
               (snd (save_trip first_clock goa_save_request saved_trips_initial))))
     = (HTTPException 404 "Trip not found", saved_trips_initial).
Proof.
  exact (save_then_delete_restores first_clock goa_save_request saved_trips_initial eq_refl).
Defined.

(** X11. Saving a second time under the same id replaces the whole
    record where it stands: the store is the one a single save of the
    second request would have given, and the record's 'created_at' is the
    time of the second save, the first creation time being lost. *)
Theorem save_again_replaces_record (clock1 clock2 : save_clock)
    (request1 request2 : SaveTripRequest) (saved_trips : trip_store) :
  effective_trip_id clock1 request1 = effective_trip_id clock2 request2 ->
  let once := snd (save_trip clock2 request2 saved_trips) in
  let twice := snd (save_trip clock2 request2 (snd (save_trip clock1 request1 saved_trips))) in
  twice = once
  /\ exists record,
       dict_get (effective_trip_id clock2 request2) twice = Some record
       /\ py_index record "name" = Ok (VStr (request_name request2))
       /\ py_index record "created_at" = Ok (VStr (created_text clock2)).
Proof.
  intros Hid once twice. split.
  - unfold twice, once, save_trip. cbn [snd]. rewrite Hid. apply dict_set_set.
  - exists (trip_record clock2 request2). split; [|split; reflexivity].
    unfold twice, save_trip. cbn [snd]. apply dict_get_set_eq.
Qed.

Lemma save_again_goa :
  snd (save_trip second_clock goa_save_request
         (snd (save_trip first_clock goa_save_request saved_trips_initial)))
  = snd (save_trip second_clock goa_save_request saved_trips_initial)
  /\ exists record,
       dict_get "goa"
         (snd (save_trip second_clock goa_save_request
                 (snd (save_trip first_clock goa_save_request saved_trips_initial))))
       = Some record
       /\ py_index record "name" = Ok (VStr "Goa")
       /\ py_index record "created_at" = Ok (VStr "2025-01-02T00:00:00").
Proof.
  exact (save_again_replaces_record first_clock second_clock goa_save_request goa_save_request
           saved_trips_initial eq_refl).
Defined.

(* ===================================================================== *)
(** * The frontend format of a budget validation *)
(* ===================================================================== *)



(* ===================================================================== *)
(** * Patterns of the parsers that are never reached *)
(* ===================================================================== *)

Lemma same_rest_app l1 l2 l1' l2' :
  same_rest l1 l2 -> same_rest l1' l2' -> same_rest (l1 ++ l1') (l2 ++ l2').
Proof. apply Forall2_app. Qed.

Lemma same_rest_flat_map (f g : mstate -> list mstate) l1 l2 :
  (forall x y, rest x = rest y -> same_rest (f x) (g y)) ->
  same_rest l1 l2 -> same_rest (flat_map f l1) (flat_map g l2).
Proof.
  intros Hfg H. induction H as [|x y l1 l2 Hxy _ IH]; simpl; [constructor|].
  apply same_rest_app; [now apply Hfg|exact IH].
Qed.

Lemma star_iter_same_rest f g :
  (forall x y, rest x = rest y -> same_rest (f x) (g y)) ->
  forall fuel x y, rest x = rest y -> same_rest (star_iter f fuel x) (star_iter g fuel y).
Proof.
  intros Hfg. induction fuel as [|fuel IH]; intros x y Hxy; simpl.
  - constructor; [exact Hxy|constructor].
  - apply same_rest_app; [|constructor; [exact Hxy|constructor]].
    apply same_rest_flat_map; [|now apply Hfg].
    intros x' y' Hxy'. rewrite Hxy, Hxy'.
    destruct (_ <? _)%nat; [now apply IH|constructor].
Qed.

(** What a pattern can read does not depend on the groups captured so
    far. *)
Lemma rmatch_same_rest r : forall x y, rest x = rest y -> same_rest (rmatch r x) (rmatch r y).
Proof.
  induction r as [|k|a IHa b IHb|a IHa|a IHa|n a IHa]; intros x y Hxy; simpl.
  - constructor; [exact Hxy|constructor].
  - rewrite Hxy. destruct (rest y) as [|c s']; [constructor|].
    destruct (class_mem k c); constructor; [reflexivity|constructor].
  - apply same_rest_flat_map; [exact IHb|now apply IHa].
  - apply same_rest_app; [now apply IHa|constructor; [exact Hxy|constructor]].
  - rewrite Hxy. now apply star_iter_same_rest.
  - specialize (IHa x y Hxy). unfold same_rest in *.
    induction IHa; simpl; constructor; [assumption|assumption].
Qed.

Lemma same_rest_In l1 l2 x :
  same_rest l1 l2 -> In x l1 -> exists y, In y l2 /\ rest y = rest x.
Proof.
  intros H. induction H as [|a b l1 l2 Hab _ IH]; simpl; [tauto|].
  intros [<-|Hin]; [exists b; split; [now left|now symmetry]|].
  destruct (IH Hin) as (y & Hy & Hr). exists y. split; [now right|exact Hr].
Qed.

Lemma reaches_from r st st' : In st' (rmatch r st) -> reaches r (rest st) (rest st').
Proof.
  intros Hin. unfold reaches.
  apply (same_rest_In _ (rmatch r {| rest := rest st; caps := [] |})) in Hin; [exact Hin|].
  now apply rmatch_same_rest.
Qed.

Lemma reaches_to r s t st :
  rest st = s -> reaches r s t -> exists st', In st' (rmatch r st) /\ rest st' = t.
Proof.
  intros Hs (x & Hin & Hx). subst t.
  apply (same_rest_In _ (rmatch r st)) in Hin; [exact Hin|].
  now apply rmatch_same_rest.
Qed.

Lemma reaches_Seq a b s t : reaches (Seq a b) s t <-> exists u, reaches a s u /\ reaches b u t.
Proof.
  split.
  - intros (st & Hin & Hst). simpl in Hin. apply in_flat_map in Hin as (st1 & H1 & H2).
    exists (rest st1). split; [apply (reaches_from a _ _ H1)|].
    rewrite <- Hst. apply (reaches_from b _ _ H2).
  - intros (u & (st1 & H1 & Hu) & Hb).
    destruct (reaches_to b u t st1 Hu Hb) as (st2 & H2 & Ht).
    exists st2. split; [|exact Ht]. simpl. apply in_flat_map. eauto.
Qed.

Lemma reaches_Opt a s t : reaches (Opt a) s t <-> reaches a s t \/ t = s.
Proof.
  split.
  - intros (st & Hin & Hst). simpl in Hin. apply in_app_iff in Hin as [Hin|[<-|[]]].
    + left. now exists st.
    + right. now symmetry.
  - intros [(st & Hin & Hst)| ->].
    + exists st. split; [|exact Hst]. simpl. apply in_app_iff. now left.
    + exists {| rest := s; caps := [] |}.
      split; [simpl; apply in_app_iff; right; now left|reflexivity].
Qed.

Lemma reaches_Group n a s t : reaches (Group n a) s t <-> reaches a s t.
Proof.
  split.
  - intros (st & Hin & Hst). simpl in Hin. apply in_map_iff in Hin as (st1 & <- & H1).
    now exists st1.
  - intros (st & Hin & Hst). eexists. split.
    + simpl. apply in_map_iff. exists st. split; [reflexivity|exact Hin].
    + exact Hst.
Qed.

Lemma reaches_Star_refl a s : reaches (Star a) s s.
Proof.
  exists {| rest := s; caps := [] |}. split; [|reflexivity]. simpl.
  destruct (String.length s); simpl; [now left|].
  apply in_app_iff. right. now left.
Qed.

Lemma reaches_Chr k c s : class_mem k c = true -> reaches (Chr k) (String c s) s.
Proof.
  intros H. exists {| rest := s; caps := [] |}. split; [simpl; rewrite H; now left|reflexivity].
Qed.

Lemma reaches_Chr_inv k s t :
  reaches (Chr k) s t -> exists c, s = String c t /\ class_mem k c = true.
Proof.
  intros (st & Hin & Hst). simpl in Hin. destruct s as [|c s']; [destruct Hin|].
  destruct (class_mem k c) eqn:E; [|destruct Hin].
  destruct Hin as [<-|[]]. simpl in Hst. subst. eauto.
Qed.

(** [re.search] finds a match exactly when the pattern matches at some
    position. *)
Lemma search_matches r s : search r s <> None <-> matches_in r s.
Proof.
  induction s as [|c s IH]; simpl.
  - destruct (rmatch r _) as [|st l] eqn:E.
    + split; [congruence|]. intros (pre & u & t & Hs & (st & Hin & _)).
      destruct pre; [|rewrite str_app_cons in Hs; discriminate].
      rewrite str_app_nil_l in Hs. subst u. rewrite E in Hin. destruct Hin.
    + split; [|congruence]. intros _. exists "", "", (rest st). split; [reflexivity|].
      exists st. rewrite E. split; [now left|reflexivity].
  - destruct (rmatch r _) as [|st l] eqn:E.
    + rewrite IH. split.
      * intros (pre & u & t & Hs & Hr). exists (String c pre), u, t.
        now rewrite Hs, str_app_cons.
      * intros (pre & u & t & Hs & Hr). destruct pre as [|c' pre].
        -- rewrite str_app_nil_l in Hs. subst u.
           destruct Hr as (st & Hin & _). rewrite E in Hin. destruct Hin.
        -- rewrite str_app_cons in Hs. injection Hs as -> ->. now exists pre, u, t.
    + split; [|congruence]. intros _. exists "", (String c s), (rest st). split; [reflexivity|].
      exists st. rewrite E. split; [now left|reflexivity].
Qed.

Lemma search_none_matches r s : search r s = None <-> ~ matches_in r s.
Proof.
  rewrite <- search_matches. destruct (search r s).
  - split; [discriminate|]. intros H. destruct H. discriminate.
  - split; [intros _ H; now apply H|reflexivity].
Qed.

Lemma uses_only_any r : uses_only (fun _ => true) r = true.
Proof. induction r; simpl; auto. now rewrite IHr1, IHr2. Qed.

(** What a match reads is a prefix of the text. *)
Lemma reaches_prefix r s t : reaches r s t -> exists u, s = u ++ t.
Proof.
  intros (st & Hin & Hst).
  destruct (rmatch_reads (fun _ => true) (fun _ => true) (fun _ _ _ _ => eq_refl) r
              (uses_only_any r) _ _ Hin) as (u & Hu & _).
  exists u. simpl in Hu. now rewrite Hst in Hu.
Qed.

Lemma reaches_digits r s t :
  uses_only digit_class r = true -> reaches r s t ->
  exists u, s = u ++ t /\ str_forall is_digit u = true.
Proof.
  intros Hok (st & Hin & Hst).
  destruct (rmatch_reads digit_class is_digit digit_class_sound r Hok _ _ Hin) as (u & Hu & Pu).
  exists u. simpl in Hu. now rewrite Hst in Hu.
Qed.

Lemma digits_last w :
  w <> "" -> str_forall is_digit w = true ->
  exists w' c, w = w' ++ String c "" /\ is_digit c = true.
Proof.
  induction w as [|a w IH]; [congruence|]. intros _ H. simpl in H.
  apply andb_prop in H as [Ha Hw]. destruct w as [|b w].
  - exists "", a. split; [reflexivity|exact Ha].
  - destruct (IH ltac:(discriminate) Hw) as (w' & c & Hw' & Hc).
    exists (String a w'), c. split; [now rewrite str_app_cons, <- Hw'|exact Hc].
Qed.

(** Where the range pattern matches, the first pattern matches from the
    upper bound of the range on. *)
Lemma distance_re3_in_re1 s : matches_in distance_re3 s -> matches_in distance_re1 s.
Proof.
  intros (pre & u & t & Hs & Hr). unfold distance_re3 in Hr. cbn [seq_all] in Hr.
  apply reaches_Seq in Hr as (u1 & H1 & Hr).
  apply reaches_Seq in Hr as (u2 & H2 & Hr).
  apply reaches_Seq in Hr as (u3 & H3 & Hr).
  apply reaches_Group in H3.
  apply reaches_prefix in H1 as (p1 & Hp1).
  apply reaches_prefix in H2 as (p2 & Hp2).
  exists (pre ++ p1 ++ p2), u2, t. split.
  - rewrite Hs, Hp1, Hp2. now rewrite !str_app_assoc.
  - unfold distance_re1. cbn [seq_all].
    apply reaches_Seq. exists u3. split; [|exact Hr].
    apply reaches_Group. unfold number_re. cbn [seq_all].
    apply reaches_Seq. exists u3. split; [exact H3|].
    apply reaches_Seq. exists u3. split; [apply reaches_Star_refl|].
    apply reaches_Opt. now right.
Qed.

(** Where the pattern of decimal hours matches, the first pattern
    matches from the last digit of the number on. *)
Lemma duration_re2_in_re1 s : matches_in duration_re2 s -> matches_in duration_re1 s.
Proof.
  intros (pre & u & t & Hs & Hr). unfold duration_re2 in Hr. cbn [seq_all] in Hr.
  apply reaches_Seq in Hr as (u2 & Hg & Hr).
  apply reaches_Seq in Hr as (u3 & Hsp & Hh).
  apply reaches_Group in Hg. apply reaches_Seq in Hg as (u1 & Hd & Ho).
  assert (Htail : forall v, reaches (rep_range 1 2 digit) v u2 ->
            reaches duration_re1 v t).
  { intros v Hv. unfold duration_re1. cbn [seq_all].
    apply reaches_Seq. exists u2. split; [now apply reaches_Group|].
    apply reaches_Seq. exists u3. split; [exact Hsp|].
    apply reaches_Seq. exists t. split; [exact Hh|].
    apply reaches_Seq. exists t. split; [apply reaches_Star_refl|].
    apply reaches_Opt. now right. }
  apply reaches_Opt in Ho as [Ho| ->].
  - apply reaches_Seq in Ho as (x & Hdot & Hp).
    apply reaches_prefix in Hd as (p1 & Hp1).
    apply reaches_Chr_inv in Hdot as (c & Hc & _).
    unfold Plus in Hp. apply reaches_Seq in Hp as (y & Hy & Hstar).
    apply reaches_Chr_inv in Hy as (c1 & Hc1 & Hd1).
    apply reaches_digits in Hstar as (q & Hq & Pq); [|reflexivity].
    destruct (digits_last (String c1 q)) as (w' & c' & Hw' & Hc'); [discriminate| |].
    { simpl. simpl in Hd1. now rewrite Hd1, Pq. }
    exists (pre ++ p1 ++ String c w'), (String c' u2), t. split.
    + rewrite Hs, Hp1, Hc, Hc1, Hq. rewrite <- (str_app_cons c1 q u2), Hw'.
      rewrite str_app_snoc. rewrite <- (str_app_cons c w').
      now rewrite !str_app_assoc.
    + apply Htail. simpl. apply reaches_Seq. exists u2.
      split; [now apply reaches_Chr|]. apply reaches_Opt. now right.
  - exists pre, u, t. split; [exact Hs|]. now apply Htail.
Qed.

(** X13. The third pattern of [_parse_distance], the range
    [(\d{1,4})-(\d{1,4})\s*k?m], is never reached: every text it matches
    is matched by the first pattern, from the upper bound of the range
    on.  The function is the cascade of the other three patterns, and
    the average of a range is never computed: '450-500 km' is read as
    500. *)
Theorem distance_range_pattern_never_read (text : string) :
  parse_distance_body text
  = (if (String.length text =? 0)%nat then Ok fzero
     else
       let text := str_lower text in
       match search distance_re1 text with
       | Some m => float_of_string (remove_commas (group_text 1 m))
       | None =>
       match search distance_re2 text with
       | Some m => float_of_string (remove_commas (group_text 1 m))
       | None =>
       match search distance_re4 text with
       | Some m => float_of_string (remove_commas (group_text 1 m))
       | None => Ok fzero
       end end end)
  /\ (search distance_re3 text <> None -> search distance_re1 text <> None)
  /\ _parse_distance "450-500 km" = float_of_int 500.
Proof.
  split; [|split].
  - unfold parse_distance_body. destruct (_ =? _)%nat; [reflexivity|]. cbv zeta.
    destruct (search distance_re1 (str_lower text)) eqn:E1; [reflexivity|].
    destruct (search distance_re2 (str_lower text)); [reflexivity|].
    destruct (search distance_re3 (str_lower text)) eqn:E3; [|reflexivity].
    exfalso. apply search_none_matches in E1. apply E1, distance_re3_in_re1.
    apply search_matches. congruence.
  - intros H. apply search_matches, distance_re3_in_re1, search_matches, H.
  - vm_compute. reflexivity.
Qed.

(** The second pattern of [_parse_duration] is never reached. *)
Lemma parse_duration_body_cascade float_str text :
  parse_duration_body float_str text
  = (if (String.length text =? 0)%nat then Ok "N/A"
     else
       let text := str_lower text in
       match search duration_re1 text with
       | Some m =>
           do hours <- int_of_string (group_text 1 m);
           do minutes <- match group 2 m with
                         | Some g =>
                             if (String.length g =? 0)%nat then Ok 0 else int_of_string g
                         | None => Ok 0
                         end;
           if 0 <? minutes
           then Ok (str_of_int hours ++ "h " ++ str_of_int minutes ++ "m")
           else Ok (str_of_int hours ++ "h")
       | None =>
       match search duration_re3 text with
       | Some m =>
           do minutes <- int_of_string (group_text 1 m);
           let hours := minutes / 60 in
           let mins := minutes mod 60 in
           if 0 <? hours
           then Ok (str_of_int hours ++ "h " ++ str_of_int mins ++ "m")
           else Ok (str_of_int mins ++ "m")
       | None => Ok "N/A"
       end end).
Proof.
  unfold parse_duration_body. destruct (_ =? _)%nat; [reflexivity|]. cbv zeta.
  destruct (search duration_re1 (str_lower text)) eqn:E1; [reflexivity|].
  destruct (search duration_re2 (str_lower text)) eqn:E2; [|reflexivity].
  exfalso. apply search_none_matches in E1. apply E1, duration_re2_in_re1.
  apply search_matches. congruence.
Qed.

Lemma parse_duration_any_float_str f g text : _parse_duration f text = _parse_duration g text.
Proof. unfold _parse_duration. now rewrite !parse_duration_body_cascade. Qed.

(** X14. The second pattern of [_parse_duration], the decimal hours
    [(\d{1,2}(?:\.\d+)?)\s*h(?:ours?)?], is never reached: every text it
    matches is matched by the first pattern, from the last digit of the
    number on.  The result does not depend on how a float is printed, no
    fraction of an hour is ever read, and '5.5 hours' is read as '5h'. *)
Theorem duration_decimal_pattern_never_read (float_str1 float_str2 : float -> string)
    (text : string) :
  _parse_duration float_str1 text = _parse_duration float_str2 text
  /\ (search duration_re2 text <> None -> search duration_re1 text <> None)
  /\ _parse_duration float_str1 "5.5 hours" = Ok "5h".
Proof.
  split; [apply parse_duration_any_float_str|]. split.
  - intros H. apply search_matches, duration_re2_in_re1, search_matches, H.
  - rewrite (parse_duration_any_float_str float_str1 (fun _ => "")). vm_compute. reflexivity.
Qed.

(* ===================================================================== *)
(** * Floats: ratios that do not round to zero *)
(* ===================================================================== *)

Lemma digits2_pos_size p : digits2_pos p = Pos.size p.
Proof. induction p as [p IH|p IH|]; simpl; now rewrite ?IH. Qed.

Lemma Zdigits2_log2 m : 0 < m -> Zdigits2 m = Z.log2 m + 1.
Proof.
  destruct m as [|p|p]; try lia. intros _. simpl.
  destruct p as [p|p|]; simpl; rewrite ?digits2_pos_size; lia.
Qed.

Lemma shr_1_half mrs : 0 <= shr_m mrs -> shr_m (shr_1 mrs) = shr_m mrs / 2.
Proof.
  destruct mrs as [m r s]. simpl. intros Hm.
  destruct m as [|[p|p|]|p]; cbn [shr_m]; try reflexivity; try lia.
  - apply Z.div_unique with 1; lia.
  - apply Z.div_unique with 0; lia.
Qed.

Lemma iter_shr_1_div p : forall mrs,
  0 <= shr_m mrs -> shr_m (SpecFloat.iter_pos shr_1 p mrs) = shr_m mrs / 2 ^ Z.pos p.
Proof.
  assert (Hnn : forall mrs, 0 <= shr_m mrs -> 0 <= shr_m (shr_1 mrs)).
  { intros mrs H. rewrite shr_1_half by exact H. apply Z.div_pos; lia. }
  induction p as [p IH|p IH|]; intros mrs H; simpl.
  - rewrite IH, IH, shr_1_half; try exact H.
    + rewrite !Z.div_div by lia. f_equal.
      replace (Z.pos p~1) with (1 + Z.pos p + Z.pos p) by lia.
      rewrite !Z.pow_add_r by lia. change (2 ^ 1) with 2. lia.
    + now apply Hnn.
    + rewrite IH by now apply Hnn. apply Z.div_pos; [now apply Hnn|lia].
  - rewrite IH, IH; try exact H.
    + rewrite !Z.div_div by lia. f_equal.
      replace (Z.pos p~0) with (Z.pos p + Z.pos p) by lia.
      rewrite !Z.pow_add_r by lia. lia.
    + rewrite IH by exact H. apply Z.div_pos; [exact H|lia].
  - rewrite shr_1_half by exact H. reflexivity.
Qed.

(** A mantissa that is not zero, of a number not below the least double,
    is not shifted to zero. *)
Lemma shr_fexp_pos m e l :
  1 <= m -> -1074 < Zdigits2 m + e ->
  1 <= shr_m (fst (shr_fexp prec emax m e l)) /\ -1074 <= snd (shr_fexp prec emax m e l).
Proof.
  intros Hm Hk. unfold shr_fexp, shr.
  rewrite Zdigits2_log2 in * by lia.
  assert (Hlog : 2 ^ Z.log2 m <= m) by (apply Z.log2_spec; lia).
  unfold SpecFloat.fexp, SpecFloat.emin, prec, emax.
  assert (Hrec : shr_m (shr_record_of_loc m l) = m) by (destruct l as [|[]]; reflexivity).
  destruct (Z.max (Z.log2 m + 1 + e - 53) (3 - 1024 - 53) - e) as [|p|p] eqn:En; simpl.
  - rewrite Hrec. lia.
  - rewrite iter_shr_1_div by (rewrite Hrec; lia). rewrite Hrec. split; [|lia].
    apply Z.div_le_lower_bound; [lia|]. rewrite Z.mul_1_r.
    apply Z.le_trans with (2 ^ Z.log2 m); [|exact Hlog].
    apply Z.pow_le_mono_r; lia.
  - rewrite Hrec. lia.
Qed.

Lemma binary_round_aux_nonzero mx ex lx :
  1 <= mx -> -1074 < Zdigits2 mx + ex ->
  binary_round_aux prec emax false mx ex lx <> S754_zero false.
Proof.
  intros Hm Hk. unfold binary_round_aux.
  destruct (shr_fexp_pos mx ex lx Hm Hk) as [H1 H2].
  destruct (shr_fexp prec emax mx ex lx) as [mrs' e']. simpl in H1, H2.
  set (mx' := round_nearest_even (shr_m mrs') (loc_of_shr_record mrs')).
  assert (Hmx' : 1 <= mx').
  { unfold mx', round_nearest_even.
    destruct (loc_of_shr_record mrs') as [|[]]; try lia. destruct (Z.even _); lia. }
  assert (Hk' : -1074 < Zdigits2 mx' + e').
  { rewrite Zdigits2_log2 by lia. pose proof (Z.log2_nonneg mx'). lia. }
  destruct (shr_fexp_pos mx' e' loc_Exact Hmx' Hk') as [H3 _].
  destruct (shr_fexp prec emax mx' e' loc_Exact) as [mrs'' e'']. simpl in H3.
  destruct (shr_m mrs''); [lia| |lia].
  destruct (_ <=? _); discriminate.
Qed.

Lemma shiftl_or_zero n s :
  0 <= s ->
  match s with Z.pos _ => Z.shiftl n s | 0 => n | Z.neg _ => 0 end = n * 2 ^ s.
Proof.
  intros Hs. destruct s as [|p|p]; [|apply Z.shiftl_mul_pow2|]; lia.
Qed.

(** The double nearest to [n/d] is not zero when [n/d] is not below the
    least double. *)
Lemma round_ratio_nonzero n d :
  1 <= n -> 1 <= d <= n * 2 ^ 1074 -> round_ratio n d <> fzero.
Proof.
  intros Hn Hd. unfold round_ratio. destruct n as [|p|p]; try lia.
  unfold SFdiv_core_binary.
  rewrite !Zdigits2_log2 by lia.
  set (n := Z.pos p) in *.
  unfold SpecFloat.fexp, SpecFloat.emin, prec, emax.
  set (e' := Z.min (Z.max (Z.log2 n + 1 + 0 - (Z.log2 d + 1 + 0) - 53) (3 - 1024 - 53)) (0 - 0)).
  assert (He' : -1074 <= e' <= 0) by (unfold e'; lia).
  set (s := 0 - 0 - e').
  set (m' := match s with Z.pos _ => Z.shiftl n s | 0 => n | Z.neg _ => 0 end).
  assert (Hs : 0 <= s) by (unfold s; lia).
  assert (Hm' : m' = n * 2 ^ s) by (apply shiftl_or_zero; exact Hs).
  pose proof (Z.log2_spec n ltac:(lia)) as [Hn1 Hn2].
  pose proof (Z.log2_spec d ltac:(lia)) as [Hd1 Hd2].
  pose proof (Z.log2_nonneg n) as Hln. pose proof (Z.log2_nonneg d) as Hld.
  assert (Hq : exists j, 0 <= j /\ -1074 < j + 1 + e' /\ d * 2 ^ j <= m').
  { rewrite Hm'.
    destruct (Z_le_gt_dec (-1074) (Z.log2 n - Z.log2 d - 53)) as [Hc|Hc].
    - (* the quotient has 53 digits or more *)
      exists (s + Z.log2 n - Z.log2 d - 1).
      assert (0 <= s + Z.log2 n - Z.log2 d - 1) by (unfold s, e'; lia).
      split; [lia|]. split; [unfold s, e'; lia|].
      replace (s + Z.log2 n - Z.log2 d - 1) with ((s + Z.log2 n) - (Z.log2 d + 1)) by lia.
      assert (Hle : d * 2 ^ (s + Z.log2 n - (Z.log2 d + 1)) * 2 ^ (Z.log2 d + 1)
                    <= n * 2 ^ s * 2 ^ (Z.log2 d + 1)).
      { rewrite <- Z.mul_assoc, <- Z.pow_add_r by lia.
        replace (s + Z.log2 n - (Z.log2 d + 1) + (Z.log2 d + 1)) with (Z.log2 n + s) by lia.
        rewrite !Z.pow_add_r by lia. change (2 ^ 1) with 2.
        assert (Hd2' : d < 2 ^ Z.log2 d * 2)
          by (rewrite Z.mul_comm, <- Z.pow_succ_r; [exact Hd2|lia]).
        assert (0 < 2 ^ s) by (apply Z.pow_pos_nonneg; lia).
        assert (0 < 2 ^ Z.log2 d) by (apply Z.pow_pos_nonneg; lia).
        apply Z.le_trans with (d * (n * 2 ^ s)).
        - apply Z.mul_le_mono_nonneg_l; [lia|]. apply Z.mul_le_mono_nonneg_r; lia.
        - rewrite (Z.mul_comm d). apply Z.mul_le_mono_nonneg_l; [nia|lia]. }
      apply Z.mul_le_mono_pos_r in Hle; [exact Hle|apply Z.pow_pos_nonneg; lia].
    - exists 0. assert (s = 1074) by (unfold s, e'; lia). subst s.
      split; [lia|]. split; [lia|]. rewrite Z.pow_0_r, Z.mul_1_r. replace (0 - 0 - e') with 1074 by lia. lia. }
  destruct Hq as (j & Hj & Hk & Hle).
  pose proof (Z_div_mod m' d ltac:(lia)) as Hdiv.
  destruct (Z.div_eucl m' d) as [q r]. destruct Hdiv as [Hqr Hr].
  assert (Hpj : 0 < 2 ^ j) by (apply Z.pow_pos_nonneg; lia).
  assert (Hqj : 2 ^ j <= q) by nia.
  apply binary_round_aux_nonzero; [lia|].
  rewrite Zdigits2_log2 by lia.
  assert (j <= Z.log2 q) by (apply Z.log2_le_pow2; lia).
  lia.
Qed.

(* ===================================================================== *)
(** * What the parsers read and return *)
(* ===================================================================== *)

Lemma reaches_chars (ok : cclass -> bool) (p : ascii -> bool) r s t :
  (forall k c, ok k = true -> class_mem k c = true -> p c = true) ->
  uses_only ok r = true -> reaches r s t ->
  exists u, s = u ++ t /\ str_forall p u = true.
Proof.
  intros Hs Hok (st & Hin & Hst).
  destruct (rmatch_reads ok p Hs r Hok _ _ Hin) as (u & Hu & Pu).
  exists u. simpl in Hu. now rewrite Hst in Hu.
Qed.

Lemma grouped_class_sound k c :
  grouped_class k = true -> class_mem k c = true -> grouped_char c = true.
Proof.
  unfold grouped_char. destruct k as [| |c']; simpl; try discriminate.
  - intros _ ->. reflexivity.
  - intros H Hc. apply Ascii.eqb_eq in Hc. subst c'. rewrite H. apply orb_true_r.
Qed.

Section GroupTexts.

Variable Q : string -> Prop.
Variable n : nat.

Lemma star_iter_group_reads f :
  (forall st st', In st' (f st) -> caps_read Q n st -> caps_read Q n st') ->
  forall fuel st st', In st' (star_iter f fuel st) -> caps_read Q n st -> caps_read Q n st'.
Proof.
  intros Hf. induction fuel as [|fuel IH]; intros st st' Hin Hst; simpl in Hin.
  - now destruct Hin as [<-|[]].
  - apply in_app_iff in Hin as [Hin|[<-|[]]]; [|exact Hst].
    apply in_flat_map in Hin as (st1 & H1 & H2).
    destruct (_ <? _)%nat; [|destruct H2].
    eapply IH; [exact H2|]. eapply Hf; [exact H1|exact Hst].
Qed.

Lemma rmatch_group_reads r :
  group_reads Q n r ->
  forall st st', In st' (rmatch r st) -> caps_read Q n st -> caps_read Q n st'.
Proof.
  induction r as [|k|a IHa b IHb|a IHa|a IHa|m a IHa]; simpl; intros Hok st st' Hin Hst.
  - now destruct Hin as [<-|[]].
  - destruct (rest st) as [|c s']; [destruct Hin|].
    destruct (class_mem k c); [|destruct Hin].
    now destruct Hin as [<-|[]].
  - destruct Hok as [Ha Hb].
    apply in_flat_map in Hin as (st1 & H1 & H2).
    eapply (IHb Hb); [exact H2|]. eapply (IHa Ha); [exact H1|exact Hst].
  - apply in_app_iff in Hin as [Hin|[<-|[]]]; [|exact Hst].
    eapply IHa; eauto.
  - eapply star_iter_group_reads; [|exact Hin|exact Hst]. intros; eapply IHa; eauto.
  - destruct Hok as [Hm Ha].
    apply in_map_iff in Hin as (st1 & <- & H1).
    intros g. simpl. destruct (n =? m)%nat eqn:E.
    + intros [= <-]. apply Nat.eqb_eq in E. apply Hm; [now symmetry|].
      exact (reaches_from a _ _ H1).
    + apply (IHa Ha st st1 H1 Hst).
Qed.

Lemma search_group_reads r :
  group_reads Q n r ->
  forall s m g, search r s = Some m -> group n m = Some g -> Q g.
Proof.
  intros Hok. induction s as [|c s IH]; intros m g; simpl.
  - destruct (rmatch r _) as [|st l] eqn:E; [discriminate|].
    intros [= <-]. apply (rmatch_group_reads r Hok {| rest := ""; caps := [] |} st).
    + rewrite E. now left.
    + intros g'. discriminate.
  - destruct (rmatch r _) as [|st l] eqn:E; [apply IH|].
    intros [= <-]. apply (rmatch_group_reads r Hok {| rest := String c s; caps := [] |} st).
    + rewrite E. now left.
    + intros g'. discriminate.
Qed.

Lemma star_iter_keeps_group f :
  (forall st st', In st' (f st) -> group n (caps st) <> None -> group n (caps st') <> None) ->
  forall fuel st st', In st' (star_iter f fuel st) ->
    group n (caps st) <> None -> group n (caps st') <> None.
Proof.
  intros Hf. induction fuel as [|fuel IH]; intros st st' Hin Hst; simpl in Hin.
  - now destruct Hin as [<-|[]].
  - apply in_app_iff in Hin as [Hin|[<-|[]]]; [|exact Hst].
    apply in_flat_map in Hin as (st1 & H1 & H2).
    destruct (_ <? _)%nat; [|destruct H2].
    eapply IH; [exact H2|]. eapply Hf; [exact H1|exact Hst].
Qed.

Lemma rmatch_keeps_group r :
  forall st st', In st' (rmatch r st) ->
    group n (caps st) <> None -> group n (caps st') <> None.
Proof.
  induction r as [|k|a IHa b IHb|a IHa|a IHa|m a IHa]; simpl; intros st st' Hin Hst.
  - now destruct Hin as [<-|[]].
  - destruct (rest st) as [|c s']; [destruct Hin|].
    destruct (class_mem k c); [|destruct Hin].
    now destruct Hin as [<-|[]].
  - apply in_flat_map in Hin as (st1 & H1 & H2).
    eapply IHb; [exact H2|]. eapply IHa; [exact H1|exact Hst].
  - apply in_app_iff in Hin as [Hin|[<-|[]]]; [|exact Hst].
    eapply IHa; eauto.
  - eapply star_iter_keeps_group; [|exact Hin|exact Hst]. intros; eapply IHa; eauto.
  - apply in_map_iff in Hin as (st1 & <- & H1). simpl.
    destruct (n =? m)%nat; [discriminate|]. eapply IHa; eauto.
Qed.

Lemma rmatch_sets_group r :
  sets_group n r = true ->
  forall st st', In st' (rmatch r st) -> group n (caps st') <> None.
Proof.
  induction r as [|k|a IHa b IHb|a IHa|a IHa|m a IHa]; simpl; try discriminate;
    intros Hs st st' Hin.
  - apply in_flat_map in Hin as (st1 & H1 & H2).
    apply orb_prop in Hs as [Ha|Hb].
    + eapply rmatch_keeps_group; [exact H2|]. eapply IHa; eauto.
    + eapply IHb; eauto.
  - apply in_map_iff in Hin as (st1 & <- & H1). simpl.
    destruct (n =? m)%nat; [discriminate|]. simpl in Hs. eapply IHa; eauto.
Qed.

Lemma search_sets_group r :
  sets_group n r = true ->
  forall s m, search r s = Some m -> exists g, group n m = Some g.
Proof.
  intros Hs. induction s as [|c s IH]; intros m; simpl.
  - destruct (rmatch r _) as [|st l] eqn:E; [discriminate|].
    intros [= <-].
    pose proof (rmatch_sets_group r Hs {| rest := ""; caps := [] |} st) as H.
    rewrite E in H. specialize (H (or_introl eq_refl)).
    destruct (group n (caps st)) as [g|]; [now exists g|congruence].
  - destruct (rmatch r _) as [|st l] eqn:E; [apply IH|].
    intros [= <-].
    pose proof (rmatch_sets_group r Hs {| rest := String c s; caps := [] |} st) as H.
    rewrite E in H. specialize (H (or_introl eq_refl)).
    destruct (group n (caps st)) as [g|]; [now exists g|congruence].
Qed.

End GroupTexts.

(** ** Numerals *)

Lemma remove_commas_app s t : remove_commas (s ++ t) = remove_commas s ++ remove_commas t.
Proof.
  unfold remove_commas. induction s as [|c s IH]; [reflexivity|].
  rewrite str_app_cons. simpl. destruct (negb _); [|exact IH].
  now rewrite str_app_cons, IH.
Qed.

Lemma digit_not_comma c : is_digit c = true -> Ascii.eqb c "," = false.
Proof. destruct c as [[] [] [] [] [] [] [] []]; vm_compute; congruence. Qed.

Lemma digit_not_point c : is_digit c = true -> Ascii.eqb c "." = false.
Proof. destruct c as [[] [] [] [] [] [] [] []]; vm_compute; congruence. Qed.

Lemma remove_commas_digits s : str_forall is_digit s = true -> remove_commas s = s.
Proof.
  unfold remove_commas. induction s as [|c s IH]; [reflexivity|]. simpl.
  intros H. apply andb_prop in H as [Hc Hs].
  rewrite (digit_not_comma _ Hc). simpl. now rewrite IH.
Qed.

Lemma remove_commas_grouped s :
  str_forall grouped_char s = true -> str_forall is_digit (remove_commas s) = true.
Proof.
  unfold remove_commas. induction s as [|c s IH]; [reflexivity|]. simpl.
  intros H. apply andb_prop in H as [Hc Hs]. unfold grouped_char in Hc.
  destruct (Ascii.eqb c ",") eqn:E; simpl; [now apply IH|].
  rewrite orb_false_r in Hc. now rewrite Hc, IH.
Qed.

Lemma split_point_digits s :
  str_forall is_digit s = true -> split_point s = (s, None).
Proof.
  induction s as [|c s IH]; [reflexivity|]. simpl.
  intros H. apply andb_prop in H as [Hc Hs].
  now rewrite (digit_not_point _ Hc), (IH Hs).
Qed.

Lemma split_point_digits_point s f :
  str_forall is_digit s = true -> split_point (s ++ String "." f) = (s, Some f).
Proof.
  induction s as [|c s IH]; [reflexivity|]. rewrite str_app_cons. simpl.
  intros H. apply andb_prop in H as [Hc Hs].
  now rewrite (digit_not_point _ Hc), (IH Hs).
Qed.

Lemma str_filter_app p s t : str_filter p (s ++ t) = str_filter p s ++ str_filter p t.
Proof.
  induction s as [|c s IH]; [reflexivity|]. rewrite str_app_cons. simpl.
  destruct (p c); [now rewrite str_app_cons, IH|exact IH].
Qed.

Lemma str_filter_all p s : str_forall p s = true -> str_filter p s = s.
Proof.
  induction s as [|c s IH]; [reflexivity|]. simpl.
  intros H. apply andb_prop in H as [-> Hs]. now rewrite IH.
Qed.

Lemma str_filter_digits_commas s :
  str_filter is_digit (remove_commas s) = str_filter is_digit s.
Proof.
  unfold remove_commas. induction s as [|c s IH]; [reflexivity|]. simpl.
  destruct (Ascii.eqb c ",") eqn:E; simpl.
  - destruct (is_digit c) eqn:Hc; [|exact IH].
    now rewrite (digit_not_comma _ Hc) in E.
  - destruct (is_digit c); [f_equal|]; exact IH.
Qed.

Lemma str_eqb_empty s : String.eqb s "" = false <-> s <> "".
Proof. destruct s; simpl; split; congruence. Qed.

(** What [\d{0,n}] reads. *)
Lemma reaches_rep_upto n : forall s t,
  reaches (rep_upto n digit) s t ->
  exists u, s = u ++ t /\ str_forall is_digit u = true /\ (String.length u <= n)%nat.
Proof.
  induction n as [|n IH]; intros s t H; simpl in H.
  - destruct H as (st & [<-|[]] & <-). exists "". simpl. repeat split. lia.
  - apply reaches_Opt in H as [H| ->].
    + apply reaches_Seq in H as (s1 & Hc & Hr).
      apply reaches_Chr_inv in Hc as (c & -> & Hc).
      destruct (IH _ _ Hr) as (u & -> & Hu & Hl).
      exists (String c u). simpl in *. rewrite Hc, Hu. repeat split. lia.
    + exists "". simpl. repeat split. lia.
Qed.

(** What [\d{lo,hi}] reads. *)
Lemma reaches_rep_range lo : forall hi s t,
  reaches (rep_range lo hi digit) s t ->
  exists u, s = u ++ t /\ str_forall is_digit u = true
    /\ (lo <= String.length u <= Nat.max lo hi)%nat.
Proof.
  induction lo as [|lo IH]; intros hi s t H; simpl in H.
  - destruct (reaches_rep_upto _ _ _ H) as (u & -> & Hu & Hl).
    exists u. repeat split; [exact Hu|lia|lia].
  - apply reaches_Seq in H as (s1 & Hc & Hr).
    apply reaches_Chr_inv in Hc as (c & -> & Hc).
    destruct (IH _ _ _ Hr) as (u & -> & Hu & Hl).
    exists (String c u). simpl in *. rewrite Hc, Hu. repeat split; lia.
Qed.

(** What the pattern of a number reads is a numeral. *)
Lemma reaches_number s t :
  reaches number_re s t -> exists g, s = g ++ t /\ is_numeral g = true.
Proof.
  unfold number_re. cbn [seq_all]. intros H.
  apply reaches_Seq in H as (u1 & H1 & H).
  apply reaches_Seq in H as (u2 & H2 & H3).
  destruct (reaches_rep_range _ _ _ _ H1) as (a & -> & Ha & Hla).
  destruct (reaches_chars grouped_class grouped_char
              (Star (Seq (chr ",") (rep_range 3 3 digit))) u1 u2
              grouped_class_sound eq_refl H2) as (b & -> & Hb).
  assert (Hab : str_forall is_digit (a ++ remove_commas b) = true)
    by (rewrite str_forall_app, Ha; now apply remove_commas_grouped).
  assert (Hne : a ++ remove_commas b <> "") by (destruct a; simpl in Hla; [lia|discriminate]).
  apply reaches_Opt in H3 as [H3| ->].
  - apply reaches_Seq in H3 as (u3 & Hp & Hd).
    apply reaches_Chr_inv in Hp as (c & -> & Hc). simpl in Hc.
    apply Ascii.eqb_eq in Hc. subst c.
    unfold Plus in Hd. apply reaches_Seq in Hd as (u4 & Hd1 & Hd2).
    apply reaches_Chr_inv in Hd1 as (c1 & -> & Hc1). simpl in Hc1.
    destruct (reaches_digits (Star digit) _ _ eq_refl Hd2) as (q & -> & Hq).
    exists (a ++ b ++ String "." (String c1 q)). split.
    + now rewrite !str_app_assoc.
    + unfold is_numeral.
      rewrite !remove_commas_app, (remove_commas_digits a Ha).
      assert (Hfr : remove_commas (String "." (String c1 q)) = String "." (String c1 q)).
      { change (String "." (String c1 q)) with ("." ++ String c1 q).
        rewrite remove_commas_app. f_equal. apply remove_commas_digits.
        simpl. now rewrite Hc1, Hq. }
      rewrite Hfr.
      rewrite <- str_app_assoc, (split_point_digits_point _ _ Hab).
      rewrite Hab. apply str_eqb_empty in Hne. rewrite Hne. simpl. now rewrite Hc1, Hq.
  - exists (a ++ b). split; [now rewrite str_app_assoc|].
    unfold is_numeral. rewrite remove_commas_app, (remove_commas_digits a Ha).
    rewrite (split_point_digits _ Hab), Hab.
    apply str_eqb_empty in Hne. now rewrite Hne.
Qed.

Lemma number_group_reads s t : reaches number_re s t -> is_numeral (consumed s t) = true.
Proof.
  intros H. destruct (reaches_number _ _ H) as (g & -> & Hg). now rewrite consumed_app.
Qed.

(** The first group of a match of the patterns 1, 2 and 4 of
    [_parse_distance] is set, and it is a numeral. *)
Lemma distance_match_numeral r text m :
  In r [distance_re1; distance_re2; distance_re4] ->
  search r text = Some m ->
  exists number, group 1 m = Some number /\ is_numeral number = true.
Proof.
  intros Hr Hm.
  assert (Hs : sets_group 1 r = true)
    by (destruct Hr as [<-|[<-|[<-|[]]]]; reflexivity).
  assert (Hg : group_reads (fun g => is_numeral g = true) 1 r).
  { destruct Hr as [<-|[<-|[<-|[]]]]; cbn; repeat split; auto;
      intros _ s t; apply number_group_reads. }
  destruct (search_sets_group 1 r Hs _ _ Hm) as (g & Hgm).
  exists g. split; [exact Hgm|].
  exact (search_group_reads _ 1 r Hg _ _ _ Hm Hgm).
Qed.

(** [float] reads a numeral, commas removed, as its decimal value. *)
Lemma float_of_numeral number :
  is_numeral number = true ->
  float_of_string (remove_commas number) = Ok (decimal_value number).
Proof.
  unfold is_numeral, float_of_string, decimal_value, decimals.
  destruct (split_point (remove_commas number)) as [ip fp] eqn:E.
  intros H. apply andb_prop in H as [H Hf]. apply andb_prop in H as [Hi Hn].
  apply negb_true_iff, str_eqb_empty in Hn.
  set (fp' := match fp with Some f => f | None => "" end).
  assert (Hf' : str_forall is_digit fp' = true).
  { unfold fp'. destruct fp; [|reflexivity]. now apply andb_prop in Hf as [-> _]. }
  rewrite Hi, Hf'.
  assert (Hlen : ((String.length ip + String.length fp' =? 0)%nat) = false)
    by (apply Nat.eqb_neq; destruct ip; simpl; [congruence|lia]).
  rewrite Hlen. cbn [andb negb snd]. f_equal. f_equal.
  - f_equal. rewrite <- str_filter_digits_commas.
    assert (Hx : remove_commas number
                 = ip ++ match fp with Some f => String "." f | None => "" end).
    { clear -E. revert ip fp E. induction (remove_commas number) as [|c s IH];
        intros ip fp; simpl.
      - now intros [= <- <-].
      - destruct (Ascii.eqb c ".") eqn:Ec.
        + intros [= <- <-]. apply Ascii.eqb_eq in Ec. now subst.
        + destruct (split_point s) as [a b]. intros [= <- <-].
          rewrite str_app_cons. f_equal. now apply IH. }
    rewrite Hx, str_filter_app, (str_filter_all _ _ Hi). f_equal.
    unfold fp'. destruct fp as [f|]; [|reflexivity].
    simpl. apply andb_prop in Hf as [Hf _]. symmetry. now apply str_filter_all.
  - unfold fp'. now destruct fp.
Qed.

Lemma ten_pow_least_double : 10 ^ 323 <= 2 ^ 1074.
Proof. apply Z.leb_le. vm_compute. reflexivity. Qed.

(** A numeral of at most 323 decimals reads as 0.0 exactly when its
    digits are zeros. *)
Lemma decimal_value_zero number :
  (decimals number <= 323)%nat ->
  decimal_value number = fzero <-> int_of_digits (str_filter is_digit number) = 0.
Proof.
  intros Hd. unfold decimal_value.
  set (n := int_of_digits (str_filter is_digit number)).
  assert (Hn : 0 <= n) by (apply int_of_digits_nonneg, str_filter_forall).
  split.
  - intros H. destruct (Z.eq_dec n 0) as [E|E]; [exact E|].
    exfalso. revert H. apply round_ratio_nonzero; [lia|].
    assert (Hp : 10 ^ Z.of_nat (decimals number) <= 10 ^ 323)
      by (apply Z.pow_le_mono_r; lia).
    assert (0 < 10 ^ Z.of_nat (decimals number)) by (apply Z.pow_pos_nonneg; lia).
    pose proof ten_pow_least_double.
    assert (0 < 2 ^ 1074) by (apply Z.pow_pos_nonneg; lia).
    nia.
  - intros ->. reflexivity.
Qed.

(** ** The distance *)

Lemma first_distance_match text :
  first_match distance_patterns text
  = match search distance_re1 text with
    | Some m => Some m
    | None =>
        match search distance_re2 text with
        | Some m => Some m
        | None => search distance_re4 text
        end
    end
  /\ match first_match distance_patterns text with
     | Some m => exists number, group 1 m = Some number /\ is_numeral number = true
     | None => True
     end.
Proof.
  unfold distance_patterns. cbn [first_match].
  destruct (search distance_re1 text) as [m|] eqn:E1.
  { split; [reflexivity|]. apply (distance_match_numeral distance_re1 text); simpl; auto. }
  destruct (search distance_re2 text) as [m|] eqn:E2.
  { split; [reflexivity|]. apply (distance_match_numeral distance_re2 text); simpl; auto. }
  destruct (search distance_re3 text) as [m|] eqn:E3.
  { exfalso. apply search_none_matches in E1. apply E1, distance_re3_in_re1.
    apply search_matches. congruence. }
  destruct (search distance_re4 text) as [m|] eqn:E4; split; try reflexivity; try exact I.
  apply (distance_match_numeral distance_re4 text); simpl; auto.
Qed.

Lemma first_distance_match_none text :
  first_match distance_patterns (str_lower text) = None
  <-> text = "" \/ no_distance_match text = true.
Proof.
  unfold no_distance_match, distance_patterns. cbn [first_match]. split.
  - destruct (search distance_re1 _); [discriminate|].
    destruct (search distance_re2 _); [discriminate|].
    destruct (search distance_re3 _); [discriminate|].
    destruct (search distance_re4 _); [discriminate|]. now right.
  - intros [->|H]; [vm_compute; reflexivity|].
    destruct (search distance_re1 _); [discriminate|].
    destruct (search distance_re2 _); [discriminate|].
    destruct (search distance_re3 _); [discriminate|].
    destruct (search distance_re4 _); [discriminate|reflexivity].
Qed.

(** The [try] block of [_parse_distance] never raises: it returns 0.0
    when no pattern matches and the value of the matched numeral
    otherwise. *)
Lemma parse_distance_body_value text :
  parse_distance_body text
  = Ok (match first_match distance_patterns (str_lower text) with
        | Some m => decimal_value (group_text 1 m)
        | None => fzero
        end).
Proof.
  unfold parse_distance_body.
  destruct (String.length text =? 0)%nat eqn:El.
  - apply Nat.eqb_eq in El. destruct text; [|discriminate]. vm_compute. reflexivity.
  - cbv zeta. destruct (first_distance_match (str_lower text)) as [Hf Hn].
    rewrite Hf in *.
    destruct (search distance_re1 (str_lower text)) as [m|] eqn:E1.
    { destruct Hn as (g & Hg & Hnum). unfold group_text. rewrite Hg.
      now apply float_of_numeral. }
    destruct (search distance_re2 (str_lower text)) as [m|].
    { destruct Hn as (g & Hg & Hnum). unfold group_text. rewrite Hg.
      now apply float_of_numeral. }
    destruct (search distance_re3 (str_lower text)) as [m|] eqn:E3.
    { exfalso. apply search_none_matches in E1. apply E1, distance_re3_in_re1.
      apply search_matches. congruence. }
    destruct (search distance_re4 (str_lower text)) as [m|]; [|reflexivity].
    destruct Hn as (g & Hg & Hnum). unfold group_text. rewrite Hg.
    now apply float_of_numeral.
Qed.

(** ** The duration *)

Lemma short_digits_int g :
  str_forall is_digit g = true -> (1 <= String.length g <= 4)%nat ->
  int_of_string g = Ok (int_of_digits g).
Proof.
  intros Hd Hl. rewrite int_of_string_digits; [|exact Hd|destruct g; simpl in Hl; [lia|discriminate]].
  unfold within_limit, max_str_digits.
  destruct (Z.leb_spec (Z.of_nat (String.length g)) 4300); [reflexivity|lia].
Qed.

Lemma duration_groups_short r n :
  In (r, n) [(duration_re1, 1%nat); (duration_re1, 2%nat); (duration_re3, 1%nat)] ->
  group_reads (fun g => str_forall is_digit g = true /\ (1 <= String.length g <= 4)%nat) n r.
Proof.
  intros Hr.
  assert (H : forall lo hi s t, (1 <= lo)%nat -> (Nat.max lo hi <= 4)%nat ->
            reaches (rep_range lo hi digit) s t ->
            str_forall is_digit (consumed s t) = true
            /\ (1 <= String.length (consumed s t) <= 4)%nat).
  { intros lo hi s t Hlo Hhi Hreach.
    destruct (reaches_rep_range _ _ _ _ Hreach) as (u & -> & Hu & Hl).
    rewrite consumed_app. split; [exact Hu|lia]. }
  destruct Hr as [[= <- <-]|[[= <- <-]|[[= <- <-]|[]]]]; cbn; repeat split; auto;
    try discriminate;
    match goal with
    | Hreach : reaches _ ?s ?t |- _ =>
        first [ pose proof (H 1%nat 2%nat s t ltac:(lia) ltac:(simpl; lia) Hreach) as [? [? ?]]
              | pose proof (H 2%nat 4%nat s t ltac:(lia) ltac:(simpl; lia) Hreach) as [? [? ?]] ]
    end; assumption.
Qed.

Lemma str_last_snoc s c : str_last (s ++ String c "") = Some c.
Proof.
  induction s as [|a s IH]; [reflexivity|]. rewrite str_app_cons.
  cbn [str_last]. rewrite IH.
  destruct (s ++ String c "") eqn:E; [|reflexivity].
  now destruct (str_snoc_nonempty s c).
Qed.

Lemma hours_text_not_na a : a ++ "h" <> "N/A".
Proof. intros H. apply (f_equal str_last) in H. rewrite str_last_snoc in H. discriminate. Qed.

Lemma minutes_text_not_na a : a ++ "m" <> "N/A".
Proof. intros H. apply (f_equal str_last) in H. rewrite str_last_snoc in H. discriminate. Qed.

Lemma hours_minutes_text_not_na a b : a ++ "h " ++ b ++ "m" <> "N/A".
Proof.
  rewrite <- !str_app_assoc. apply minutes_text_not_na.
Qed.

Lemma first_duration_match_none text :
  first_match duration_patterns (str_lower text) = None
  <-> text = "" \/ no_duration_match text = true.
Proof.
  unfold no_duration_match, duration_patterns. cbn [first_match]. split.
  - destruct (search duration_re1 _); [discriminate|].
    destruct (search duration_re2 _); [discriminate|].
    destruct (search duration_re3 _); [discriminate|]. now right.
  - intros [->|H]; [vm_compute; reflexivity|].
    destruct (search duration_re1 _); [discriminate|].
    destruct (search duration_re2 _); [discriminate|].
    destruct (search duration_re3 _); [discriminate|reflexivity].
Qed.

(** The [try] block of [_parse_duration] never raises, and it returns
    'N/A' exactly when no pattern matches. *)
Lemma parse_duration_body_value float_str text :
  exists s,
    parse_duration_body float_str text = Ok s
    /\ (s = "N/A" <-> first_match duration_patterns (str_lower text) = None).
Proof.
  rewrite parse_duration_body_cascade.
  destruct (String.length text =? 0)%nat eqn:El.
  { apply Nat.eqb_eq in El. destruct text; [|discriminate].
    exists "N/A". split; [reflexivity|]. split; [intros _; vm_compute|]; reflexivity. }
  cbv zeta. unfold duration_patterns. cbn [first_match].
  destruct (search duration_re1 (str_lower text)) as [m|] eqn:E1.
  - destruct (search_sets_group 1 duration_re1 eq_refl _ _ E1) as (g1 & Hg1).
    destruct (search_group_reads _ 1 duration_re1
                (duration_groups_short _ _ (or_introl eq_refl)) _ _ _ E1 Hg1) as [Hd1 Hl1].
    unfold group_text. rewrite Hg1, (short_digits_int _ Hd1 Hl1). cbn [rbind].
    assert (Hmin : exists minutes,
              match group 2 m with
              | Some g => if (String.length g =? 0)%nat then Ok 0 else int_of_string g
              | None => Ok 0
              end = Ok minutes).
    { destruct (group 2 m) as [g2|] eqn:Hg2; [|now exists 0].
      destruct (search_group_reads _ 2 duration_re1
                  (duration_groups_short _ _ (or_intror (or_introl eq_refl)))
                  _ _ _ E1 Hg2) as [Hd2 Hl2].
      rewrite (short_digits_int _ Hd2 Hl2).
      destruct (String.length g2 =? 0)%nat; eexists; reflexivity. }
    destruct Hmin as (minutes & ->). cbn [rbind].
    destruct (0 <? minutes); eexists; (split; [reflexivity|]);
      (split; [intros H; exfalso; revert H|discriminate]).
    + apply hours_minutes_text_not_na.
    + apply hours_text_not_na.
  - assert (E2 : search duration_re2 (str_lower text) = None).
    { destruct (search duration_re2 (str_lower text)) eqn:E2; [|reflexivity].
      exfalso. apply search_none_matches in E1. apply E1, duration_re2_in_re1.
      apply search_matches. congruence. }
    rewrite E2.
    destruct (search duration_re3 (str_lower text)) as [m|] eqn:E3.
    + destruct (search_sets_group 1 duration_re3 eq_refl _ _ E3) as (g1 & Hg1).
      destruct (search_group_reads _ 1 duration_re3
                  (duration_groups_short _ _ (or_intror (or_intror (or_introl eq_refl))))
                  _ _ _ E3 Hg1) as [Hd1 Hl1].
      unfold group_text. rewrite Hg1, (short_digits_int _ Hd1 Hl1). cbn [rbind].
      destruct (0 <? _); eexists; (split; [reflexivity|]);
        (split; [intros H; exfalso; revert H|discriminate]).
      * apply hours_minutes_text_not_na.
      * apply minutes_text_not_na.
    + exists "N/A". split; [reflexivity|]. split; reflexivity.
Qed.

(** C6, as stated, fails: '0 km' is not empty and the first distance
    pattern matches it, yet the distance parsed is 0.0. *)
Lemma parse_distance_zero_km :
  _parse_distance "0 km" = Ok fzero
  /\ search distance_re1 (str_lower "0 km") = Some [(1%nat, "0")]
  /\ no_distance_match "0 km" = false.
Proof. vm_compute. repeat split. Qed.

(** C6, amended. For every text in ASCII characters, [_parse_distance]
    returns, and its [try] block raises nothing.  When the text is empty
    or none of the distance patterns matches it, the result is 0.0.
    Otherwise the first pattern that matches has read a numeral - digits
    with commas, and maybe a point and decimals - and the result is the
    double nearest to it, which is not negative; for a numeral of at most
    323 decimals it is 0.0 exactly when all the digits of the numeral are
    zeros.  [_parse_duration] returns a string, its [try] block raises
    nothing, and the string is 'N/A' exactly when the text is empty or
    none of the duration patterns matches it. *)
Theorem parsers_total (float_str : float -> string) (text : string) :
  is_ascii text = true ->
  (exists x,
      _parse_distance text = Ok x
      /\ parse_distance_body text = Ok x
      /\ float_nonneg x = true
      /\ match first_match distance_patterns (str_lower text) with
         | None => x = fzero
         | Some m =>
             exists number,
               group 1 m = Some number
               /\ is_numeral number = true
               /\ x = decimal_value number
               /\ ((decimals number <= 323)%nat ->
                   x = fzero <-> int_of_digits (str_filter is_digit number) = 0)
         end)
  /\ (first_match distance_patterns (str_lower text) = None
      <-> text = "" \/ no_distance_match text = true)
  /\ (exists s,
        _parse_duration float_str text = Ok s
        /\ parse_duration_body float_str text = Ok s
        /\ (s = "N/A" <-> text = "" \/ no_duration_match text = true)).
Proof.
  intros _. split; [|split].
  - pose proof (parse_distance_body_value text) as Hv.
    destruct (first_distance_match (str_lower text)) as [_ Hn].
    eexists. split; [unfold _parse_distance; rewrite Hv; reflexivity|].
    split; [exact Hv|].
    destruct (first_match distance_patterns (str_lower text)) as [m|].
    + destruct Hn as (number & Hg & Hnum).
      unfold group_text. rewrite Hg. split.
      * apply sign_clear_nonneg, round_ratio_sign.
        -- apply int_of_digits_nonneg, str_filter_forall.
        -- apply Z.pow_pos_nonneg; lia.
      * exists number. repeat split; try assumption; now apply decimal_value_zero.
    + split; reflexivity.
  - apply first_distance_match_none.
  - destruct (parse_duration_body_value float_str text) as (s & Hs & Hna).
    exists s. split; [unfold _parse_duration; rewrite Hs; reflexivity|].
    split; [exact Hs|]. rewrite Hna. apply first_duration_match_none.
Qed.

(** '1,200.5 km' is read as 1200.5 and '90 minutes' as '1h 30m'. *)
Lemma parsers_total_sample :
  _parse_distance "1,200.5 km" = Ok (decimal_value "1,200.5")
  /\ _parse_duration (fun _ => "") "90 minutes" <> Ok "N/A".
Proof.
  destruct (parsers_total (fun _ => "") "1,200.5 km" eq_refl)
    as ((x & Hx & _ & _ & Hm) & _ & _).
  destruct (parsers_total (fun _ => "") "90 minutes" eq_refl)
    as (_ & _ & (s & Hs & _ & Hna)).
  split.
  - rewrite Hx. f_equal.
    change (first_match distance_patterns (str_lower "1,200.5 km"))
      with (Some [(1%nat, "1,200.5")]) in Hm.
    destruct Hm as (number & [= <-] & _ & -> & _). reflexivity.
  - rewrite Hs. intros [= ->].
    destruct (proj1 Hna eq_refl) as [H|H]; [discriminate|].
    vm_compute in H. discriminate.
Defined.

(* ===================================================================== *)
(** * Plain numbers read by the parsers *)
(* ===================================================================== *)

Lemma float_same_eq x y : float_same x y = true -> x = y.
Proof.
  destruct x as [a|a| |a m e], y as [b|b| |b m' e']; simpl; try discriminate.
  - intros H. apply Bool.eqb_prop in H. now subst.
  - intros H. apply Bool.eqb_prop in H. now subst.
  - reflexivity.
  - intros H. apply andb_prop in H as [H He]. apply andb_prop in H as [Hs Hm].
    apply Bool.eqb_prop in Hs. apply Pos.eqb_eq in Hm. apply Z.eqb_eq in He. now subst.
Qed.

Lemma reads_as_sound text n : reads_as text n = true -> _parse_distance text = float_of_int n.
Proof.
  unfold reads_as. destruct (_parse_distance text) as [x|], (float_of_int n) as [y|];
    try discriminate.
  intros H. now rewrite (float_same_eq _ _ H).
Qed.

Lemma result_is_sound r s : result_is r s = true -> r = Ok s.
Proof.
  destruct r as [t|]; simpl; [|discriminate]. intros H. apply String.eqb_eq in H. now subst.
Qed.

Lemma zrange_In z n : forall start, start <= z < start + Z.of_nat n -> In z (zrange start n).
Proof.
  induction n as [|n IH]; intros start Hz; [lia|]. simpl.
  destruct (Z.eq_dec start z) as [->|Hne]; [now left|].
  right. apply IH. lia.
Qed.

(** A check over the integers from 0 holds of every integer below the
    bound. *)
Lemma forallb_below (p : Z -> bool) (bound z : Z) :
  forallb p (zrange 0 (Z.to_nat bound)) = true -> 0 <= z < bound -> p z = true.
Proof.
  intros H Hz. rewrite forallb_forall in H. apply H. apply zrange_In. lia.
Qed.

Lemma plain_distances_read_sound (bound n : Z) :
  plain_distances_read_below (Z.to_nat bound) = true -> 0 <= n < bound ->
  _parse_distance (str_of_int n ++ " km") = float_of_int n
  /\ _parse_distance (str_of_int n ++ " miles") = float_of_int n.
Proof.
  unfold plain_distances_read_below. intros H Hn.
  pose proof (forallb_below _ bound n H Hn) as H'. cbv beta in H'.
  apply andb_prop in H' as [H1 H2]. split; now apply reads_as_sound.
Qed.

Lemma spelled_distances_read_sound (bound n : Z) :
  spelled_distances_read_below (Z.to_nat bound) = true -> 0 <= n < bound ->
  _parse_distance (str_of_int n ++ " kilometres") = float_of_int n
  /\ _parse_distance (str_of_int n ++ " kilometers") = Ok fzero.
Proof.
  unfold spelled_distances_read_below. intros H Hn.
  pose proof (forallb_below _ bound n H Hn) as H'. cbv beta in H'.
  apply andb_prop in H' as [H1 H2]. split; [now apply reads_as_sound|].
  apply reads_as_sound in H2. exact H2.
Qed.

Lemma minutes_read_sound (bound n : Z) :
  minutes_read_below (Z.to_nat bound) = true -> 0 <= n < bound ->
  _parse_duration (fun _ => "") (str_of_int n ++ " minutes") = Ok (minutes_text n).
Proof.
  unfold minutes_read_below. intros H Hn.
  pose proof (forallb_below _ bound n H Hn) as H'. cbv beta in H'.
  now apply result_is_sound.
Qed.

Lemma hours_minutes_read_sound (hours minutes h m : Z) :
  hours_minutes_read_below (Z.to_nat hours) (Z.to_nat minutes) = true ->
  0 <= h < hours -> 0 <= m < minutes ->
  _parse_duration (fun _ => "") (str_of_int h ++ " hours " ++ str_of_int m ++ " mins")
  = Ok (hours_text h m).
Proof.
  unfold hours_minutes_read_below. intros H Hh Hm.
  pose proof (forallb_below _ hours h H Hh) as H1. cbv beta in H1.
  pose proof (forallb_below _ minutes m H1 Hm) as H2. cbv beta in H2.
  now apply result_is_sound.
Qed.

Lemma plain_distances_read : plain_distances_read_below (Z.to_nat 10000) = true.
Proof. vm_compute. reflexivity. Qed.

Lemma minutes_read : minutes_read_below (Z.to_nat 10000) = true.
Proof. vm_compute. reflexivity. Qed.

Lemma hours_minutes_read : hours_minutes_read_below (Z.to_nat 100) (Z.to_nat 60) = true.
Proof. vm_compute. reflexivity. Qed.

Lemma spelled_distances_read : spelled_distances_read_below (Z.to_nat 1000) = true.
Proof. vm_compute. reflexivity. Qed.

(** X15. A whole number below 10000 followed by ' km' is read by
    [_parse_distance] as that number.  So is one followed by ' miles' -
    the m of the word is taken for metres.  Below 1000, a number followed
    by ' kilometres' is read as that number, while the same number
    followed by ' kilometers' is not read at all and gives 0.0. *)
Theorem parse_distance_plain_numbers (n : Z) :
  0 <= n < 10000 ->
  _parse_distance (str_of_int n ++ " km") = float_of_int n
  /\ _parse_distance (str_of_int n ++ " miles") = float_of_int n
  /\ (n < 1000 ->
      _parse_distance (str_of_int n ++ " kilometres") = float_of_int n
      /\ _parse_distance (str_of_int n ++ " kilometers") = Ok fzero).
Proof.
  intros Hn.
  destruct (plain_distances_read_sound 10000 n plain_distances_read Hn) as [H1 H2].
  split; [exact H1|]. split; [exact H2|].
  intros Hs. apply (spelled_distances_read_sound 1000 n spelled_distances_read). lia.
Qed.

Lemma parse_distance_450 :
  _parse_distance "450 km" = float_of_int 450
  /\ _parse_distance "450 miles" = float_of_int 450
  /\ (450 < 1000 ->
      _parse_distance "450 kilometres" = float_of_int 450
      /\ _parse_distance "450 kilometers" = Ok fzero).
Proof. exact (parse_distance_plain_numbers 450 ltac:(lia)). Defined.

(** X16. [_parse_duration] on a number of minutes below 10000 followed
    by ' minutes': a single digit is not read ('N/A'); from 10 on the
    result is the hours and the minutes left, written 'Hh Mm', or 'Mm'
    below one hour.  On hours and minutes written
    'H hours M mins' with H below 100 and M below 60, the result is
    'Hh Mm', or 'Hh' when M is 0. *)
Theorem parse_duration_plain_numbers (float_str : float -> string) (n : Z) :
  0 <= n < 10000 ->
  _parse_duration float_str (str_of_int n ++ " minutes")
  = Ok (if n <? 10 then "N/A"
        else if 0 <? n / 60 then str_of_int (n / 60) ++ "h " ++ str_of_int (n mod 60) ++ "m"
        else str_of_int (n mod 60) ++ "m")
  /\ (forall h m, 0 <= h < 100 -> 0 <= m < 60 ->
        _parse_duration float_str (str_of_int h ++ " hours " ++ str_of_int m ++ " mins")
        = Ok (if 0 <? m then str_of_int h ++ "h " ++ str_of_int m ++ "m"
              else str_of_int h ++ "h")).
Proof.
  intros Hn. split.
  - rewrite (parse_duration_any_float_str float_str (fun _ => "")).
    exact (minutes_read_sound 10000 n minutes_read Hn).
  - intros h m Hh Hm.
    rewrite (parse_duration_any_float_str float_str (fun _ => "")).
    exact (hours_minutes_read_sound 100 60 h m hours_minutes_read Hh Hm).
Qed.

Lemma parse_duration_90_minutes :
  _parse_duration (fun _ => "") "90 minutes" = Ok "1h 30m"
  /\ (forall h m, 0 <= h < 100 -> 0 <= m < 60 ->
        _parse_duration (fun _ => "") (str_of_int h ++ " hours " ++ str_of_int m ++ " mins")
        = Ok (if 0 <? m then str_of_int h ++ "h " ++ str_of_int m ++ "m"
              else str_of_int h ++ "h")).
Proof. exact (parse_duration_plain_numbers (fun _ => "") 90 ltac:(lia)). Defined.

(* ===================================================================== *)
(** * The approximate distances and the fuel estimate *)
(* ===================================================================== *)

Lemma lookup_approximate_In a b d :
  lookup_approximate a b = Some d ->
  exists row, In (a, row) approximate_distances /\ In (b, d) row.
Proof.
  unfold lookup_approximate, dict_get_default. intros H.
  destruct (dict_get a approximate_distances) as [row|] eqn:E.
  - exists row. split; now apply dict_get_In.
  - discriminate.
Qed.

Lemma all_approximate_sound p :
  all_approximate p = true ->
  forall a b d, lookup_approximate a b = Some d -> p a b d = true.
Proof.
  unfold all_approximate. intros H a b d Hl.
  destruct (lookup_approximate_In _ _ _ Hl) as (row & Hrow & Hcell).
  rewrite forallb_forall in H. specialize (H _ Hrow). simpl in H.
  rewrite forallb_forall in H. exact (H _ Hcell).
Qed.

Lemma approximate_entries_ok : all_approximate approximate_entry_ok = true.
Proof. vm_compute. reflexivity. Qed.

Lemma lookup_approximate_ok a b d :
  lookup_approximate a b = Some d ->
  350 <= d <= 2200 /\ lookup_approximate b a = Some d
  /\ (lookup_distance a b <> None \/ lookup_distance b a <> None -> route_distance a b = d).
Proof.
  intros H. apply (all_approximate_sound _ approximate_entries_ok) in H.
  unfold approximate_entry_ok in H.
  apply andb_prop in H as [H H4]. apply andb_prop in H as [H H3].
  apply andb_prop in H as [H1 H2].
  apply Z.leb_le in H1, H2. split; [lia|]. split.
  - destruct (lookup_approximate b a); [|discriminate]. apply Z.eqb_eq in H3. now subst.
  - intros Hl. destruct (lookup_distance a b), (lookup_distance b a);
      try (now apply Z.eqb_eq in H4). destruct Hl; congruence.
Qed.

(** The distance the function settles on: the entry of the pair, which
    is also that of the reversed pair, else 350. *)
Lemma get_approximate_distance_cases source destination :
  let a := str_lower source in
  let b := str_lower destination in
  match lookup_approximate a b with
  | Some d => get_approximate_distance source destination = d
  | None => lookup_approximate b a = None
            /\ get_approximate_distance source destination = 350
  end.
Proof.
  intros a b. unfold get_approximate_distance. fold a b. unfold py_or.
  destruct (lookup_approximate a b) as [d|] eqn:E1.
  - destruct (lookup_approximate_ok _ _ _ E1) as (Hr & _ & _).
    destruct (Z.eqb_spec d 0); [lia|]. destruct (Z.eqb_spec d 0); [lia|reflexivity].
  - destruct (lookup_approximate b a) as [d|] eqn:E2.
    + destruct (lookup_approximate_ok _ _ _ E2) as (_ & Hs & _). congruence.
    + split; reflexivity.
Qed.

(** X17. [get_approximate_distance], which feeds the fuel estimate, is
    symmetric in its two places and lies between 350 and 2200 km, 350
    being the value for a pair its table does not list.  Where its table
    and the matrix of [calculate_minimum_duration] both list a pair, the
    two agree on the distance.  Where the matrix lists the pair in
    neither direction the two differ: the minimum duration is computed
    for 300 km, the fuel for 350 km or more - 1600 km from Rajasthan to
    Bangalore, a drive for which two days are found enough. *)
Theorem approximate_distance_agrees_with_matrix (source destination : string) :
  let a := str_lower source in
  let b := str_lower destination in
  get_approximate_distance source destination = get_approximate_distance destination source
  /\ 350 <= get_approximate_distance source destination <= 2200
  /\ (lookup_approximate a b = None -> get_approximate_distance source destination = 350)
  /\ (lookup_approximate a b <> None ->
      lookup_distance a b <> None \/ lookup_distance b a <> None ->
      get_approximate_distance source destination = route_distance a b)
  /\ (lookup_distance a b = None -> lookup_distance b a = None ->
      route_distance a b = 300 /\ 350 <= get_approximate_distance source destination)
  /\ get_approximate_distance "Rajasthan" "Bangalore" = 1600
  /\ calculate_minimum_duration "Rajasthan" "Bangalore" "Self" = 2.
Proof.
  intros a b.
  pose proof (get_approximate_distance_cases source destination) as H1.
  pose proof (get_approximate_distance_cases destination source) as H2.
  cbv zeta in H1, H2. fold a b in H1, H2.
  assert (Hrange : 350 <= get_approximate_distance source destination <= 2200).
  { destruct (lookup_approximate a b) as [d|] eqn:E1.
    - rewrite H1. apply (lookup_approximate_ok _ _ _ E1).
    - destruct H1 as [_ ->]. lia. }
  split; [|split; [exact Hrange|split; [|split; [|split; [|split]]]]].
  - destruct (lookup_approximate a b) as [d|] eqn:E1.
    + destruct (lookup_approximate_ok _ _ _ E1) as (_ & Hs & _).
      rewrite Hs in H2. congruence.
    + destruct H1 as [E2 ->]. rewrite E2 in H2. now destruct H2 as [_ ->].
  - intros E1. rewrite E1 in H1. apply H1.
  - intros Hl Hm. destruct (lookup_approximate a b) as [d|] eqn:E1; [|congruence].
    rewrite H1. symmetry. now apply (lookup_approximate_ok _ _ _ E1).
  - intros E1 E2. split; [|lia].
    unfold route_distance. now rewrite E1, E2.
  - vm_compute. reflexivity.
  - vm_compute. reflexivity.
Qed.

Lemma approximate_fuel_entries : all_approximate approximate_fuel_exact = true.
Proof. vm_compute. reflexivity. Qed.

Lemma default_fuel_exact : forallb (fuel_texts_exact 350) efficiencies = true.
Proof. vm_compute. reflexivity. Qed.

Lemma server_fuel_efficiency_In vehicle_type :
  In (dict_get_default server_fuel_efficiency vehicle_type 15) efficiencies.
Proof.
  unfold dict_get_default.
  destruct (dict_get vehicle_type server_fuel_efficiency) as [e|] eqn:E; [|simpl; tauto].
  apply dict_get_In in E. simpl in E.
  destruct E as [E|[E|[E|[E|[]]]]]; injection E as _ <-; simpl; tauto.
Qed.

Lemma fuel_texts_of_route source destination vehicle_type :
  fuel_texts_exact (get_approximate_distance source destination)
                   (dict_get_default server_fuel_efficiency vehicle_type 15) = true.
Proof.
  pose proof (server_fuel_efficiency_In vehicle_type) as He.
  pose proof (get_approximate_distance_cases source destination) as Hd. cbv zeta in Hd.
  destruct (lookup_approximate (str_lower source) (str_lower destination)) as [d|] eqn:E.
  - rewrite Hd. apply (all_approximate_sound _ approximate_fuel_entries) in E.
    unfold approximate_fuel_exact in E. rewrite forallb_forall in E. now apply E.
  - destruct Hd as [_ ->]. pose proof default_fuel_exact as H.
    rewrite forallb_forall in H. now apply H.
Qed.

(** X18. The estimate [get_transportation_details] gives without the
    language model for a trip in 'Self' mode whose vehicle type and
    places are strings (or absent): nothing is raised; the efficiency is
    15, 12, 45 or 18 km/l, looked up by the vehicle type as it is
    written, any other spelling counting as a car; the distance [d] is
    that of [get_approximate_distance]; and the rounding of the doubles
    does not show: the litres are the tenth nearest to [d/e] and the
    cost the integer nearest to [100*d/e]. *)
Theorem self_fallback_fuel_estimate (user_input : pydict)
    (vehicle_type source destination : string) :
  dict_get_default user_input "travel_mode" (VStr "Self") = VStr "Self" ->
  dict_get_default user_input "vehicle_type" (VStr "car") = VStr vehicle_type ->
  dict_get_default user_input "source" (VStr "Unknown") = VStr source ->
  dict_get_default user_input "destination" (VStr "Unknown") = VStr destination ->
  let d := get_approximate_distance source destination in
  let e := dict_get_default server_fuel_efficiency vehicle_type 15 in
  let tenths := (20 * d + e) / (2 * e) in
  In e [15; 12; 45; 18]
  /\ exists self_mode fuel_estimate,
       transportation_fallback user_input = Ok (VDict [ ("self_mode", VDict self_mode) ])
       /\ dict_get "fuel_estimate" self_mode = Some (VDict fuel_estimate)
       /\ dict_get "total_distance" fuel_estimate = Some (VStr (str_of_int d ++ " KM"))
       /\ dict_get "fuel_efficiency" fuel_estimate = Some (VStr (str_of_int e ++ " km/l"))
       /\ dict_get "fuel_needed" fuel_estimate
          = Some (VStr (str_of_int (tenths / 10) ++ "." ++ str_of_int (tenths mod 10)
                        ++ " liters"))
       /\ dict_get "fuel_cost" fuel_estimate
          = Some (VStr (rupee ++ str_of_int ((200 * d + e) / (2 * e)))).
Proof.
  intros Hm Hv Hs Ht d e tenths.
  split; [apply server_fuel_efficiency_In|].
  unfold transportation_fallback. rewrite Hm, Hv, Hs, Ht.
  cbn [py_eq_str]. change (String.eqb "Self" "Self") with true. cbv iota.
  cbn [fuel_efficiency_of expect_str py_title rbind]. fold d e.
  pose proof (fuel_texts_of_route source destination vehicle_type) as Hx.
  fold d e in Hx. unfold fuel_texts_exact in Hx. fold tenths in Hx.
  apply andb_prop in Hx as [H1 H2]. apply String.eqb_eq in H1, H2.
  rewrite H1, H2.
  do 2 eexists. split; [reflexivity|]. split; [reflexivity|].
  split; [reflexivity|]. split; [reflexivity|]. split; [|reflexivity].
  simpl. now rewrite !str_app_assoc.
Qed.

(** From Mumbai to Goa in an SUV: 450 km, 37.5 litres, 3750 rupees. *)
Lemma goa_drive_fuel_estimate :
  In 12 [15; 12; 45; 18]
  /\ exists self_mode fuel_estimate,
       transportation_fallback goa_drive = Ok (VDict [ ("self_mode", VDict self_mode) ])
       /\ dict_get "fuel_estimate" self_mode = Some (VDict fuel_estimate)
       /\ dict_get "total_distance" fuel_estimate = Some (VStr "450 KM")
       /\ dict_get "fuel_efficiency" fuel_estimate = Some (VStr "12 km/l")
       /\ dict_get "fuel_needed" fuel_estimate = Some (VStr "37.5 liters")
       /\ dict_get "fuel_cost" fuel_estimate = Some (VStr "₹3750").
Proof.
  pose proof (self_fallback_fuel_estimate goa_drive "suv" "Mumbai" "Goa"
                eq_refl eq_refl eq_refl eq_refl) as H.
  cbv zeta in H.
  change (get_approximate_distance "Mumbai" "Goa") with 450 in H.
  change (dict_get_default server_fuel_efficiency "suv" 15) with 12 in H.
  exact H.
Defined.

(* ===================================================================== *)
(** * The spelling of the travel mode *)
(* ===================================================================== *)

Lemma transform_transportation backend_result (user_input : pydict) out :
  transform_backend_response_to_frontend_format backend_result (VDict user_input) = Ok out ->
  let travel_mode := dict_get_default user_input "travel_mode" (VStr "Self") in
  exists section,
    py_index out "transportation" = Ok (VDict section)
    /\ dict_get "mode" section = Some travel_mode
    /\ dict_mem "self_mode" section = py_eq_str travel_mode "Self"
    /\ dict_mem "booking_mode" section = negb (py_eq_str travel_mode "Self").
Proof.
  unfold transform_backend_response_to_frontend_format.
  destruct (frontend_budget_status _) as [st|e]; cbn [rbind]; [|discriminate].
  destruct (py_get _ "minimum_required" (VInt 15000)) as [mn|e]; cbn [rbind]; [|discriminate].
  intros [= <-]. cbv zeta.
  destruct (py_eq_str (dict_get_default user_input "travel_mode" (VStr "Self")) "Self");
    eexists; (split; [reflexivity|]); repeat split.
Qed.

Lemma enhance_response_features json_loads now text travel_input bv dv v mode :
  dict_get_default travel_input "travel_mode" (VStr "Self") = VStr mode ->
  enhance_response json_loads now text travel_input bv dv = Ok v ->
  exists features,
    py_index v (if String.eqb (str_lower mode) "self"
                then "self_mode_features" else "booking_mode_features") = Ok features.
Proof.
  intros Hm. unfold enhance_response. rewrite Hm.
  destruct (parse_or_wrap _ _ _ _) as [i0|e]; cbn [rbind]; [|discriminate].
  destruct (py_setitem i0 _ bv) as [i1|e]; cbn [rbind]; [|discriminate].
  destruct (py_setitem i1 _ dv) as [i2|e]; cbn [rbind py_lower]; [|discriminate].
  destruct (String.eqb (str_lower mode) "self").
  - unfold _enhance_self_mode.
    destruct (_calculate_fuel_costs _); cbn [rbind]; [|discriminate].
    intros E. eexists. exact (py_setitem_get _ _ _ _ E).
  - unfold _enhance_booking_mode. intros E. eexists. exact (py_setitem_get _ _ _ _ E).
Qed.

(** X19. A travel mode that spells 'self' in other letters than 'Self'
    ('self', 'SELF', ...) is read in two ways.  [validate_budget] and the
    processing of the response compare it in small letters: the minimum
    budget is that of a drive, and the itinerary gets the
    self_mode_features.  [transform_backend_response_to_frontend_format]
    and the estimate of [get_transportation_details] compare it as it is
    written: the frontend is shown the booking_mode section and no
    self_mode, and the estimate is empty. *)
Theorem travel_mode_spelling_read_two_ways (travel_input backend_result : pydict)
    (mode theme : string) (json_loads : string -> result pyval) (now text : string)
    (bv dv out itinerary : pyval) :
  dict_get_default travel_input "travel_mode" (VStr "Self") = VStr mode ->
  dict_get_default travel_input "theme" (VStr "cultural") = VStr theme ->
  str_lower mode = "self" -> mode <> "Self" ->
  transform_backend_response_to_frontend_format backend_result (VDict travel_input) = Ok out ->
  enhance_response json_loads now text travel_input bv dv = Ok itinerary ->
  spec_minimum_budget (parse_duration_days travel_input) mode theme
  = spec_minimum_budget (parse_duration_days travel_input) "Self" theme
  /\ (exists features, py_index itinerary "self_mode_features" = Ok features)
  /\ (exists section,
        py_index out "transportation" = Ok (VDict section)
        /\ dict_mem "self_mode" section = false
        /\ dict_mem "booking_mode" section = true)
  /\ transportation_fallback travel_input = Ok (VDict []).
Proof.
  intros Hm Ht Hl Hne Hout Hit. split; [|split; [|split]].
  - unfold spec_minimum_budget. now rewrite Hl.
  - destruct (enhance_response_features _ _ _ _ _ _ _ _ Hm Hit) as (f & Hf).
    rewrite Hl in Hf. now exists f.
  - destruct (transform_transportation _ _ _ Hout) as (section & H1 & _ & H2 & H3).
    cbv zeta in H2, H3. rewrite Hm in H2, H3. simpl in H2, H3.
    apply String.eqb_neq in Hne. rewrite Hne in H2, H3. now exists section.
  - unfold transportation_fallback. rewrite Hm. simpl py_eq_str.
    apply String.eqb_neq in Hne. rewrite Hne.
    destruct (String.eqb_spec mode "Booking") as [->|_]; [discriminate Hl|reflexivity].
Qed.

(** The trip to Goa with the mode written 'self'. *)
Lemma goa_trip_small_letters_two_ways :
  spec_minimum_budget (parse_duration_days goa_trip_small_letters) "self" "adventurous"
  = spec_minimum_budget (parse_duration_days goa_trip_small_letters) "Self" "adventurous"
  /\ (exists features, py_index small_letters_itinerary "self_mode_features" = Ok features)
  /\ (exists section,
        py_index small_letters_frontend "transportation" = Ok (VDict section)
        /\ dict_mem "self_mode" section = false
        /\ dict_mem "booking_mode" section = true)
  /\ transportation_fallback goa_trip_small_letters = Ok (VDict []).
Proof.
  exact (travel_mode_spelling_read_two_ways goa_trip_small_letters
           [ ("budget_validation", validate_budget goa_trip_small_letters) ]
           "self" "adventurous" forging_json_loads "2025-01-01T00:00:00" "{}"
           (validate_budget goa_trip_small_letters) (validate_duration (VStr "4 days"))
           small_letters_frontend small_letters_itinerary
           eq_refl eq_refl eq_refl ltac:(discriminate)
           ltac:(vm_compute; reflexivity) ltac:(vm_compute; reflexivity)).
Defined.
